(** * SpoMoodAgent: the Spotify search tool and the result formatter

    A shallow embedding of [my_agent/spotify_tool.py] and of the helper
    functions of [my_agent/agent.py], followed by the properties of the
    token cache, the playlist ranker, the track collector, the error
    mapping and the formatter.

    Conventions of the embedding.
    - Python objects that come out of [r.json()] are values of the type
      [value]; a dict is an association list in insertion order, which is
      also the order in which Python prints it.
    - Text is [string], holding the UTF-8 bytes of the Python str.  The
      operations that go character by character ([strip], [lower], [int],
      [repr], iteration) cut the bytes into characters first and follow
      Python 3.11 with its Unicode 14 tables, inside and outside ASCII.
      JSON numbers and the clock are integers ([Z]).
    - An operation that can raise returns an [outcome]; an operation that
      also touches the tool object, the clock or the network is a function
      from a [machine] to an [outcome] and the machine it leaves behind, so
      that what an exception leaves in the object stays visible. *)

From Stdlib Require Import ZArith List String Ascii Bool Lia.
From Stdlib Require Import DecimalString Permutation Sorted.
Import ListNotations.

Set Warnings "-register-all".

Local Open Scope string_scope.
Local Open Scope Z_scope.

(** ** Python values *)

Inductive value : Type :=
| VNone
| VBool (b : bool)
| VInt (z : Z)
| VStr (s : string)
| VList (l : list value)
| VDict (d : list (string * value)).

(** [type(v).__name__], as the interpreter prints it in its messages. *)
Definition type_name (v : value) : string :=
  match v with
  | VNone => "NoneType"
  | VBool _ => "bool"
  | VInt _ => "int"
  | VStr _ => "str"
  | VList _ => "list"
  | VDict _ => "dict"
  end.

(** [bool(v)]. *)
Definition truthy (v : value) : bool :=
  match v with
  | VNone => false
  | VBool b => b
  | VInt z => negb (z =? 0)
  | VStr s => negb (String.eqb s "")
  | VList l => match l with [] => false | _ => true end
  | VDict d => match d with [] => false | _ => true end
  end.

(** [a or b]. *)
Definition py_or (a b : value) : value := if truthy a then a else b.

(** [bool] is a subclass of [int]: the number a value stands for in
    arithmetic and comparisons, if it is one. *)
Definition as_int (v : value) : option Z :=
  match v with
  | VInt z => Some z
  | VBool b => Some (if b then 1 else 0)
  | _ => None
  end.

(** ** Text *)

(** [needle in hay], for two strings: the bytes of the needle occur in
    the hay, which for well-formed text is to say that its characters
    do. *)
Fixpoint contains (needle hay : string) : bool :=
  if String.prefix needle hay then true
  else match hay with
       | EmptyString => false
       | String _ r => contains needle r
       end.

(** *** Characters

    A text holds the UTF-8 bytes of a Python str.  [characters] cuts it
    into its characters, each a well-formed sequence of one to four bytes;
    a byte that belongs to no well-formed sequence is a character of its
    own, as in the str Python makes of a command-line argument with such a
    byte (a lone surrogate, [0xDC00] plus the byte). *)

Definition byte (c : ascii) : N := N_of_ascii c.

Definition byte_in (lo hi : N) (c : ascii) : bool :=
  ((lo <=? byte c) && (byte c <=? hi))%N.

(** The well-formed sequences of two, three and four bytes. *)
Definition seq2 (a b : ascii) : bool :=
  byte_in 194 223 a && byte_in 128 191 b.

Definition seq3 (a b c : ascii) : bool :=
  (byte_in 224 224 a && byte_in 160 191 b
   || byte_in 225 236 a && byte_in 128 191 b
   || byte_in 237 237 a && byte_in 128 159 b
   || byte_in 238 239 a && byte_in 128 191 b)
  && byte_in 128 191 c.

Definition seq4 (a b c d : ascii) : bool :=
  (byte_in 240 240 a && byte_in 144 191 b
   || byte_in 241 243 a && byte_in 128 191 b
   || byte_in 244 244 a && byte_in 128 143 b)
  && byte_in 128 191 c && byte_in 128 191 d.

Fixpoint characters (s : string) : list string :=
  match s with
  | EmptyString => []
  | String a r =>
      match r with
      | String b r2 =>
          if seq2 a b then String a (String b "") :: characters r2
          else
            match r2 with
            | String c r3 =>
                if seq3 a b c
                then String a (String b (String c "")) :: characters r3
                else
                  match r3 with
                  | String d r4 =>
                      if seq4 a b c d
                      then String a (String b (String c (String d "")))
                           :: characters r4
                      else String a "" :: characters r
                  | EmptyString => String a "" :: characters r
                  end
            | EmptyString => String a "" :: characters r
            end
      | EmptyString => [String a ""]
      end
  end.

(** [ord(ch)] for one character. *)
Definition code_point (ch : string) : N :=
  match ch with
  | String a EmptyString =>
      if (byte a <? 128)%N then byte a else (56320 + byte a)%N
  | String a (String b EmptyString) =>
      ((byte a - 192) * 64 + (byte b - 128))%N
  | String a (String b (String c EmptyString)) =>
      ((byte a - 224) * 4096 + (byte b - 128) * 64 + (byte c - 128))%N
  | String a (String b (String c (String d EmptyString))) =>
      ((byte a - 240) * 262144 + (byte b - 128) * 4096 + (byte c - 128) * 64
       + (byte d - 128))%N
  | _ => 0%N
  end.

Definition in_ranges (n : N) (ranges : list (N * N)) : bool :=
  existsb (fun r => ((fst r <=? n) && (n <=? snd r))%N) ranges.

(** The characters for which [str.isspace] holds: the ASCII ones (tab to
    carriage return, the separators 0x1c-0x1f, space), next line, the
    no-break spaces, the Unicode spaces and the line and paragraph
    separators. *)
Definition whitespace : list (N * N) :=
  [(9, 13); (28, 32); (133, 133); (160, 160); (5760, 5760); (8192, 8202);
   (8232, 8233); (8239, 8239); (8287, 8287); (12288, 12288)]%N.

(** [ch.isspace()] for one character. *)
Definition is_space (ch : string) : bool := in_ranges (code_point ch) whitespace.

Fixpoint drop_space (l : list string) : list string :=
  match l with
  | [] => []
  | ch :: r => if is_space ch then drop_space r else l
  end.

(** [s.strip()]: the text without the whitespace characters at its two
    ends. *)
Definition strip (s : string) : string :=
  String.concat "" (rev (drop_space (rev (drop_space (characters s))))).

(** The first [n] characters of a text. *)
Definition clip (n : nat) (s : string) : string :=
  String.concat "" (firstn n (characters s)).

(** *** Lower case

    [str.lower] goes by the Unicode character database (version 14, the
    one of Python 3.11).  A character with a lower-case form is replaced
    by it; capital I with dot above becomes two characters; capital sigma
    becomes the final sigma when a cased character comes before it and
    none comes after it, characters that are ignored for case set
    aside. *)

(** The UTF-8 bytes of the character with code point [n]. *)
Definition utf8 (n : N) : string :=
  if (n <? 128)%N then String (ascii_of_N n) ""
  else if (n <? 2048)%N
       then String (ascii_of_N (192 + n / 64)) (String (ascii_of_N (128 + n mod 64)) "")
       else if (n <? 65536)%N
            then String (ascii_of_N (224 + n / 4096))
                   (String (ascii_of_N (128 + (n / 64) mod 64))
                      (String (ascii_of_N (128 + n mod 64)) ""))
            else String (ascii_of_N (240 + n / 262144))
                   (String (ascii_of_N (128 + (n / 4096) mod 64))
                      (String (ascii_of_N (128 + (n / 64) mod 64))
                         (String (ascii_of_N (128 + n mod 64)) ""))).

(** The characters with a lower-case form, in runs: from the first to the
    last code point in steps of the third number, onto the run that
    starts at the fourth. *)
Definition lower_runs : list (N * N * N * N) :=
  [(65, 90, 1, 97); (192, 214, 1, 224); (216, 222, 1, 248);
   (256, 302, 2, 257); (306, 310, 2, 307); (313, 327, 2, 314);
   (330, 374, 2, 331); (376, 376, 1, 255); (377, 381, 2, 378);
   (385, 385, 1, 595); (386, 388, 2, 387); (390, 390, 1, 596);
   (391, 391, 1, 392); (393, 394, 1, 598); (395, 395, 1, 396);
   (398, 398, 1, 477); (399, 399, 1, 601); (400, 400, 1, 603);
   (401, 401, 1, 402); (403, 403, 1, 608); (404, 404, 1, 611);
   (406, 406, 1, 617); (407, 407, 1, 616); (408, 408, 1, 409);
   (412, 412, 1, 623); (413, 413, 1, 626); (415, 415, 1, 629);
   (416, 420, 2, 417); (422, 422, 1, 640); (423, 423, 1, 424);
   (425, 425, 1, 643); (428, 428, 1, 429); (430, 430, 1, 648);
   (431, 431, 1, 432); (433, 434, 1, 650); (435, 437, 2, 436);
   (439, 439, 1, 658); (440, 440, 1, 441); (444, 444, 1, 445);
   (452, 452, 1, 454); (453, 453, 1, 454); (455, 455, 1, 457);
   (456, 456, 1, 457); (458, 458, 1, 460); (459, 475, 2, 460);
   (478, 494, 2, 479); (497, 497, 1, 499); (498, 500, 2, 499);
   (502, 502, 1, 405); (503, 503, 1, 447); (504, 542, 2, 505);
   (544, 544, 1, 414); (546, 562, 2, 547); (570, 570, 1, 11365);
   (571, 571, 1, 572); (573, 573, 1, 410); (574, 574, 1, 11366);
   (577, 577, 1, 578); (579, 579, 1, 384); (580, 580, 1, 649);
   (581, 581, 1, 652); (582, 590, 2, 583); (880, 882, 2, 881);
   (886, 886, 1, 887); (895, 895, 1, 1011); (902, 902, 1, 940);
   (904, 906, 1, 941); (908, 908, 1, 972); (910, 911, 1, 973);
   (913, 929, 1, 945); (931, 939, 1, 963); (975, 975, 1, 983);
   (984, 1006, 2, 985); (1012, 1012, 1, 952); (1015, 1015, 1, 1016);
   (1017, 1017, 1, 1010); (1018, 1018, 1, 1019); (1021, 1023, 1, 891);
   (1024, 1039, 1, 1104); (1040, 1071, 1, 1072); (1120, 1152, 2, 1121);
   (1162, 1214, 2, 1163); (1216, 1216, 1, 1231); (1217, 1229, 2, 1218);
   (1232, 1326, 2, 1233); (1329, 1366, 1, 1377); (4256, 4293, 1, 11520);
   (4295, 4295, 1, 11559); (4301, 4301, 1, 11565); (5024, 5103, 1, 43888);
   (5104, 5109, 1, 5112); (7312, 7354, 1, 4304); (7357, 7359, 1, 4349);
   (7680, 7828, 2, 7681); (7838, 7838, 1, 223); (7840, 7934, 2, 7841);
   (7944, 7951, 1, 7936); (7960, 7965, 1, 7952); (7976, 7983, 1, 7968);
   (7992, 7999, 1, 7984); (8008, 8013, 1, 8000); (8025, 8031, 2, 8017);
   (8040, 8047, 1, 8032); (8072, 8079, 1, 8064); (8088, 8095, 1, 8080);
   (8104, 8111, 1, 8096); (8120, 8121, 1, 8112); (8122, 8123, 1, 8048);
   (8124, 8124, 1, 8115); (8136, 8139, 1, 8050); (8140, 8140, 1, 8131);
   (8152, 8153, 1, 8144); (8154, 8155, 1, 8054); (8168, 8169, 1, 8160);
   (8170, 8171, 1, 8058); (8172, 8172, 1, 8165); (8184, 8185, 1, 8056);
   (8186, 8187, 1, 8060); (8188, 8188, 1, 8179); (8486, 8486, 1, 969);
   (8490, 8490, 1, 107); (8491, 8491, 1, 229); (8498, 8498, 1, 8526);
   (8544, 8559, 1, 8560); (8579, 8579, 1, 8580); (9398, 9423, 1, 9424);
   (11264, 11311, 1, 11312); (11360, 11360, 1, 11361);
   (11362, 11362, 1, 619); (11363, 11363, 1, 7549); (11364, 11364, 1, 637);
   (11367, 11371, 2, 11368); (11373, 11373, 1, 593); (11374, 11374, 1, 625);
   (11375, 11375, 1, 592); (11376, 11376, 1, 594); (11378, 11378, 1, 11379);
   (11381, 11381, 1, 11382); (11390, 11391, 1, 575);
   (11392, 11490, 2, 11393); (11499, 11501, 2, 11500);
   (11506, 11506, 1, 11507); (42560, 42604, 2, 42561);
   (42624, 42650, 2, 42625); (42786, 42798, 2, 42787);
   (42802, 42862, 2, 42803); (42873, 42875, 2, 42874);
   (42877, 42877, 1, 7545); (42878, 42886, 2, 42879);
   (42891, 42891, 1, 42892); (42893, 42893, 1, 613);
   (42896, 42898, 2, 42897); (42902, 42920, 2, 42903);
   (42922, 42922, 1, 614); (42923, 42923, 1, 604); (42924, 42924, 1, 609);
   (42925, 42925, 1, 620); (42926, 42926, 1, 618); (42928, 42928, 1, 670);
   (42929, 42929, 1, 647); (42930, 42930, 1, 669); (42931, 42931, 1, 43859);
   (42932, 42946, 2, 42933); (42948, 42948, 1, 42900);
   (42949, 42949, 1, 642); (42950, 42950, 1, 7566);
   (42951, 42953, 2, 42952); (42960, 42960, 1, 42961);
   (42966, 42968, 2, 42967); (42997, 42997, 1, 42998);
   (65313, 65338, 1, 65345); (66560, 66599, 1, 66600);
   (66736, 66771, 1, 66776); (66928, 66938, 1, 66967);
   (66940, 66954, 1, 66979); (66956, 66962, 1, 66995);
   (66964, 66965, 1, 67003); (68736, 68786, 1, 68800);
   (71840, 71871, 1, 71872); (93760, 93791, 1, 93792);
   (125184, 125217, 1, 125218)]%N.

Fixpoint lower_in (n : N) (runs : list (N * N * N * N)) : option N :=
  match runs with
  | [] => None
  | (lo, hi, step, target) :: r =>
      if ((lo <=? n) && (n <=? hi) && ((n - lo) mod step =? 0))%N
      then Some (target + (n - lo))%N
      else lower_in n r
  end.

(** The characters that are ignored for case. *)
Definition case_ignorable : list (N * N) :=
  [(39, 39); (46, 46); (58, 58); (94, 94); (96, 96); (168, 168); (173, 173);
   (175, 175); (180, 180); (183, 184); (688, 879); (884, 885); (890, 890);
   (900, 901); (903, 903); (1155, 1161); (1369, 1369); (1375, 1375);
   (1425, 1469); (1471, 1471); (1473, 1474); (1476, 1477); (1479, 1479);
   (1524, 1524); (1536, 1541); (1552, 1562); (1564, 1564); (1600, 1600);
   (1611, 1631); (1648, 1648); (1750, 1757); (1759, 1768); (1770, 1773);
   (1807, 1807); (1809, 1809); (1840, 1866); (1958, 1968); (2027, 2037);
   (2042, 2042); (2045, 2045); (2070, 2093); (2137, 2139); (2184, 2184);
   (2192, 2193); (2200, 2207); (2249, 2306); (2362, 2362); (2364, 2364);
   (2369, 2376); (2381, 2381); (2385, 2391); (2402, 2403); (2417, 2417);
   (2433, 2433); (2492, 2492); (2497, 2500); (2509, 2509); (2530, 2531);
   (2558, 2558); (2561, 2562); (2620, 2620); (2625, 2626); (2631, 2632);
   (2635, 2637); (2641, 2641); (2672, 2673); (2677, 2677); (2689, 2690);
   (2748, 2748); (2753, 2757); (2759, 2760); (2765, 2765); (2786, 2787);
   (2810, 2815); (2817, 2817); (2876, 2876); (2879, 2879); (2881, 2884);
   (2893, 2893); (2901, 2902); (2914, 2915); (2946, 2946); (3008, 3008);
   (3021, 3021); (3072, 3072); (3076, 3076); (3132, 3132); (3134, 3136);
   (3142, 3144); (3146, 3149); (3157, 3158); (3170, 3171); (3201, 3201);
   (3260, 3260); (3263, 3263); (3270, 3270); (3276, 3277); (3298, 3299);
   (3328, 3329); (3387, 3388); (3393, 3396); (3405, 3405); (3426, 3427);
   (3457, 3457); (3530, 3530); (3538, 3540); (3542, 3542); (3633, 3633);
   (3636, 3642); (3654, 3662); (3761, 3761); (3764, 3772); (3782, 3782);
   (3784, 3789); (3864, 3865); (3893, 3893); (3895, 3895); (3897, 3897);
   (3953, 3966); (3968, 3972); (3974, 3975); (3981, 3991); (3993, 4028);
   (4038, 4038); (4141, 4144); (4146, 4151); (4153, 4154); (4157, 4158);
   (4184, 4185); (4190, 4192); (4209, 4212); (4226, 4226); (4229, 4230);
   (4237, 4237); (4253, 4253); (4348, 4348); (4957, 4959); (5906, 5908);
   (5938, 5939); (5970, 5971); (6002, 6003); (6068, 6069); (6071, 6077);
   (6086, 6086); (6089, 6099); (6103, 6103); (6109, 6109); (6155, 6159);
   (6211, 6211); (6277, 6278); (6313, 6313); (6432, 6434); (6439, 6440);
   (6450, 6450); (6457, 6459); (6679, 6680); (6683, 6683); (6742, 6742);
   (6744, 6750); (6752, 6752); (6754, 6754); (6757, 6764); (6771, 6780);
   (6783, 6783); (6823, 6823); (6832, 6862); (6912, 6915); (6964, 6964);
   (6966, 6970); (6972, 6972); (6978, 6978); (7019, 7027); (7040, 7041);
   (7074, 7077); (7080, 7081); (7083, 7085); (7142, 7142); (7144, 7145);
   (7149, 7149); (7151, 7153); (7212, 7219); (7222, 7223); (7288, 7293);
   (7376, 7378); (7380, 7392); (7394, 7400); (7405, 7405); (7412, 7412);
   (7416, 7417); (7468, 7530); (7544, 7544); (7579, 7679); (8125, 8125);
   (8127, 8129); (8141, 8143); (8157, 8159); (8173, 8175); (8189, 8190);
   (8203, 8207); (8216, 8217); (8228, 8228); (8231, 8231); (8234, 8238);
   (8288, 8292); (8294, 8303); (8305, 8305); (8319, 8319); (8336, 8348);
   (8400, 8432); (11388, 11389); (11503, 11505); (11631, 11631);
   (11647, 11647); (11744, 11775); (11823, 11823); (12293, 12293);
   (12330, 12333); (12337, 12341); (12347, 12347); (12441, 12446);
   (12540, 12542); (40981, 40981); (42232, 42237); (42508, 42508);
   (42607, 42610); (42612, 42621); (42623, 42623); (42652, 42655);
   (42736, 42737); (42752, 42785); (42864, 42864); (42888, 42890);
   (42994, 42996); (43000, 43001); (43010, 43010); (43014, 43014);
   (43019, 43019); (43045, 43046); (43052, 43052); (43204, 43205);
   (43232, 43249); (43263, 43263); (43302, 43309); (43335, 43345);
   (43392, 43394); (43443, 43443); (43446, 43449); (43452, 43453);
   (43471, 43471); (43493, 43494); (43561, 43566); (43569, 43570);
   (43573, 43574); (43587, 43587); (43596, 43596); (43632, 43632);
   (43644, 43644); (43696, 43696); (43698, 43700); (43703, 43704);
   (43710, 43711); (43713, 43713); (43741, 43741); (43756, 43757);
   (43763, 43764); (43766, 43766); (43867, 43871); (43881, 43883);
   (44005, 44005); (44008, 44008); (44013, 44013); (64286, 64286);
   (64434, 64450); (65024, 65039); (65043, 65043); (65056, 65071);
   (65106, 65106); (65109, 65109); (65279, 65279); (65287, 65287);
   (65294, 65294); (65306, 65306); (65342, 65342); (65344, 65344);
   (65392, 65392); (65438, 65439); (65507, 65507); (65529, 65531);
   (66045, 66045); (66272, 66272); (66422, 66426); (67456, 67461);
   (67463, 67504); (67506, 67514); (68097, 68099); (68101, 68102);
   (68108, 68111); (68152, 68154); (68159, 68159); (68325, 68326);
   (68900, 68903); (69291, 69292); (69446, 69456); (69506, 69509);
   (69633, 69633); (69688, 69702); (69744, 69744); (69747, 69748);
   (69759, 69761); (69811, 69814); (69817, 69818); (69821, 69821);
   (69826, 69826); (69837, 69837); (69888, 69890); (69927, 69931);
   (69933, 69940); (70003, 70003); (70016, 70017); (70070, 70078);
   (70089, 70092); (70095, 70095); (70191, 70193); (70196, 70196);
   (70198, 70199); (70206, 70206); (70367, 70367); (70371, 70378);
   (70400, 70401); (70459, 70460); (70464, 70464); (70502, 70508);
   (70512, 70516); (70712, 70719); (70722, 70724); (70726, 70726);
   (70750, 70750); (70835, 70840); (70842, 70842); (70847, 70848);
   (70850, 70851); (71090, 71093); (71100, 71101); (71103, 71104);
   (71132, 71133); (71219, 71226); (71229, 71229); (71231, 71232);
   (71339, 71339); (71341, 71341); (71344, 71349); (71351, 71351);
   (71453, 71455); (71458, 71461); (71463, 71467); (71727, 71735);
   (71737, 71738); (71995, 71996); (71998, 71998); (72003, 72003);
   (72148, 72151); (72154, 72155); (72160, 72160); (72193, 72202);
   (72243, 72248); (72251, 72254); (72263, 72263); (72273, 72278);
   (72281, 72283); (72330, 72342); (72344, 72345); (72752, 72758);
   (72760, 72765); (72767, 72767); (72850, 72871); (72874, 72880);
   (72882, 72883); (72885, 72886); (73009, 73014); (73018, 73018);
   (73020, 73021); (73023, 73029); (73031, 73031); (73104, 73105);
   (73109, 73109); (73111, 73111); (73459, 73460); (78896, 78904);
   (92912, 92916); (92976, 92982); (92992, 92995); (94031, 94031);
   (94095, 94111); (94176, 94177); (94179, 94180); (110576, 110579);
   (110581, 110587); (110589, 110590); (113821, 113822); (113824, 113827);
   (118528, 118573); (118576, 118598); (119143, 119145); (119155, 119170);
   (119173, 119179); (119210, 119213); (119362, 119364); (121344, 121398);
   (121403, 121452); (121461, 121461); (121476, 121476); (121499, 121503);
   (121505, 121519); (122880, 122886); (122888, 122904); (122907, 122913);
   (122915, 122916); (122918, 122922); (123184, 123197); (123566, 123566);
   (123628, 123631); (125136, 125142); (125252, 125259); (127995, 127999);
   (917505, 917505); (917536, 917631); (917760, 917999)]%N.

(** The cased characters; those that are also ignored for case are left
    out, as they are never looked up. *)
Definition cased : list (N * N) :=
  [(65, 90); (97, 122); (170, 170); (181, 181); (186, 186); (192, 214);
   (216, 246); (248, 442); (444, 447); (452, 659); (661, 687); (880, 883);
   (886, 887); (891, 893); (895, 895); (902, 902); (904, 906); (908, 908);
   (910, 929); (931, 1013); (1015, 1153); (1162, 1327); (1329, 1366);
   (1376, 1416); (4256, 4293); (4295, 4295); (4301, 4301); (4304, 4346);
   (4349, 4351); (5024, 5109); (5112, 5117); (7296, 7304); (7312, 7354);
   (7357, 7359); (7424, 7467); (7531, 7543); (7545, 7578); (7680, 7957);
   (7960, 7965); (7968, 8005); (8008, 8013); (8016, 8023); (8025, 8025);
   (8027, 8027); (8029, 8029); (8031, 8061); (8064, 8116); (8118, 8124);
   (8126, 8126); (8130, 8132); (8134, 8140); (8144, 8147); (8150, 8155);
   (8160, 8172); (8178, 8180); (8182, 8188); (8450, 8450); (8455, 8455);
   (8458, 8467); (8469, 8469); (8473, 8477); (8484, 8484); (8486, 8486);
   (8488, 8488); (8490, 8493); (8495, 8500); (8505, 8505); (8508, 8511);
   (8517, 8521); (8526, 8526); (8544, 8575); (8579, 8580); (9398, 9449);
   (11264, 11387); (11390, 11492); (11499, 11502); (11506, 11507);
   (11520, 11557); (11559, 11559); (11565, 11565); (42560, 42605);
   (42624, 42651); (42786, 42863); (42865, 42887); (42891, 42894);
   (42896, 42954); (42960, 42961); (42963, 42963); (42965, 42969);
   (42997, 42998); (43002, 43002); (43824, 43866); (43872, 43880);
   (43888, 43967); (64256, 64262); (64275, 64279); (65313, 65338);
   (65345, 65370); (66560, 66639); (66736, 66771); (66776, 66811);
   (66928, 66938); (66940, 66954); (66956, 66962); (66964, 66965);
   (66967, 66977); (66979, 66993); (66995, 67001); (67003, 67004);
   (68736, 68786); (68800, 68850); (71840, 71903); (93760, 93823);
   (119808, 119892); (119894, 119964); (119966, 119967); (119970, 119970);
   (119973, 119974); (119977, 119980); (119982, 119993); (119995, 119995);
   (119997, 120003); (120005, 120069); (120071, 120074); (120077, 120084);
   (120086, 120092); (120094, 120121); (120123, 120126); (120128, 120132);
   (120134, 120134); (120138, 120144); (120146, 120485); (120488, 120512);
   (120514, 120538); (120540, 120570); (120572, 120596); (120598, 120628);
   (120630, 120654); (120656, 120686); (120688, 120712); (120714, 120744);
   (120746, 120770); (120772, 120779); (122624, 122633); (122635, 122654);
   (125184, 125251); (127280, 127305); (127312, 127337); (127344, 127369)]%N.

Fixpoint drop_ignorable (l : list string) : list string :=
  match l with
  | [] => []
  | ch :: r => if in_ranges (code_point ch) case_ignorable then drop_ignorable r else l
  end.

(** [before] holds the characters before the sigma, the nearest first;
    [after] those after it. *)
Definition final_sigma (before after : list string) : bool :=
  match drop_ignorable before with
  | [] => false
  | ch :: _ => in_ranges (code_point ch) cased
  end
  && match drop_ignorable after with
     | [] => true
     | ch :: _ => negb (in_ranges (code_point ch) cased)
     end.

Definition lower_char (before : list string) (ch : string) (after : list string)
  : string :=
  let n := code_point ch in
  if (n <? 128)%N
  then if ((65 <=? n) && (n <=? 90))%N then utf8 (n + 32) else ch
  else if (n =? 931)%N
       then if final_sigma before after then utf8 962 else utf8 963
       else if (n =? 304)%N then utf8 105 ++ utf8 775
            else match lower_in n lower_runs with
                 | Some n' => utf8 n'
                 | None => ch
                 end.

Fixpoint lower_from (before l : list string) : list string :=
  match l with
  | [] => []
  | ch :: r => lower_char before ch r :: lower_from (ch :: before) r
  end.

(** [s.lower()]. *)
Definition lower (s : string) : string :=
  String.concat "" (lower_from [] (characters s)).

(** [sep.join(parts)] for a list of strings. *)
Definition join (sep : string) (parts : list string) : string :=
  String.concat sep parts.

(** [str(n)] for an integer. *)
Definition str_of_Z (z : Z) : string := NilZero.string_of_int (Z.to_int z).

(** *** Integer literals

    [int(s)] first turns the str into ASCII: a character outside ASCII
    becomes a space when it is whitespace, its ASCII digit when it is a
    decimal digit of any script, and a question mark otherwise.  The
    ASCII text is then read: whitespace (tab to carriage return and space,
    not the separators 0x1c-0x1f), one sign, digits with single underscores
    between them, whitespace, and nothing more. *)

(** The characters with a decimal digit value come in runs that start at a
    zero; within a run the values go round from 0 to 9. *)
Definition decimal_runs : list (N * N) :=
  [(48, 57); (1632, 1641); (1776, 1785); (1984, 1993); (2406, 2415);
   (2534, 2543); (2662, 2671); (2790, 2799); (2918, 2927); (3046, 3055);
   (3174, 3183); (3302, 3311); (3430, 3439); (3558, 3567); (3664, 3673);
   (3792, 3801); (3872, 3881); (4160, 4169); (4240, 4249); (6112, 6121);
   (6160, 6169); (6470, 6479); (6608, 6617); (6784, 6793); (6800, 6809);
   (6992, 7001); (7088, 7097); (7232, 7241); (7248, 7257);
   (42528, 42537); (43216, 43225); (43264, 43273); (43472, 43481);
   (43504, 43513); (43600, 43609); (44016, 44025); (65296, 65305);
   (66720, 66729); (68912, 68921); (69734, 69743); (69872, 69881);
   (69942, 69951); (70096, 70105); (70384, 70393); (70736, 70745);
   (70864, 70873); (71248, 71257); (71360, 71369); (71472, 71481);
   (71904, 71913); (72016, 72025); (72784, 72793); (73040, 73049);
   (73120, 73129); (92768, 92777); (92864, 92873); (93008, 93017);
   (120782, 120831); (123200, 123209); (123632, 123641);
   (125264, 125273); (130032, 130041)]%N.

Fixpoint decimal_in (n : N) (runs : list (N * N)) : option N :=
  match runs with
  | [] => None
  | (lo, hi) :: r =>
      if ((lo <=? n) && (n <=? hi))%N then Some ((n - lo) mod 10)%N
      else decimal_in n r
  end.

Definition to_ascii (ch : string) : ascii :=
  let n := code_point ch in
  if (n <? 128)%N then ascii_of_N n
  else if is_space ch then " "%char
       else match decimal_in n decimal_runs with
            | Some d => ascii_of_N (48 + d)
            | None => "?"%char
            end.

Definition transform (s : string) : string :=
  string_of_list_ascii (map to_ascii (characters s)).

Definition is_c_space (c : ascii) : bool := byte_in 9 13 c || byte_in 32 32 c.

Fixpoint skip_space (s : string) : string :=
  match s with
  | EmptyString => EmptyString
  | String c r => if is_c_space c then skip_space r else s
  end.

Definition is_digit (c : ascii) : bool := byte_in 48 57 c.

Definition digit_val (c : ascii) : Z := Z.of_N (byte c - 48).

(** The run of digits and underscores at the head of [s]: the number read,
    how many digits it has and the text left; [None] when two underscores
    meet or the run ends in one. *)
Fixpoint scan_digits (s : string) (acc : Z) (digits : N) (after_underscore : bool)
  : option (Z * N * string) :=
  match s with
  | EmptyString => if after_underscore then None else Some (acc, digits, s)
  | String c r =>
      if is_digit c then scan_digits r (10 * acc + digit_val c) (digits + 1) false
      else if Ascii.eqb c "_"%char
           then if after_underscore then None else scan_digits r acc digits true
           else if after_underscore then None else Some (acc, digits, s)
  end.

(** What reading an integer literal comes to. *)
Inductive literal : Type :=
| Number (z : Z)
| Invalid
| TooLong (digits : N).

(** The limit on the digits of a literal is applied once the run of digits
    is read, before what follows the run is looked at. *)
Definition read_int (s : string) : literal :=
  let t := skip_space (transform s) in
  let '(negative, t) :=
    match t with
    | String "+"%char r => (false, r)
    | String "-"%char r => (true, r)
    | _ => (false, t)
    end in
  match t with
  | String "_"%char _ => Invalid
  | _ =>
      match scan_digits t 0 0 false with
      | None => Invalid
      | Some (z, digits, rest) =>
          if (4300 <? digits)%N then TooLong digits
          else if (digits =? 0)%N then Invalid
               else match skip_space rest with
                    | EmptyString => Number (if negative then - z else z)
                    | _ => Invalid
                    end
      end
  end.

(** *** [repr]

    [repr] of a str shows the printable characters as they are and the
    others escaped: the backslash and the quote in use with a backslash,
    line feed, carriage return and tab by their letters, and every other
    character that is not printable by its code point in two, four or
    eight hexadecimal digits. *)

Definition hex_digit (n : N) : ascii :=
  if (n <? 10)%N then ascii_of_N (48 + n) else ascii_of_N (87 + n).

(** The last [width] hexadecimal digits of [n]. *)
Fixpoint hex (width : nat) (n : N) : string :=
  match width with
  | O => EmptyString
  | S w => hex w (n / 16) ++ String (hex_digit (n mod 16)) ""
  end.

(** The characters for which [str.isprintable] fails: the controls, the
    separators other than the space, the format characters, the
    surrogates and what is private or unassigned. *)
Definition unprintable : list (N * N) :=
  [(0, 31); (127, 160); (173, 173); (888, 889); (896, 899); (907, 907);
   (909, 909); (930, 930); (1328, 1328); (1367, 1368); (1419, 1420);
   (1424, 1424); (1480, 1487); (1515, 1518); (1525, 1541); (1564, 1564);
   (1757, 1757); (1806, 1807); (1867, 1868); (1970, 1983); (2043, 2044);
   (2094, 2095); (2111, 2111); (2140, 2141); (2143, 2143); (2155, 2159);
   (2191, 2199); (2274, 2274); (2436, 2436); (2445, 2446); (2449, 2450);
   (2473, 2473); (2481, 2481); (2483, 2485); (2490, 2491); (2501, 2502);
   (2505, 2506); (2511, 2518); (2520, 2523); (2526, 2526); (2532, 2533);
   (2559, 2560); (2564, 2564); (2571, 2574); (2577, 2578); (2601, 2601);
   (2609, 2609); (2612, 2612); (2615, 2615); (2618, 2619); (2621, 2621);
   (2627, 2630); (2633, 2634); (2638, 2640); (2642, 2648); (2653, 2653);
   (2655, 2661); (2679, 2688); (2692, 2692); (2702, 2702); (2706, 2706);
   (2729, 2729); (2737, 2737); (2740, 2740); (2746, 2747); (2758, 2758);
   (2762, 2762); (2766, 2767); (2769, 2783); (2788, 2789); (2802, 2808);
   (2816, 2816); (2820, 2820); (2829, 2830); (2833, 2834); (2857, 2857);
   (2865, 2865); (2868, 2868); (2874, 2875); (2885, 2886); (2889, 2890);
   (2894, 2900); (2904, 2907); (2910, 2910); (2916, 2917); (2936, 2945);
   (2948, 2948); (2955, 2957); (2961, 2961); (2966, 2968); (2971, 2971);
   (2973, 2973); (2976, 2978); (2981, 2983); (2987, 2989); (3002, 3005);
   (3011, 3013); (3017, 3017); (3022, 3023); (3025, 3030); (3032, 3045);
   (3067, 3071); (3085, 3085); (3089, 3089); (3113, 3113); (3130, 3131);
   (3141, 3141); (3145, 3145); (3150, 3156); (3159, 3159); (3163, 3164);
   (3166, 3167); (3172, 3173); (3184, 3190); (3213, 3213); (3217, 3217);
   (3241, 3241); (3252, 3252); (3258, 3259); (3269, 3269); (3273, 3273);
   (3278, 3284); (3287, 3292); (3295, 3295); (3300, 3301); (3312, 3312);
   (3315, 3327); (3341, 3341); (3345, 3345); (3397, 3397); (3401, 3401);
   (3408, 3411); (3428, 3429); (3456, 3456); (3460, 3460); (3479, 3481);
   (3506, 3506); (3516, 3516); (3518, 3519); (3527, 3529); (3531, 3534);
   (3541, 3541); (3543, 3543); (3552, 3557); (3568, 3569); (3573, 3584);
   (3643, 3646); (3676, 3712); (3715, 3715); (3717, 3717); (3723, 3723);
   (3748, 3748); (3750, 3750); (3774, 3775); (3781, 3781); (3783, 3783);
   (3790, 3791); (3802, 3803); (3808, 3839); (3912, 3912); (3949, 3952);
   (3992, 3992); (4029, 4029); (4045, 4045); (4059, 4095); (4294, 4294);
   (4296, 4300); (4302, 4303); (4681, 4681); (4686, 4687); (4695, 4695);
   (4697, 4697); (4702, 4703); (4745, 4745); (4750, 4751); (4785, 4785);
   (4790, 4791); (4799, 4799); (4801, 4801); (4806, 4807); (4823, 4823);
   (4881, 4881); (4886, 4887); (4955, 4956); (4989, 4991); (5018, 5023);
   (5110, 5111); (5118, 5119); (5760, 5760); (5789, 5791); (5881, 5887);
   (5910, 5918); (5943, 5951); (5972, 5983); (5997, 5997); (6001, 6001);
   (6004, 6015); (6110, 6111); (6122, 6127); (6138, 6143); (6158, 6158);
   (6170, 6175); (6265, 6271); (6315, 6319); (6390, 6399); (6431, 6431);
   (6444, 6447); (6460, 6463); (6465, 6467); (6510, 6511); (6517, 6527);
   (6572, 6575); (6602, 6607); (6619, 6621); (6684, 6685); (6751, 6751);
   (6781, 6782); (6794, 6799); (6810, 6815); (6830, 6831); (6863, 6911);
   (6989, 6991); (7039, 7039); (7156, 7163); (7224, 7226); (7242, 7244);
   (7305, 7311); (7355, 7356); (7368, 7375); (7419, 7423); (7958, 7959);
   (7966, 7967); (8006, 8007); (8014, 8015); (8024, 8024); (8026, 8026);
   (8028, 8028); (8030, 8030); (8062, 8063); (8117, 8117); (8133, 8133);
   (8148, 8149); (8156, 8156); (8176, 8177); (8181, 8181); (8191, 8207);
   (8232, 8239); (8287, 8303); (8306, 8307); (8335, 8335); (8349, 8351);
   (8385, 8399); (8433, 8447); (8588, 8591); (9255, 9279); (9291, 9311);
   (11124, 11125); (11158, 11158); (11508, 11512); (11558, 11558);
   (11560, 11564); (11566, 11567); (11624, 11630); (11633, 11646);
   (11671, 11679); (11687, 11687); (11695, 11695); (11703, 11703);
   (11711, 11711); (11719, 11719); (11727, 11727); (11735, 11735);
   (11743, 11743); (11870, 11903); (11930, 11930); (12020, 12031);
   (12246, 12271); (12284, 12288); (12352, 12352); (12439, 12440);
   (12544, 12548); (12592, 12592); (12687, 12687); (12772, 12783);
   (12831, 12831); (42125, 42127); (42183, 42191); (42540, 42559);
   (42744, 42751); (42955, 42959); (42962, 42962); (42964, 42964);
   (42970, 42993); (43053, 43055); (43066, 43071); (43128, 43135);
   (43206, 43213); (43226, 43231); (43348, 43358); (43389, 43391);
   (43470, 43470); (43482, 43485); (43519, 43519); (43575, 43583);
   (43598, 43599); (43610, 43611); (43715, 43738); (43767, 43776);
   (43783, 43784); (43791, 43792); (43799, 43807); (43815, 43815);
   (43823, 43823); (43884, 43887); (44014, 44015); (44026, 44031);
   (55204, 55215); (55239, 55242); (55292, 63743); (64110, 64111);
   (64218, 64255); (64263, 64274); (64280, 64284); (64311, 64311);
   (64317, 64317); (64319, 64319); (64322, 64322); (64325, 64325);
   (64451, 64466); (64912, 64913); (64968, 64974); (64976, 65007);
   (65050, 65055); (65107, 65107); (65127, 65127); (65132, 65135);
   (65141, 65141); (65277, 65280); (65471, 65473); (65480, 65481);
   (65488, 65489); (65496, 65497); (65501, 65503); (65511, 65511);
   (65519, 65531); (65534, 65535); (65548, 65548); (65575, 65575);
   (65595, 65595); (65598, 65598); (65614, 65615); (65630, 65663);
   (65787, 65791); (65795, 65798); (65844, 65846); (65935, 65935);
   (65949, 65951); (65953, 65999); (66046, 66175); (66205, 66207);
   (66257, 66271); (66300, 66303); (66340, 66348); (66379, 66383);
   (66427, 66431); (66462, 66462); (66500, 66503); (66518, 66559);
   (66718, 66719); (66730, 66735); (66772, 66775); (66812, 66815);
   (66856, 66863); (66916, 66926); (66939, 66939); (66955, 66955);
   (66963, 66963); (66966, 66966); (66978, 66978); (66994, 66994);
   (67002, 67002); (67005, 67071); (67383, 67391); (67414, 67423);
   (67432, 67455); (67462, 67462); (67505, 67505); (67515, 67583);
   (67590, 67591); (67593, 67593); (67638, 67638); (67641, 67643);
   (67645, 67646); (67670, 67670); (67743, 67750); (67760, 67807);
   (67827, 67827); (67830, 67834); (67868, 67870); (67898, 67902);
   (67904, 67967); (68024, 68027); (68048, 68049); (68100, 68100);
   (68103, 68107); (68116, 68116); (68120, 68120); (68150, 68151);
   (68155, 68158); (68169, 68175); (68185, 68191); (68256, 68287);
   (68327, 68330); (68343, 68351); (68406, 68408); (68438, 68439);
   (68467, 68471); (68498, 68504); (68509, 68520); (68528, 68607);
   (68681, 68735); (68787, 68799); (68851, 68857); (68904, 68911);
   (68922, 69215); (69247, 69247); (69290, 69290); (69294, 69295);
   (69298, 69375); (69416, 69423); (69466, 69487); (69514, 69551);
   (69580, 69599); (69623, 69631); (69710, 69713); (69750, 69758);
   (69821, 69821); (69827, 69839); (69865, 69871); (69882, 69887);
   (69941, 69941); (69960, 69967); (70007, 70015); (70112, 70112);
   (70133, 70143); (70162, 70162); (70207, 70271); (70279, 70279);
   (70281, 70281); (70286, 70286); (70302, 70302); (70314, 70319);
   (70379, 70383); (70394, 70399); (70404, 70404); (70413, 70414);
   (70417, 70418); (70441, 70441); (70449, 70449); (70452, 70452);
   (70458, 70458); (70469, 70470); (70473, 70474); (70478, 70479);
   (70481, 70486); (70488, 70492); (70500, 70501); (70509, 70511);
   (70517, 70655); (70748, 70748); (70754, 70783); (70856, 70863);
   (70874, 71039); (71094, 71095); (71134, 71167); (71237, 71247);
   (71258, 71263); (71277, 71295); (71354, 71359); (71370, 71423);
   (71451, 71452); (71468, 71471); (71495, 71679); (71740, 71839);
   (71923, 71934); (71943, 71944); (71946, 71947); (71956, 71956);
   (71959, 71959); (71990, 71990); (71993, 71994); (72007, 72015);
   (72026, 72095); (72104, 72105); (72152, 72153); (72165, 72191);
   (72264, 72271); (72355, 72367); (72441, 72703); (72713, 72713);
   (72759, 72759); (72774, 72783); (72813, 72815); (72848, 72849);
   (72872, 72872); (72887, 72959); (72967, 72967); (72970, 72970);
   (73015, 73017); (73019, 73019); (73022, 73022); (73032, 73039);
   (73050, 73055); (73062, 73062); (73065, 73065); (73103, 73103);
   (73106, 73106); (73113, 73119); (73130, 73439); (73465, 73647);
   (73649, 73663); (73714, 73726); (74650, 74751); (74863, 74863);
   (74869, 74879); (75076, 77711); (77811, 77823); (78895, 82943);
   (83527, 92159); (92729, 92735); (92767, 92767); (92778, 92781);
   (92863, 92863); (92874, 92879); (92910, 92911); (92918, 92927);
   (92998, 93007); (93018, 93018); (93026, 93026); (93048, 93052);
   (93072, 93759); (93851, 93951); (94027, 94030); (94088, 94094);
   (94112, 94175); (94181, 94191); (94194, 94207); (100344, 100351);
   (101590, 101631); (101641, 110575); (110580, 110580); (110588, 110588);
   (110591, 110591); (110883, 110927); (110931, 110947); (110952, 110959);
   (111356, 113663); (113771, 113775); (113789, 113791); (113801, 113807);
   (113818, 113819); (113824, 118527); (118574, 118575); (118599, 118607);
   (118724, 118783); (119030, 119039); (119079, 119080); (119155, 119162);
   (119275, 119295); (119366, 119519); (119540, 119551); (119639, 119647);
   (119673, 119807); (119893, 119893); (119965, 119965); (119968, 119969);
   (119971, 119972); (119975, 119976); (119981, 119981); (119994, 119994);
   (119996, 119996); (120004, 120004); (120070, 120070); (120075, 120076);
   (120085, 120085); (120093, 120093); (120122, 120122); (120127, 120127);
   (120133, 120133); (120135, 120137); (120145, 120145); (120486, 120487);
   (120780, 120781); (121484, 121498); (121504, 121504); (121520, 122623);
   (122655, 122879); (122887, 122887); (122905, 122906); (122914, 122914);
   (122917, 122917); (122923, 123135); (123181, 123183); (123198, 123199);
   (123210, 123213); (123216, 123535); (123567, 123583); (123642, 123646);
   (123648, 124895); (124903, 124903); (124908, 124908); (124911, 124911);
   (124927, 124927); (125125, 125126); (125143, 125183); (125260, 125263);
   (125274, 125277); (125280, 126064); (126133, 126208); (126270, 126463);
   (126468, 126468); (126496, 126496); (126499, 126499); (126501, 126502);
   (126504, 126504); (126515, 126515); (126520, 126520); (126522, 126522);
   (126524, 126529); (126531, 126534); (126536, 126536); (126538, 126538);
   (126540, 126540); (126544, 126544); (126547, 126547); (126549, 126550);
   (126552, 126552); (126554, 126554); (126556, 126556); (126558, 126558);
   (126560, 126560); (126563, 126563); (126565, 126566); (126571, 126571);
   (126579, 126579); (126584, 126584); (126589, 126589); (126591, 126591);
   (126602, 126602); (126620, 126624); (126628, 126628); (126634, 126634);
   (126652, 126703); (126706, 126975); (127020, 127023); (127124, 127135);
   (127151, 127152); (127168, 127168); (127184, 127184); (127222, 127231);
   (127406, 127461); (127491, 127503); (127548, 127551); (127561, 127567);
   (127570, 127583); (127590, 127743); (128728, 128732); (128749, 128751);
   (128765, 128767); (128884, 128895); (128985, 128991); (129004, 129007);
   (129009, 129023); (129036, 129039); (129096, 129103); (129114, 129119);
   (129160, 129167); (129198, 129199); (129202, 129279); (129620, 129631);
   (129646, 129647); (129653, 129655); (129661, 129663); (129671, 129679);
   (129709, 129711); (129723, 129727); (129734, 129743); (129754, 129759);
   (129768, 129775); (129783, 129791); (129939, 129939); (129995, 130031);
   (130042, 131071); (173792, 173823); (177977, 177983); (178206, 178207);
   (183970, 183983); (191457, 194559); (195102, 196607); (201547, 917759);
   (918000, 1114111)]%N.

(** One character of [repr(s)], for the quote character [q] chosen. *)
Definition repr_char (q : ascii) (ch : string) : string :=
  let n := code_point ch in
  if String.eqb ch "\" then "\\"
  else if String.eqb ch (String q "") then String "\"%char (String q "")
  else if (n =? 10)%N then "\n"
  else if (n =? 13)%N then "\r"
  else if (n =? 9)%N then "\t"
  else if in_ranges n unprintable
       then if (n <? 256)%N then "\x" ++ hex 2 n
            else if (n <? 65536)%N then "\u" ++ hex 4 n
                 else "\U" ++ hex 8 n
       else ch.

Definition repr_chars (q : ascii) (s : string) : string :=
  String.concat "" (map (repr_char q) (characters s)).

Definition has_char (c : ascii) (s : string) : bool :=
  contains (String c "") s.

Definition dquote : ascii := ascii_of_nat 34.

(** [repr(s)] for a string: single quotes, unless the text has a single
    quote and no double quote. *)
Definition repr_str (s : string) : string :=
  let q := if has_char "'"%char s && negb (has_char dquote s)
           then dquote else "'"%char in
  String q (repr_chars q s ++ String q "").

(** [repr(v)]. *)
Fixpoint py_repr (v : value) : string :=
  match v with
  | VNone => "None"
  | VBool b => if b then "True" else "False"
  | VInt z => str_of_Z z
  | VStr s => repr_str s
  | VList l => "[" ++ join ", " (map py_repr l) ++ "]"
  | VDict d =>
      "{" ++ join ", " (map (fun kv => let '(k, x) := kv in
                                       repr_str k ++ ": " ++ py_repr x) d) ++ "}"
  end.

(** [str(v)], which is also what an f-string prints. *)
Definition py_str (v : value) : string :=
  match v with
  | VStr s => s
  | _ => py_repr v
  end.

(** ** Exceptions *)

(** The exception classes the program defines or can meet.
    [RequestException] stands for what [requests] raises when no response
    arrives (connection failure, timeout); [JSONDecodeError] is what
    [r.json()] raises on a body that is not JSON. *)
Inductive exn_class : Type :=
| SpotifyAuthError
| SpotifySearchError
| ValueError
| TypeError
| AttributeError
| JSONDecodeError
| RequestException
| RuntimeError
| IndexError.

(** An exception object: its class and [str(e)]. *)
Record exn : Type := Exn { exn_kind : exn_class; exn_msg : string }.

Inductive outcome (A : Type) : Type :=
| Ok (a : A)
| Raise (e : exn).

Arguments Ok {A} a.
Arguments Raise {A} e.

Definition exn_class_eqb (a b : exn_class) : bool :=
  match a, b with
  | SpotifyAuthError, SpotifyAuthError
  | SpotifySearchError, SpotifySearchError
  | ValueError, ValueError
  | TypeError, TypeError
  | AttributeError, AttributeError
  | JSONDecodeError, JSONDecodeError
  | RequestException, RequestException
  | RuntimeError, RuntimeError
  | IndexError, IndexError => true
  | _, _ => false
  end.

Definition obind {A B : Type} (c : outcome A) (k : A -> outcome B) : outcome B :=
  match c with
  | Ok a => k a
  | Raise e => Raise e
  end.

Declare Scope exc_scope.
Delimit Scope exc_scope with exc.
Notation "x <- c ;; k" := (obind c (fun x => k))
  (at level 100, c at next level, right associativity) : exc_scope.

(** ** Operations of the interpreter on values *)

Fixpoint lookup (k : string) (d : list (string * value)) : option value :=
  match d with
  | [] => None
  | (k', x) :: r => if String.eqb k k' then Some x else lookup k r
  end.

Definition no_attribute (v : value) (attr : string) : exn :=
  Exn AttributeError
      ("'" ++ type_name v ++ "' object has no attribute '" ++ attr ++ "'").

(** [v.get(k, default)]. *)
Definition py_get (v : value) (k : string) (default : value) : outcome value :=
  match v with
  | VDict d => Ok (match lookup k d with Some x => x | None => default end)
  | _ => Raise (no_attribute v "get")
  end.

(** [v.lower()]. *)
Definition py_lower (v : value) : outcome string :=
  match v with
  | VStr s => Ok (lower s)
  | _ => Raise (no_attribute v "lower")
  end.

Definition chars (s : string) : list value := map VStr (characters s).

(** The elements a [for] loop or a comprehension runs over. *)
Definition py_iter (v : value) : outcome (list value) :=
  match v with
  | VList l => Ok l
  | VStr s => Ok (chars s)
  | VDict d => Ok (map (fun kv => VStr (fst kv)) d)
  | _ => Raise (Exn TypeError ("'" ++ type_name v ++ "' object is not iterable"))
  end.

(** [v // n] for an integer [n]. *)
Definition py_floordiv (v : value) (n : Z) : outcome Z :=
  match as_int v with
  | Some z => Ok (z / n)
  | None => Raise (Exn TypeError ("unsupported operand type(s) for //: '"
                                    ++ type_name v ++ "' and 'int'"))
  end.

(** [min(v, n)] for an integer [n]; the comparison made is [n < v]. *)
Definition py_min (v : value) (n : Z) : outcome Z :=
  match as_int v with
  | Some z => Ok (Z.min z n)
  | None => Raise (Exn TypeError ("'<' not supported between instances of 'int' and '"
                                    ++ type_name v ++ "'"))
  end.

(** [int(s)] for a str; the message for a text that is no literal shows
    at most 200 characters of its [repr]. *)
Definition py_int (s : string) : outcome Z :=
  match read_int s with
  | Number z => Ok z
  | Invalid =>
      Raise (Exn ValueError ("invalid literal for int() with base 10: "
                             ++ clip 200 (repr_str s)))
  | TooLong digits =>
      Raise (Exn ValueError
               ("Exceeds the limit (4300 digits) for integer string conversion: value has "
                ++ str_of_Z (Z.of_N digits)
                ++ " digits; use sys.set_int_max_str_digits() to increase the limit"))
  end.

(** [sep.join(parts)]: every part has to be a string. *)
Fixpoint join_items (i : nat) (parts : list value) : outcome (list string) :=
  match parts with
  | [] => Ok []
  | VStr s :: r => (rest <- join_items (S i) r ;; Ok (s :: rest))%exc
  | v :: _ => Raise (Exn TypeError ("sequence item " ++ str_of_Z (Z.of_nat i)
                                      ++ ": expected str instance, "
                                      ++ type_name v ++ " found"))
  end.

(** [[f(x) for x in l]]: the elements in order, up to the first that
    raises. *)
Fixpoint map_outcome {A B : Type} (f : A -> outcome B) (l : list A) : outcome (list B) :=
  match l with
  | [] => Ok []
  | x :: r => (y <- f x ;; ys <- map_outcome f r ;; Ok (y :: ys))%exc
  end.

(** [l.append(x)]. *)
Definition append {A : Type} (l : list A) (x : A) : list A := List.app l [x].

Definition py_join (sep : string) (parts : list value) : outcome string :=
  (ss <- join_items 0 parts ;; Ok (join sep ss))%exc.

(** A line feed, and the em dash as its three UTF-8 bytes. *)
Definition nl : string := String (ascii_of_nat 10) "".

Definition em_dash : string :=
  String (ascii_of_nat 226) (String (ascii_of_nat 128) (String (ascii_of_nat 148) "")).

Definition is_none (v : value) : bool :=
  match v with VNone => true | _ => false end.

(** [base64.b64encode] on a byte string. *)
Definition b64_alphabet : string :=
  "ABCDEFGHIJKLMNOPQRSTUVWXYZabcdefghijklmnopqrstuvwxyz0123456789+/".

Definition b64_char (n : nat) : ascii :=
  match String.get n b64_alphabet with
  | Some c => c
  | None => "="%char
  end.

Fixpoint b64encode (s : string) : string :=
  match s with
  | EmptyString => EmptyString
  | String a EmptyString =>
      let x := nat_of_ascii a in
      String (b64_char (x / 4)) (String (b64_char ((x mod 4) * 16)) "==")
  | String a (String b EmptyString) =>
      let x := nat_of_ascii a in
      let y := nat_of_ascii b in
      String (b64_char (x / 4))
        (String (b64_char ((x mod 4) * 16 + y / 16))
           (String (b64_char ((y mod 16) * 4)) "="))
  | String a (String b (String c r)) =>
      let x := nat_of_ascii a in
      let y := nat_of_ascii b in
      let z := nat_of_ascii c in
      String (b64_char (x / 4))
        (String (b64_char ((x mod 4) * 16 + y / 16))
           (String (b64_char ((y mod 16) * 4 + z / 64))
              (String (b64_char (z mod 64)) (b64encode r))))
  end.

(** ** The network, the clock and the tool object *)

Inductive http_method : Type := GET | POST.

(** What [requests.get] and [requests.post] are given: the URL, the
    headers and the [params] or [data] dict. *)
Record request : Type := Request {
  meth : http_method;
  url : string;
  req_headers : list (string * string);
  payload : list (string * value)
}.

(** A response [r]: [json] is what [r.json()] returns, [None] when the
    body is not JSON. *)
Record response : Type := Response {
  status_code : Z;
  text : string;
  json : option value;
  headers : list (string * string)
}.

(** The server answers, or no response arrives within the timeout. *)
Inductive reply : Type :=
| Answered (r : response)
| Failed (msg : string).

(** The surroundings of a run: the reading of the [n]-th call of
    [time.time()], and the reply to a request given how many requests were
    sent before it. *)
Record env : Type := Env {
  clock : nat -> Z;
  server : nat -> request -> reply
}.

(** The fields of a [SpotifySearchTool]. *)
Record SpotifySearchTool : Type := Tool {
  client_id : option string;
  client_secret : option string;
  refresh_token : option string;
  _access_token : value;
  _token_expires_at : Z;
  token_cache_seconds : Z
}.

(** The tool object together with the number of clock readings taken and
    the requests sent so far, oldest first. *)
Record machine : Type := Machine {
  tool : SpotifySearchTool;
  reads : nat;
  sent : list request
}.

Definition io (A : Type) : Type := machine -> outcome A * machine.

Definition ret {A : Type} (a : A) : io A := fun m => (Ok a, m).

Definition raise {A : Type} (e : exn) : io A := fun m => (Raise e, m).

Definition bind {A B : Type} (c : io A) (k : A -> io B) : io B :=
  fun m => match c m with
           | (Ok a, m') => k a m'
           | (Raise e, m') => (Raise e, m')
           end.

Definition lift {A : Type} (o : outcome A) : io A := fun m => (o, m).

(** [try: c  except Exception as e: h e]. *)
Definition try_except {A : Type} (c : io A) (h : exn -> io A) : io A :=
  fun m => match c m with
           | (Ok a, m') => (Ok a, m')
           | (Raise e, m') => h e m'
           end.

Declare Scope io_scope.
Delimit Scope io_scope with io.
Notation "x <- c ;; k" := (bind c (fun x => k))
  (at level 100, c at next level, right associativity) : io_scope.
Notation "c ;;; k" := (bind c (fun _ => k))
  (at level 100, right associativity) : io_scope.

Definition get_self : io SpotifySearchTool := fun m => (Ok (tool m), m).

Definition set_access_token (v : value) : io unit :=
  fun m =>
    let t := tool m in
    (Ok tt,
     Machine (Tool (client_id t) (client_secret t) (refresh_token t)
                   v (_token_expires_at t) (token_cache_seconds t))
             (reads m) (sent m)).

Definition set_token_expires_at (z : Z) : io unit :=
  fun m =>
    let t := tool m in
    (Ok tt,
     Machine (Tool (client_id t) (client_secret t) (refresh_token t)
                   (_access_token t) z (token_cache_seconds t))
             (reads m) (sent m)).

Section Tool.

Variable world : env.

(** [time.time()]. *)
Definition time_time : io Z :=
  fun m => (Ok (clock world (reads m)), Machine (tool m) (S (reads m)) (sent m)).

(** Sending a request: it is recorded, then the reply comes or the
    transport raises. *)
Definition send (req : request) : io response :=
  fun m =>
    let m' := Machine (tool m) (reads m) (sent m ++ [req]) in
    match server world (List.length (sent m)) req with
    | Answered r => (Ok r, m')
    | Failed msg => (Raise (Exn RequestException msg), m')
    end.

Definition requests_post (u : string) (hs : list (string * string))
  (data : list (string * value)) : io response :=
  send (Request POST u hs data).

Definition requests_get (u : string) (hs : list (string * string))
  (params : list (string * value)) : io response :=
  send (Request GET u hs params).

(** [r.json()].  The message of the decoder's error tells where the
    body stops being JSON; it is kept here for a body that is not JSON
    from its first character on. *)
Definition r_json (r : response) : io value :=
  match json r with
  | Some v => ret v
  | None => raise (Exn JSONDecodeError "Expecting value: line 1 column 1 (char 0)")
  end.

(** [r.headers.get(k, default)]; header names compare without case. *)
Fixpoint header_get (hs : list (string * string)) (k default : string) : string :=
  match hs with
  | [] => default
  | (k', x) :: r => if String.eqb (lower k) (lower k') then x
                    else header_get r k default
  end.

(** ** spotify_tool.py *)

Definition SPOTIFY_TOKEN_URL : string := "https://accounts.spotify.com/api/token".
Definition SPOTIFY_SEARCH_URL : string := "https://api.spotify.com/v1/search".

(** [SPOTIFY_PLAYLIST_TRACKS_URL.format(playlist_id=playlist_id)]. *)
Definition SPOTIFY_PLAYLIST_TRACKS_URL (playlist_id : value) : string :=
  "https://api.spotify.com/v1/playlists/" ++ py_str playlist_id ++ "/tracks".

(** Truth value of an [Optional[str]]: [None] and the empty string are
    false. *)
Definition provided (c : option string) : bool :=
  match c with
  | Some s => negb (String.eqb s "")
  | None => false
  end.

(** An [Optional[str]] as an f-string prints it, and as a value. *)
Definition opt_value (c : option string) : value :=
  match c with
  | Some s => VStr s
  | None => VNone
  end.

(** [a or b] for two [Optional[str]]. *)
Definition opt_or (a b : option string) : option string :=
  if provided a then a else b.

(** [SpotifySearchTool.__init__]; [getenv] is [os.getenv]. *)
Definition init (getenv : string -> option string)
  (cid csecret rtoken : option string) (cache_seconds : Z) : SpotifySearchTool :=
  Tool (opt_or cid (getenv "SPOTIFY_CLIENT_ID"))
       (opt_or csecret (getenv "SPOTIFY_CLIENT_SECRET"))
       (opt_or rtoken (getenv "SPOTIFY_REFRESH_TOKEN"))
       VNone 0 cache_seconds.

Definition _refresh_access_token : io value :=
  (self <- get_self ;;
   if negb (provided (client_id self) && provided (client_secret self)
            && provided (refresh_token self))
   then raise (Exn SpotifyAuthError
                   "Spotify client ID / secret / refresh token not provided.")
   else
     now <- time_time ;;
     if truthy (_access_token self) && (now <? _token_expires_at self)
     then ret (_access_token self)
     else
       let auth_header :=
         b64encode (py_str (opt_value (client_id self)) ++ ":"
                    ++ py_str (opt_value (client_secret self))) in
       let hs := [("Authorization", "Basic " ++ auth_header);
                  ("Content-Type", "application/x-www-form-urlencoded")] in
       let data := [("grant_type", VStr "refresh_token");
                    ("refresh_token", opt_value (refresh_token self))] in
       r <- requests_post SPOTIFY_TOKEN_URL hs data ;;
       if negb (status_code r =? 200)
       then raise (Exn SpotifyAuthError
                       ("Failed to refresh token: " ++ str_of_Z (status_code r)
                        ++ " " ++ text r))
       else
         token_response <- r_json r ;;
         access_token <- lift (py_get token_response "access_token" VNone) ;;
         expires_in <- lift (py_get token_response "expires_in" (VInt 3600)) ;;
         if negb (truthy access_token)
         then raise (Exn SpotifyAuthError
                         ("Refresh response missing access_token: "
                          ++ py_str token_response))
         else
           set_access_token access_token ;;;
           lifetime <- lift (py_min expires_in (token_cache_seconds self)) ;;
           set_token_expires_at (now + lifetime) ;;;
           ret access_token)%io.

Definition _call_spotify (u : string) (params : list (string * value)) : io value :=
  (token <- _refresh_access_token ;;
   let hs := [("Authorization", "Bearer " ++ py_str token)] in
   r <- requests_get u hs params ;;
   if status_code r =? 429
   then
     retry_after <- lift (py_int (header_get (headers r) "Retry-After" "1")) ;;
     raise (Exn SpotifySearchError
                ("Rate limited by Spotify. Retry after " ++ str_of_Z retry_after
                 ++ " seconds."))
   else if 400 <=? status_code r
   then raise (Exn SpotifySearchError
                   ("Spotify API error: " ++ str_of_Z (status_code r) ++ " - "
                    ++ text r))
   else r_json r)%io.

(** [not mood or not mood.strip()]. *)
Definition blank (mood : string) : bool :=
  String.eqb mood "" || String.eqb (strip mood) "".

Definition search_playlists (mood : string) (limit : Z) : io (list value) :=
  (if blank mood
   then raise (Exn ValueError "Invalid mood value (empty).")
   else
     let q := mood ++ " playlist" in
     let params := [("q", VStr q); ("type", VStr "playlist"); ("limit", VInt limit)] in
     resp <- _call_spotify SPOTIFY_SEARCH_URL params ;;
     found <- lift (py_get resp "playlists" (VDict [])) ;;
     items <- lift (py_get found "items" (VList [])) ;;
     playlists <- lift (py_iter items) ;;
     ret (filter (fun p => negb (is_none p)) playlists))%io.

(** The dict appended for one track payload. *)
Definition track_entry (track : value) : outcome value :=
  (name <- py_get track "name" VNone ;;
   listed <- py_get track "artists" (VList []) ;;
   people <- py_iter listed ;;
   names <- map_outcome (fun a => py_get a "name" (VStr "")) people ;;
   artists <- py_join ", " names ;;
   preview_url <- py_get track "preview_url" VNone ;;
   links <- py_get track "external_urls" (VDict []) ;;
   external_urls <- py_get links "spotify" VNone ;;
   Ok (VDict [("name", name); ("artists", VStr artists);
              ("preview_url", preview_url); ("track_url", external_urls)]))%exc.

(** The loop of [get_playlist_top_tracks]: [tracks] is the list built so
    far. *)
Fixpoint collect_tracks (items : list value) (tracks : list value) (top_n : Z)
  : outcome (list value) :=
  match items with
  | [] => Ok tracks
  | it :: rest =>
      (track <- py_get it "track" VNone ;;
       if negb (truthy track)
       then collect_tracks rest tracks top_n
       else
         entry <- track_entry track ;;
         let tracks' := append tracks entry in
         if Z.of_nat (List.length tracks') >=? top_n
         then Ok tracks'
         else collect_tracks rest tracks' top_n)%exc
  end.

Definition get_playlist_top_tracks (playlist_id : value) (top_n : Z) : io (list value) :=
  (let u := SPOTIFY_PLAYLIST_TRACKS_URL playlist_id in
   let params := [("limit", VInt 50)] in
   resp <- _call_spotify u params ;;
   items <- lift (py_get resp "items" (VList [])) ;;
   its <- lift (py_iter items) ;;
   lift (collect_tracks its [] top_n))%io.

(** The score one pass of the loop of [choose_best_playlist] computes. *)
Definition score_playlist (mood_lower : string) (p : value) : outcome Z :=
  (let score := 0 in
   name_v <- py_get p "name" (VStr "") ;;
   name <- py_lower name_v ;;
   desc_v <- py_get p "description" (VStr "") ;;
   desc <- py_lower desc_v ;;
   let score := if contains mood_lower name then score + 50 else score in
   let score := if contains mood_lower desc then score + 30 else score in
   counts <- py_get p "followers" (VDict []) ;;
   followers <- py_get counts "total" (VInt 0) ;;
   thousands <- py_floordiv followers 1000 ;;
   Ok (score + Z.min thousands 20))%exc.

(** The list [scored] once the loop is over. *)
Fixpoint score_all (mood_lower : string) (playlists : list value)
  : outcome (list (Z * value)) :=
  match playlists with
  | [] => Ok []
  | p :: rest =>
      (score <- score_playlist mood_lower p ;;
       others <- score_all mood_lower rest ;;
       Ok ((score, p) :: others))%exc
  end.

(** [scored.sort(key=lambda x: x[0], reverse=True)]: Python's sort is
    stable, also with [reverse=True], so the result is the one list that
    is a permutation of [scored], has its scores in descending order and
    keeps entries of equal score in their order.  It is built here by
    insertion from the right. *)
Fixpoint insert_desc (x : Z * value) (l : list (Z * value)) : list (Z * value) :=
  match l with
  | [] => [x]
  | y :: r => if fst x <? fst y then y :: insert_desc x r else x :: y :: r
  end.

Fixpoint sort_desc (l : list (Z * value)) : list (Z * value) :=
  match l with
  | [] => []
  | x :: r => insert_desc x (sort_desc r)
  end.

Definition choose_best_playlist (playlists : list value) (mood : string) : outcome value :=
  match playlists with
  | [] => Ok VNone
  | _ =>
      (let mood_lower := lower mood in
       scored <- score_all mood_lower playlists ;;
       match sort_desc scored with
       | (_, best) :: _ => Ok best
       | [] => Raise (Exn IndexError "list index out of range")
       end)%exc
  end.

Definition search_by_mood (mood : string) (playlists_limit top_n : Z) : io value :=
  (if blank mood
   then raise (Exn ValueError "Mood cannot be empty.")
   else
     playlists <- search_playlists mood playlists_limit ;;
     match playlists with
     | [] => raise (Exn SpotifySearchError
                        ("No playlists found for mood '" ++ mood ++ "'."))
     | first :: _ =>
         chosen <- lift (choose_best_playlist playlists mood) ;;
         let best := if truthy chosen then chosen else first in
         playlist_id <- lift (py_get best "id" VNone) ;;
         name <- lift (py_get best "name" VNone) ;;
         description <- lift (py_get best "description" VNone) ;;
         links <- lift (py_get best "external_urls" (VDict [])) ;;
         external_url <- lift (py_get links "spotify" VNone) ;;
         by_whom <- lift (py_get best "owner" (VDict [])) ;;
         owner <- lift (py_get by_whom "display_name" VNone) ;;
         let playlist_info :=
           VDict [("id", playlist_id); ("name", name); ("description", description);
                  ("external_url", external_url); ("owner", owner)] in
         tracks <- get_playlist_top_tracks playlist_id top_n ;;
         ret (VDict [("playlist", playlist_info); ("tracks", VList tracks)])
     end)%io.

(** ** agent.py *)

(** The line of one track, [i] being its rank. *)
Definition format_track (i : Z) (t : value) : outcome string :=
  (preview_url <- py_get t "preview_url" VNone ;;
   track_url <- py_get t "track_url" VNone ;;
   let preview := py_or preview_url (py_or track_url (VStr "No preview")) in
   name <- py_get t "name" VNone ;;
   artists <- py_get t "artists" VNone ;;
   Ok (str_of_Z i ++ ". " ++ py_str name ++ " " ++ em_dash ++ " " ++ py_str artists
       ++ "  |  Preview/Link: " ++ py_str preview))%exc.

(** The lines of [for i, t in enumerate(tracks, start=i)]. *)
Fixpoint format_tracks (i : Z) (tracks : list value) : outcome (list string) :=
  match tracks with
  | [] => Ok []
  | t :: rest =>
      (line <- format_track i t ;;
       others <- format_tracks (i + 1) rest ;;
       Ok (line :: others))%exc
  end.

Definition format_result (result : value) : outcome string :=
  (playlist <- py_get result "playlist" (VDict []) ;;
   tracks <- py_get result "tracks" (VList []) ;;
   name <- py_get playlist "name" VNone ;;
   owner <- py_get playlist "owner" VNone ;;
   let lines := ["Recommended playlist: " ++ py_str name
                 ++ " (by " ++ py_str owner ++ ")"] in
   external_url <- py_get playlist "external_url" VNone ;;
   let lines := if truthy external_url
                then append lines ("Playlist link: " ++ py_str external_url)
                else lines in
   description <- py_get playlist "description" VNone ;;
   let lines := if truthy description
                then append lines ("Description: " ++ py_str description)
                else lines in
   let lines := append lines (nl ++ "Top recommendations:") in
   let lines := if negb (truthy tracks)
                then append lines "No tracks found in the playlist."
                else lines in
   ts <- py_iter tracks ;;
   entries <- format_tracks 1 ts ;;
   Ok (join nl (List.app lines entries)))%exc.

(** The ADK agent, as far as [handle_mood_with_agent] looks at it: the
    method [run] and the method [respond], when the object has them.  A
    call gives [str] of the response to a prompt, or raises; the agent is
    built with the tool in its hands ([tools=[spotify_tool]]), so a call
    may read the clock, send requests and change the tool object. *)
Record agent : Type := Agent {
  run : option (string -> io string);
  respond : option (string -> io string)
}.

(** [root_agent] is [None] or an agent object; [spotify_tool] is the tool
    of the machine. *)
Definition handle_mood_with_agent (root_agent : option agent) (mood : string) : io string :=
  match root_agent with
  | Some a =>
      try_except
        (let user_prompt :=
           "User mood: " ++ mood ++ nl
           ++ "Action: Use spotify_search_tool to find the best playlist and return top 5 tracks." in
         match run a with
         | Some f => f user_prompt
         | None =>
             match respond a with
             | Some g => g user_prompt
             | None => raise (Exn RuntimeError
                                  "ADK agent present but lacks run/respond method.")
             end
         end)
        (fun e =>
           let fallback_reason :=
             "(Agent orchestration failed with: " ++ exn_msg e ++ ")" ++ nl
             ++ "Falling back to direct Spotify call." ++ nl in
           try_except
             (result <- search_by_mood mood 10 5 ;;
              shown <- lift (format_result result) ;;
              ret (fallback_reason ++ shown))%io
             (fun e2 =>
                ret (fallback_reason ++ "Also failed to get data from Spotify: "
                     ++ exn_msg e2)))
  | None =>
      try_except
        (result <- search_by_mood mood 10 5 ;;
         lift (format_result result))%io
        (fun ex =>
           if exn_class_eqb (exn_kind ex) SpotifySearchError
           then ret ("Spotify API error: " ++ exn_msg ex)
           else ret ("Unexpected error: " ++ exn_msg ex))
  end.

End Tool.

(** * Notions and data used in the statements *)

(** Scores in descending order. *)
Definition scores_desc : list (Z * value) -> Prop :=
  StronglySorted (fun a b => fst b <= fst a).

(** The two candidates of the ranker's worked example. *)
Definition happy_vibes : value :=
  VDict [("name", VStr "happy vibes"); ("followers", VDict [("total", VInt 2000)])].

Definition sad_songs : value :=
  VDict [("name", VStr "sad songs"); ("followers", VDict [("total", VInt 50000)])].

(** The first candidate of the example as the search returns it for a
    playlist that has no description: the key is there and holds null. *)
Definition null_description : value :=
  VDict [("name", VStr "happy vibes"); ("description", VNone);
         ("followers", VDict [("total", VInt 2000)])].

(** The letter e with an acute accent, capital and small. *)
Definition capital_e_acute : string :=
  String (ascii_of_nat 195) (String (ascii_of_nat 137) "").

Definition small_e_acute : string :=
  String (ascii_of_nat 195) (String (ascii_of_nat 169) "").

(** The entries of all items that carry a track payload, in the order of
    the response: what there is to collect from. *)
Fixpoint all_entries (items : list value) : outcome (list value) :=
  match items with
  | [] => Ok []
  | it :: rest =>
      (track <- py_get it "track" VNone ;;
       if negb (truthy track)
       then all_entries rest
       else
         entry <- track_entry track ;;
         others <- all_entries rest ;;
         Ok (entry :: others))%exc
  end.

(** A playlist-tracks item for a track called [name], and the items
    numbered [1] to [n]. *)
Definition track_item (name : string) : value :=
  VDict [("track",
          VDict [("name", VStr name);
                 ("artists", VList [VDict [("name", VStr "A")]; VDict [("name", VStr "B")]]);
                 ("preview_url", VNone);
                 ("external_urls", VDict [("spotify", VStr ("https://open.spotify.com/track/" ++ name))])])].

Definition numbered_items (n : nat) : list value :=
  map (fun i => track_item ("track " ++ str_of_Z (Z.of_nat i))) (seq 1 n).

(** A server that grants a token, answers a search with two playlists and
    a null entry, and lists three tracks and an item without payload. *)
Definition demo_token : response :=
  Response 200 "" (Some (VDict [("access_token", VStr "BQD"); ("expires_in", VInt 3600)])) [].

Definition demo_search : response :=
  Response 200 ""
    (Some (VDict [("playlists",
                   VDict [("items",
                           VList [VNone;
                                  VDict [("id", VStr "p1"); ("name", VStr "Happy Vibes");
                                         ("description", VStr "feel good");
                                         ("followers", VDict [("total", VInt 2000)]);
                                         ("owner", VDict [("display_name", VStr "bob")])];
                                  VDict [("id", VStr "p2"); ("name", VStr "sad songs");
                                         ("followers", VDict [("total", VInt 50000)])]])])]))
    [].

Definition demo_tracks : response :=
  Response 200 ""
    (Some (VDict [("items", VList [track_item "one"; VDict [("track", VNone)];
                                   track_item "two"; track_item "three"])]))
    [].

Definition demo_server (n : nat) (r : request) : reply :=
  match meth r with
  | POST => Answered demo_token
  | GET => if String.eqb (url r) SPOTIFY_SEARCH_URL
           then Answered demo_search else Answered demo_tracks
  end.

Definition demo_world : env := Env (fun n => 1000 + Z.of_nat n) demo_server.

Definition demo_tool : SpotifySearchTool :=
  Tool (Some "id") (Some "secret") (Some "rt") VNone 0 300.

Definition demo_machine : machine := Machine demo_tool 0 [].

(** ** The token cache *)

(** All three credentials are there: the test at the head of
    [_refresh_access_token]. *)
Definition configured (self : SpotifySearchTool) : bool :=
  provided (client_id self) && provided (client_secret self)
  && provided (refresh_token self).

(** A token is cached and the reading [now] is before its expiry. *)
Definition cached_valid (self : SpotifySearchTool) (now : Z) : bool :=
  truthy (_access_token self) && (now <? _token_expires_at self).

(** The refresh request the tool sends. *)
Definition token_request (self : SpotifySearchTool) : request :=
  Request POST SPOTIFY_TOKEN_URL
    [("Authorization",
      "Basic " ++ b64encode (py_str (opt_value (client_id self)) ++ ":"
                             ++ py_str (opt_value (client_secret self))));
     ("Content-Type", "application/x-www-form-urlencoded")]
    [("grant_type", VStr "refresh_token");
     ("refresh_token", opt_value (refresh_token self))].

(** The machine after one clock reading, and after a reading and the
    refresh request. *)
Definition ticked (m : machine) : machine :=
  Machine (tool m) (S (reads m)) (sent m).

Definition posted (m : machine) : machine :=
  Machine (tool m) (S (reads m)) (List.app (sent m) [token_request (tool m)]).

(** The reply to the refresh request sent from [m]. *)
Definition token_reply (world : env) (m : machine) : reply :=
  server world (List.length (sent m)) (token_request (tool m)).

(** The tool with a new token, and with a new token and expiry. *)
Definition with_token (self : SpotifySearchTool) (v : value) : SpotifySearchTool :=
  Tool (client_id self) (client_secret self) (refresh_token self)
       v (_token_expires_at self) (token_cache_seconds self).

Definition with_cache (self : SpotifySearchTool) (v : value) (z : Z) : SpotifySearchTool :=
  Tool (client_id self) (client_secret self) (refresh_token self)
       v z (token_cache_seconds self).

(** The refresh exchange gets a response and, when the status is 200, the
    body is a JSON object in which a token comes with an integer lifetime
    or with none. *)
Definition answers_well (world : env) (m : machine) : Prop :=
  exists r,
    token_reply world m = Answered r
    /\ (status_code r = 200 ->
        exists d tok,
          json r = Some (VDict d)
          /\ py_get (VDict d) "access_token" VNone = Ok tok
          /\ (truthy tok = true ->
              exists life z,
                py_get (VDict d) "expires_in" (VInt 3600) = Ok life
                /\ as_int life = Some z)).

(** A tool built with no credentials, in an environment that has none. *)
Definition bare_tool : SpotifySearchTool :=
  init (fun _ => None) None None None 300.

Definition bare_machine : machine := Machine bare_tool 0 [].

(** A network on which no response ever arrives. *)
Definition silent_world : env :=
  Env (fun n => 1000 + Z.of_nat n) (fun _ _ => Failed "Read timed out.").

(** A token endpoint that declares the lifetime as text, and a tool whose
    cached token ran out at 500. *)
Definition text_lifetime_world : env :=
  Env (fun n => 1000 + Z.of_nat n)
      (fun _ _ => Answered
         (Response 200 ""
            (Some (VDict [("access_token", VStr "NEW"); ("expires_in", VStr "3600")]))
            [])).

Definition stale_tool : SpotifySearchTool :=
  Tool (Some "id") (Some "secret") (Some "rt") (VStr "OLD") 500 300.

Definition stale_machine : machine := Machine stale_tool 0 [].

(** ** Moods, queries and the rate limit *)

(** Every character of the text is whitespace; so is the empty text. *)
Definition all_space (s : string) : bool := forallb is_space (characters s).

(** The no-break space and the ideographic space. *)
Definition nbsp : string :=
  String (ascii_of_nat 194) (String (ascii_of_nat 160) "").

Definition ideographic_space : string :=
  String (ascii_of_nat 227) (String (ascii_of_nat 128) (String (ascii_of_nat 128) "")).

(** The request [_call_spotify] sends with the token [token]. *)
Definition api_request (u : string) (params : list (string * value)) (token : value)
  : request :=
  Request GET u [("Authorization", "Bearer " ++ py_str token)] params.

(** The search request for a mood. *)
Definition search_request (mood : string) (limit : Z) (token : value) : request :=
  api_request SPOTIFY_SEARCH_URL
    [("q", VStr (mood ++ " playlist")); ("type", VStr "playlist"); ("limit", VInt limit)]
    token.

(** A server that grants a token and then answers 429 with the header
    [Retry-After] set to [hint]. *)
Definition limited_world (hint : string) : env :=
  Env (fun n => 1000 + Z.of_nat n)
      (fun _ r => match meth r with
                  | POST => Answered demo_token
                  | GET => Answered (Response 429 "" None [("Retry-After", hint)])
                  end).

(** The tool goes from one state to another by calls of the token
    operation alone. *)
Inductive token_steps (world : env) : SpotifySearchTool -> SpotifySearchTool -> Prop :=
| steps_none (t : SpotifySearchTool) : token_steps world t t
| steps_more (m : machine) (t : SpotifySearchTool) :
    token_steps world (tool (snd (_refresh_access_token world m))) t ->
    token_steps world (tool m) t.

(** ** The rendering, line by line *)

(** [d.get(k)] on a dict. *)
Definition field (d : list (string * value)) (k : string) : value :=
  match lookup k d with
  | Some x => x
  | None => VNone
  end.

(** The name and owner line, then the link line when there is a link,
    then the description line when there is a description. *)
Definition header_lines (p : list (string * value)) : list string :=
  List.app
    ["Recommended playlist: " ++ py_str (field p "name")
     ++ " (by " ++ py_str (field p "owner") ++ ")"]
    (List.app
       (if truthy (field p "external_url")
        then ["Playlist link: " ++ py_str (field p "external_url")] else [])
       (if truthy (field p "description")
        then ["Description: " ++ py_str (field p "description")] else [])).

(** The preview link, else the track link, else the placeholder. *)
Definition preview_or_link (t : list (string * value)) : string :=
  if truthy (field t "preview_url") then py_str (field t "preview_url")
  else if truthy (field t "track_url") then py_str (field t "track_url")
       else "No preview".

Definition track_line (rank : Z) (t : list (string * value)) : string :=
  str_of_Z rank ++ ". " ++ py_str (field t "name") ++ " " ++ em_dash ++ " "
  ++ py_str (field t "artists") ++ "  |  Preview/Link: " ++ preview_or_link t.

Fixpoint track_lines (rank : Z) (ts : list (list (string * value))) : list string :=
  match ts with
  | [] => []
  | t :: rest => track_line rank t :: track_lines (rank + 1) rest
  end.

Definition rendering (p : list (string * value)) (ts : list (list (string * value)))
  : string :=
  join nl
    (List.app (header_lines p)
       (List.app [nl ++ "Top recommendations:"]
          (List.app
             (match ts with [] => ["No tracks found in the playlist."] | _ => [] end)
             (track_lines 1 ts)))).

(** A result with six tracks, as [search_by_mood] builds it for
    [top_n = 6]. *)
Definition six_tracks : list (list (string * value)) :=
  map (fun n => [("name", VStr n); ("artists", VStr "A, B");
                 ("preview_url", VNone); ("track_url", VNone)])
      ["one"; "two"; "three"; "four"; "five"; "six"].

Definition six_track_result : value :=
  VDict [("playlist", VDict [("id", VStr "p1"); ("name", VStr "Happy Vibes");
                             ("description", VNone); ("external_url", VNone);
                             ("owner", VStr "bob")]);
         ("tracks", VList (map VDict six_tracks))].

(** The run of the tool that [handle_mood_with_agent] tries: the search
    with the default limits, then the formatting. *)
Definition recommend (world : env) (mood : string) : io string :=
  (result <- search_by_mood world mood 10 5 ;;
   lift (format_result result))%io.


(** ** Further notions *)

(** The part of the tool that is set at construction: the credentials and
    the cache ceiling. *)
Definition settings (t : SpotifySearchTool)
  : option string * option string * option string * Z :=
  (client_id t, client_secret t, refresh_token t, token_cache_seconds t).

(** A credential given as an argument or found in the environment. *)
Definition available (arg : option string) (getenv : string -> option string)
  (name : string) : bool :=
  provided arg || provided (getenv name).

(** The machine after [req] was sent from it. *)
Definition asked (m : machine) (req : request) : machine :=
  Machine (tool m) (reads m) (List.app (sent m) [req]).

(** The request for the tracks of a playlist. *)
Definition tracks_request (playlist_id token : value) : request :=
  api_request (SPOTIFY_PLAYLIST_TRACKS_URL playlist_id) [("limit", VInt 50)] token.

(** The metadata [search_by_mood] reports for the playlist [d], given what
    it found for the link and the owner. *)
Definition playlist_info (d : list (string * value)) (external_url owner : value)
  : value :=
  VDict [("id", field d "id"); ("name", field d "name");
         ("description", field d "description");
         ("external_url", external_url); ("owner", owner)].

(** A search answer whose playlist items are all null. *)
Definition demo_nulls : response :=
  Response 200 ""
    (Some (VDict [("playlists", VDict [("items", VList [VNone; VNone])])])) [].

Definition nulls_world : env :=
  Env (fun n => 1000 + Z.of_nat n)
      (fun _ r => match meth r with
                  | POST => Answered demo_token
                  | GET => Answered demo_nulls
                  end).

(** The machine [demo_machine] once the token is cached. *)
Definition demo_granted : machine :=
  Machine (with_cache demo_tool (VStr "BQD") 1300) 1 [token_request demo_tool].

(** The follower count the ranker reads from a candidate. *)
Definition follower_total (p : value) : outcome value :=
  (counts <- py_get p "followers" (VDict []) ;;
   py_get counts "total" (VInt 0))%exc.

(** What the agent is asked, and what comes of asking: [run] when the
    agent has it, else [respond], else the RuntimeError the helper raises
    itself. *)
Definition user_prompt (mood : string) : string :=
  "User mood: " ++ mood ++ nl
  ++ "Action: Use spotify_search_tool to find the best playlist and return top 5 tracks.".

Definition agent_attempt (a : agent) (mood : string) : io string :=
  match run a with
  | Some f => f (user_prompt mood)
  | None =>
      match respond a with
      | Some g => g (user_prompt mood)
      | None => raise (Exn RuntimeError "ADK agent present but lacks run/respond method.")
      end
  end.

(** The head of the fallback text after the agent failed with [e]. *)
Definition fallback_reason (e : exn) : string :=
  "(Agent orchestration failed with: " ++ exn_msg e ++ ")" ++ nl
  ++ "Falling back to direct Spotify call." ++ nl.

(** An agent whose [run] fails, next to a [respond] that would work. *)
Definition failing_agent : agent :=
  Agent (Some (fun _ => raise (Exn RuntimeError "model unavailable")))
        (Some (fun _ => ret "unused")).

(** An agent with [run] and [respond] that both answer without the tool. *)
Definition answering_agent : agent :=
  Agent (Some (fun prompt => ret ("run: " ++ prompt)))
        (Some (fun prompt => ret ("respond: " ++ prompt))).

(** An agent that does as it is instructed: its [run] has the tool search
    for the mood [mood] and answers with the formatted result. *)
Definition calling_agent (world : env) (mood : string) : agent :=
  Agent (Some (fun _ => recommend world mood)) None.

(** ** main.py *)

(** How a run of the script ends: [main] returns, [sys.exit] was called,
    or an exception came out of it. *)
Inductive ending : Type :=
| Returned
| SystemExit (code : Z)
| Uncaught (e : exn).

(** What a run leaves behind: the texts given to [print], one per call and
    in order, and the way it ended. *)
Record transcript : Type := Transcript {
  printed : list string;
  ended : ending
}.

Definition print_usage : list string :=
  ["Usage: python main.py <mood>"; "Example: python main.py happy"].

(** [main()], with [sys.argv] as [argv]. *)
Definition main (world : env) (root_agent : option agent) (argv : list string)
  (m : machine) : transcript * machine :=
  if (List.length argv <? 2)%nat
  then (Transcript print_usage (SystemExit 1), m)
  else
    let mood := strip (join " " (tl argv)) in
    let banner := "Getting recommendations for mood: '" ++ mood ++ "'" ++ nl in
    match handle_mood_with_agent world root_agent mood m with
    | (Ok result_text, m') => (Transcript [banner; result_text] Returned, m')
    | (Raise e, m') => (Transcript [banner] (Uncaught e), m')
    end.

(** ** get_refresh_token.py *)

(** [s.split(sep)] for a separator that is not empty: the text is read
    from the left; where the separator starts, the piece read so far is
    closed and the separator is passed over.  [cur] is the piece being
    read, [skip] the number of separator characters still to pass over. *)
Fixpoint split_from (sep s cur : string) (skip : nat) : list string :=
  match s with
  | EmptyString => [cur]
  | String c r =>
      match skip with
      | S k => split_from sep r cur k
      | O => if String.prefix sep s
             then cur :: split_from sep r "" (String.length sep - 1)
             else split_from sep r (cur ++ String c "") 0
      end
  end.

Definition py_split (sep s : string) : list string := split_from sep s "" 0.

(** The character occurs in the text. *)
Fixpoint occurs (x : ascii) (s : string) : bool :=
  match s with
  | EmptyString => false
  | String c r => Ascii.eqb x c || occurs x r
  end.

(** [urllib.parse.quote_plus]: letters, digits and [_.-~] stay, a space
    becomes a plus sign, every other byte becomes a percent sign and two
    upper-case hexadecimal digits. *)
Definition is_unreserved (c : ascii) : bool :=
  let n := nat_of_ascii c in
  ((48 <=? n)%nat && (n <=? 57)%nat) || ((65 <=? n)%nat && (n <=? 90)%nat)
  || ((97 <=? n)%nat && (n <=? 122)%nat) || occurs c "_.-~".

Definition hex_upper (n : nat) : ascii :=
  if (n <? 10)%nat then ascii_of_nat (48 + n) else ascii_of_nat (55 + n).

Definition quote_char (c : ascii) : string :=
  if is_unreserved c then String c ""
  else if Ascii.eqb c " "%char then "+"
       else String "%"%char
              (String (hex_upper (nat_of_ascii c / 16))
                 (String (hex_upper (nat_of_ascii c mod 16)) "")).

Fixpoint quote_plus (s : string) : string :=
  match s with
  | EmptyString => EmptyString
  | String c r => quote_char c ++ quote_plus r
  end.

(** [urllib.parse.urlencode] of a dict of strings. *)
Definition urlencode (query : list (string * string)) : string :=
  join "&" (map (fun kv => quote_plus (fst kv) ++ "=" ++ quote_plus (snd kv)) query).

Definition REDIRECT_URI : string := "http://127.0.0.1:8888/callback".
Definition SCOPES : string := "playlist-read-private playlist-read-collaborative".

(** The authorization URL the script prints for the client id typed in. *)
Definition auth_url (CLIENT_ID : string) : string :=
  "https://accounts.spotify.com/authorize?"
  ++ urlencode [("client_id", CLIENT_ID); ("response_type", "code");
                ("redirect_uri", REDIRECT_URI); ("scope", SCOPES)].

(** How a call of the handler ends: it returns and the server goes on, the
    process is ended by [os._exit], or an exception leaves the handler. *)
Inductive handler_end : Type :=
| KeepServing
| ProcessExit (code : Z)
| HandlerError (e : exn).

(** What one callback does: the status and body sent to the browser, the
    texts given to [print], the access log on standard error, the requests
    sent and the way it ended.  [send_response] logs the request through
    [log_request]: one line per call, of which the status code is kept
    here (the rest of the line is the client address, the time and the
    request line). *)
Record callback : Type := Callback {
  http_status : Z;
  body_written : string;
  console : list string;
  access_log : list Z;
  exchanged : list request;
  finished : handler_end
}.

Definition party_popper : string :=
  String (ascii_of_nat 240) (String (ascii_of_nat 159)
    (String (ascii_of_nat 142) (String (ascii_of_nat 137) ""))).

Definition cross_mark : string :=
  String (ascii_of_nat 226) (String (ascii_of_nat 157) (String (ascii_of_nat 140) "")).

(** The exchange of the authorization code for tokens. *)
Definition code_request (CLIENT_ID CLIENT_SECRET code : string) : request :=
  Request POST "https://accounts.spotify.com/api/token"
    [("Authorization", "Basic " ++ b64encode (CLIENT_ID ++ ":" ++ CLIENT_SECRET));
     ("Content-Type", "application/x-www-form-urlencoded")]
    [("grant_type", VStr "authorization_code"); ("code", VStr code);
     ("redirect_uri", VStr REDIRECT_URI)].

(** [Handler.do_GET] for the request path [path]; [answer] is the token
    endpoint. *)
Definition do_GET (CLIENT_ID CLIENT_SECRET : string) (answer : request -> reply)
  (path : string) : callback :=
  if negb (contains "code=" path)
  then Callback 400 "Missing code in callback." [] [400] [] KeepServing
  else
    let code := last (py_split "code=" path) "" in
    let written := "You can close this window now. Token is being generated..." in
    let said := [nl ++ "Authorization code received!";
                 "Exchanging code for refresh token..." ++ nl] in
    let req := code_request CLIENT_ID CLIENT_SECRET code in
    match answer req with
    | Failed msg =>
        Callback 200 written said [200] [req] (HandlerError (Exn RequestException msg))
    | Answered r =>
        match json r with
        | None =>
            Callback 200 written said [200] [req]
              (HandlerError (Exn JSONDecodeError
                                 "Expecting value: line 1 column 1 (char 0)"))
        | Some decoded =>
            let said := append said ("Response:" ++ nl ++ " " ++ py_str decoded) in
            match py_get decoded "refresh_token" VNone with
            | Raise e => Callback 200 written said [200] [req] (HandlerError e)
            | Ok refresh_token =>
                if truthy refresh_token
                then Callback 200 written
                       (List.app said
                          [nl ++ party_popper ++ " Your SPOTIFY_REFRESH_TOKEN:" ++ nl;
                           py_str refresh_token;
                           nl ++ "Save this in your .env file!"])
                       [200] [req] (ProcessExit 0)
                else Callback 200 written
                       (append said
                          (nl ++ cross_mark
                           ++ " Failed to get refresh token. Check your Redirect URI and Scopes."))
                       [200] [req] (ProcessExit 0)
            end
        end
    end.
(** * Properties *)

(** ** The playlist ranker *)

Lemma insert_desc_perm (x : Z * value) (l : list (Z * value)) :
  Permutation (x :: l) (insert_desc x l).
Proof.
  induction l as [|y r IH]; simpl.
  - apply Permutation_refl.
  - destruct (fst x <? fst y).
    + eapply perm_trans; [apply perm_swap|]. now apply perm_skip.
    + apply Permutation_refl.
Qed.

Lemma sort_desc_perm (l : list (Z * value)) : Permutation l (sort_desc l).
Proof.
  induction l as [|x r IH]; simpl.
  - constructor.
  - eapply perm_trans; [apply perm_skip, IH|]. apply insert_desc_perm.
Qed.

Lemma insert_desc_sorted (x : Z * value) (l : list (Z * value)) :
  scores_desc l -> scores_desc (insert_desc x l).
Proof.
  unfold scores_desc. induction 1 as [|y r Hr IH Hy]; simpl.
  - repeat constructor.
  - destruct (fst x <? fst y) eqn:E.
    + apply Z.ltb_lt in E. constructor; [exact IH|].
      eapply Permutation_Forall; [apply insert_desc_perm|].
      constructor; [lia|exact Hy].
    + apply Z.ltb_ge in E. constructor.
      * now constructor.
      * constructor; [exact E|].
        eapply Forall_impl; [|exact Hy]. simpl. intros; lia.
Qed.

Lemma sort_desc_sorted (l : list (Z * value)) : scores_desc (sort_desc l).
Proof.
  induction l as [|x r IH]; simpl.
  - constructor.
  - now apply insert_desc_sorted.
Qed.

(** Stability: the entries of any one score come out in the order they
    went in. *)
Lemma insert_desc_stable (k : Z) (x : Z * value) (l : list (Z * value)) :
  filter (fun e => fst e =? k) (insert_desc x l)
  = filter (fun e => fst e =? k) (x :: l).
Proof.
  induction l as [|y r IH]; [reflexivity|].
  cbn [insert_desc]. destruct (fst x <? fst y) eqn:E; [|reflexivity].
  apply Z.ltb_lt in E. cbn [filter] in *. rewrite IH.
  destruct (fst x =? k) eqn:Ex, (fst y =? k) eqn:Ey; try reflexivity.
  apply Z.eqb_eq in Ex, Ey. lia.
Qed.

Lemma sort_desc_stable (k : Z) (l : list (Z * value)) :
  filter (fun e => fst e =? k) (sort_desc l) = filter (fun e => fst e =? k) l.
Proof.
  induction l as [|x r IH]; [reflexivity|].
  cbn [sort_desc]. rewrite insert_desc_stable. cbn [filter]. now rewrite IH.
Qed.

(** A list with its scores in descending order is determined by the
    entries it has of each score, in their order: two such lists that agree
    score by score are equal.  So [sort_desc] is the stable sort. *)
Lemma stable_sorted_unique (l1 l2 : list (Z * value)) :
  scores_desc l1 -> scores_desc l2 ->
  (forall k, filter (fun e => fst e =? k) l1 = filter (fun e => fst e =? k) l2) ->
  l1 = l2.
Proof.
  revert l2. induction l1 as [|x r IH]; intros l2 H1 H2 Hf.
  - destruct l2 as [|y u]; [reflexivity|].
    specialize (Hf (fst y)). cbn in Hf. rewrite Z.eqb_refl in Hf. discriminate.
  - destruct l2 as [|y u].
    { specialize (Hf (fst x)). cbn in Hf. rewrite Z.eqb_refl in Hf. discriminate. }
    apply StronglySorted_inv in H1 as [H1r H1x].
    apply StronglySorted_inv in H2 as [H2u H2y].
    assert (fst x <= fst y) as Hxy.
    { pose proof (Hf (fst x)) as E. cbn [filter] in E. rewrite Z.eqb_refl in E.
      assert (In x (filter (fun e => fst e =? fst x) (y :: u))) as Hin
          by (cbn [filter]; rewrite <- E; now left).
      apply filter_In in Hin as [[<- | Hin] _]; [lia|].
      rewrite Forall_forall in H2y. now apply H2y. }
    assert (fst y <= fst x) as Hyx.
    { pose proof (Hf (fst y)) as E. cbn [filter] in E. rewrite (Z.eqb_refl (fst y)) in E.
      assert (In y (filter (fun e => fst e =? fst y) (x :: r))) as Hin
          by (cbn [filter]; rewrite E; now left).
      apply filter_In in Hin as [[<- | Hin] _]; [lia|].
      rewrite Forall_forall in H1x. now apply H1x. }
    assert (fst x = fst y) as Hk by lia.
    pose proof (Hf (fst x)) as E. cbn [filter] in E.
    rewrite Z.eqb_refl, <- Hk, Z.eqb_refl in E. injection E as <- E.
    f_equal. apply IH; try assumption.
    intros k. specialize (Hf k). cbn [filter] in Hf.
    destruct (fst x =? k); [now injection Hf|exact Hf].
Qed.

(** The entry the sort puts first is the first entry of greatest score. *)
Lemma sort_desc_head (l : list (Z * value)) (e : Z * value) (t : list (Z * value)) :
  sort_desc l = e :: t ->
  exists i,
    nth_error l i = Some e
    /\ Forall (fun x => fst x <= fst e) l
    /\ (forall j x, (j < i)%nat -> nth_error l j = Some x -> fst x < fst e).
Proof.
  revert e t. induction l as [|x r IH]; intros e t H; [discriminate|].
  cbn [sort_desc] in H. destruct (sort_desc r) as [|y u] eqn:Er.
  - assert (r = []) as ->.
    { apply Permutation_nil. rewrite <- Er. apply Permutation_sym, sort_desc_perm. }
    cbn in H. injection H as <- <-. exists 0%nat. split; [reflexivity|]. split.
    + constructor; [lia|constructor].
    + intros j z Hj. lia.
  - destruct (IH y u eq_refl) as (i & Hi & Hall & Hbefore).
    cbn [insert_desc] in H. destruct (fst x <? fst y) eqn:E.
    + apply Z.ltb_lt in E. injection H as <- <-. exists (S i). split; [exact Hi|]. split.
      * constructor; [lia|exact Hall].
      * intros [|j] z Hj Hz; cbn in Hz.
        -- injection Hz as <-. exact E.
        -- apply (Hbefore j z); [lia|exact Hz].
    + apply Z.ltb_ge in E. injection H as <- <-. exists 0%nat. split; [reflexivity|]. split.
      * constructor; [lia|]. eapply Forall_impl; [|exact Hall]. simpl. intros; lia.
      * intros j z Hj. lia.
Qed.

Lemma score_all_nth (ml : string) (playlists : list value) (scored : list (Z * value)) :
  score_all ml playlists = Ok scored ->
  forall i e, nth_error scored i = Some e ->
    nth_error playlists i = Some (snd e) /\ score_playlist ml (snd e) = Ok (fst e).
Proof.
  revert scored. induction playlists as [|p r IH]; intros scored H i e Hi.
  - injection H as <-. destruct i; discriminate.
  - cbn [score_all] in H. destruct (score_playlist ml p) as [s|] eqn:Es; [|discriminate].
    cbn [obind] in H. destruct (score_all ml r) as [others|] eqn:Eo; [|discriminate].
    cbn [obind] in H. injection H as <-. destruct i as [|i]; cbn in Hi |- *.
    + injection Hi as <-. now split.
    + now apply (IH others).
Qed.

Lemma score_all_nth_inv (ml : string) (playlists : list value) (scored : list (Z * value)) :
  score_all ml playlists = Ok scored ->
  forall j p s, nth_error playlists j = Some p -> score_playlist ml p = Ok s ->
    nth_error scored j = Some (s, p).
Proof.
  revert scored. induction playlists as [|q r IH]; intros scored H j p s Hj Hs.
  - destruct j; discriminate.
  - cbn [score_all] in H. destruct (score_playlist ml q) as [sq|] eqn:Es; [|discriminate].
    cbn [obind] in H. destruct (score_all ml r) as [others|] eqn:Eo; [|discriminate].
    cbn [obind] in H. injection H as <-. destruct j as [|j]; cbn in Hj |- *.
    + injection Hj as <-. congruence.
    + now apply (IH others).
Qed.

Lemma score_all_total (ml : string) (playlists : list value) :
  Forall (fun p => exists s, score_playlist ml p = Ok s) playlists ->
  exists scored, score_all ml playlists = Ok scored.
Proof.
  induction 1 as [|p r [s Hs] _ [others Ho]]; cbn [score_all].
  - now exists [].
  - rewrite Hs, Ho. cbn. now eexists.
Qed.

(** The score of a candidate whose name and description are text and
    whose follower count is an integer is 50 if the lowercased mood occurs
    in the lowercased name, plus 30 if it occurs in the lowercased
    description, plus [min(followers // 1000, 20)]; for the mood happy the
    candidate happy vibes with 2000 followers scores 52, the candidate sad
    songs with 50000 followers scores 20, and the first is chosen. *)
Theorem ranker_scoring :
  (forall (p counts : value) (mood name desc : string) (total : Z),
      py_get p "name" (VStr "") = Ok (VStr name) ->
      py_get p "description" (VStr "") = Ok (VStr desc) ->
      py_get p "followers" (VDict []) = Ok counts ->
      py_get counts "total" (VInt 0) = Ok (VInt total) ->
      score_playlist (lower mood) p
      = Ok ((if contains (lower mood) (lower name) then 50 else 0)
            + (if contains (lower mood) (lower desc) then 30 else 0)
            + Z.min (total / 1000) 20))
  /\ score_playlist (lower "happy") happy_vibes = Ok 52
  /\ score_playlist (lower "happy") sad_songs = Ok 20
  /\ choose_best_playlist [happy_vibes; sad_songs] "happy" = Ok happy_vibes.
Proof.
  split; [|repeat split; reflexivity].
  intros p counts mood name desc total Hn Hd Hf Ht.
  unfold score_playlist. rewrite Hn. cbn [obind py_lower].
  rewrite Hd. cbn [obind py_lower]. rewrite Hf. cbn [obind].
  rewrite Ht. cbn [obind py_floordiv as_int].
  destruct (contains (lower mood) (lower name)), (contains (lower mood) (lower desc));
    reflexivity.
Qed.

Lemma ranker_scoring_witness :
  score_playlist (lower "Happy") happy_vibes
  = Ok ((if contains (lower "Happy") (lower "happy vibes") then 50 else 0)
        + (if contains (lower "Happy") (lower "") then 30 else 0)
        + Z.min (2000 / 1000) 20).
Proof.
  apply (proj1 ranker_scoring happy_vibes (VDict [("total", VInt 2000)])
           "Happy" "happy vibes" "" 2000); reflexivity.
Defined.

(** On a non-empty list whose candidates all have a score, the
    candidate returned has the greatest score, and every candidate before
    it in the list has a strictly smaller one: among candidates of the
    greatest score the first wins. *)
Theorem ranker_first_maximum (playlists : list value) (mood : string) :
  playlists <> [] ->
  Forall (fun p => exists s, score_playlist (lower mood) p = Ok s) playlists ->
  exists (i : nat) (best : value) (s : Z),
    choose_best_playlist playlists mood = Ok best
    /\ nth_error playlists i = Some best
    /\ score_playlist (lower mood) best = Ok s
    /\ (forall p sp, In p playlists ->
          score_playlist (lower mood) p = Ok sp -> sp <= s)
    /\ (forall j p sp, (j < i)%nat -> nth_error playlists j = Some p ->
          score_playlist (lower mood) p = Ok sp -> sp < s).
Proof.
  intros Hne Hall.
  destruct (score_all_total _ _ Hall) as [scored Hs].
  unfold choose_best_playlist. destruct playlists as [|p0 rest]; [congruence|].
  rewrite Hs. cbn [obind].
  destruct (sort_desc scored) as [|[s best] t] eqn:Esort.
  - exfalso. assert (scored = []) as ->.
    { apply Permutation_nil. rewrite <- Esort. apply Permutation_sym, sort_desc_perm. }
    cbn [score_all] in Hs.
    destruct (score_playlist (lower mood) p0); [|discriminate]. cbn [obind] in Hs.
    destruct (score_all (lower mood) rest); discriminate.
  - destruct (sort_desc_head _ _ _ Esort) as (i & Hi & Hmax & Hbefore).
    destruct (score_all_nth _ _ _ Hs _ _ Hi) as [Hp Hsc]. cbn [fst snd] in Hp, Hsc.
    exists i, best, s. repeat split; try assumption.
    + intros p sp Hin Hp'. apply In_nth_error in Hin as [j Hj].
      pose proof (score_all_nth_inv _ _ _ Hs _ _ _ Hj Hp') as Hn.
      rewrite Forall_forall in Hmax. apply nth_error_In in Hn.
      apply (Hmax _ Hn).
    + intros j p sp Hlt Hj Hp'.
      pose proof (score_all_nth_inv _ _ _ Hs _ _ _ Hj Hp') as Hn.
      apply (Hbefore _ _ Hlt Hn).
Qed.

Lemma ranker_first_maximum_witness :
  exists (i : nat) (best : value) (s : Z),
    choose_best_playlist [happy_vibes; sad_songs] "happy" = Ok best
    /\ nth_error [happy_vibes; sad_songs] i = Some best
    /\ score_playlist (lower "happy") best = Ok s
    /\ (forall p sp, In p [happy_vibes; sad_songs] ->
          score_playlist (lower "happy") p = Ok sp -> sp <= s)
    /\ (forall j p sp, (j < i)%nat -> nth_error [happy_vibes; sad_songs] j = Some p ->
          score_playlist (lower "happy") p = Ok sp -> sp < s).
Proof.
  apply (ranker_first_maximum [happy_vibes; sad_songs] "happy").
  - discriminate.
  - repeat constructor; eexists; reflexivity.
Defined.

(** Two candidates of equal score: the one listed first is returned,
    whichever it is. *)
Example ranker_tie (a b : value) (mood : string) (s : Z) :
  score_playlist (lower mood) a = Ok s ->
  score_playlist (lower mood) b = Ok s ->
  choose_best_playlist [a; b] mood = Ok a.
Proof.
  intros Ha Hb. unfold choose_best_playlist. cbn [score_all].
  rewrite Ha, Hb. cbn. now rewrite Z.ltb_irrefl.
Qed.

(** The match of mood and name is blind to case outside ASCII too. *)
Example ranker_folds_case :
  lower "Happy Vibes" = "happy vibes"
  /\ lower ("CAF" ++ capital_e_acute) = "caf" ++ small_e_acute
  /\ choose_best_playlist
       [sad_songs; VDict [("name", VStr ("Caf" ++ small_e_acute ++ " chill"))]]
       ("CAF" ++ capital_e_acute)
     = Ok (VDict [("name", VStr ("Caf" ++ small_e_acute ++ " chill"))]).
Proof. repeat split; reflexivity. Qed.

(** ** Candidates without a description *)

Lemma score_null_description (ml : string) (d : list (string * value)) :
  lookup "description" d = Some VNone ->
  exists e, score_playlist ml (VDict d) = Raise e /\ exn_kind e = AttributeError.
Proof.
  intros H. unfold score_playlist. cbn [py_get obind].
  destruct (lookup "name" d) as [v|].
  - destruct v; cbn [py_lower obind]; try (eexists; split; reflexivity).
    rewrite H. cbn [py_lower obind]. eexists; split; reflexivity.
  - cbn [py_lower obind]. rewrite H. cbn [py_lower obind]. eexists; split; reflexivity.
Qed.

Lemma score_all_raises (ml : string) (before after : list value) (p : value) (e : exn) :
  score_playlist ml p = Raise e ->
  exists e', score_all ml (List.app before (p :: after)) = Raise e'.
Proof.
  intros H. induction before as [|q r [e' IH]]; cbn [List.app score_all].
  - rewrite H. now eexists.
  - destruct (score_playlist ml q); cbn [obind]; [|now eexists].
    rewrite IH. now eexists.
Qed.

(** C2.  A candidate whose description is null gets no score at all: the
    pass of the loop raises AttributeError at [.lower()], whatever the
    mood, the name and the follower count, and with such a candidate at the
    head of the list [choose_best_playlist] raises the same.  For the mood
    happy, the candidate happy vibes with 2000 followers and a null
    description, for which the formula gives 52, makes the ranker raise
    instead of selecting it. *)
Theorem ranker_null_description :
  (forall (mood : string) (d : list (string * value)) (others : list value),
      lookup "description" d = Some VNone ->
      exists e,
        score_playlist (lower mood) (VDict d) = Raise e
        /\ choose_best_playlist (VDict d :: others) mood = Raise e
        /\ exn_kind e = AttributeError)
  /\ score_playlist (lower "happy") happy_vibes = Ok 52
  /\ score_playlist (lower "happy") null_description
     = Raise (Exn AttributeError "'NoneType' object has no attribute 'lower'")
  /\ choose_best_playlist [null_description; sad_songs] "happy"
     = Raise (Exn AttributeError "'NoneType' object has no attribute 'lower'").
Proof.
  split; [|repeat split; reflexivity].
  intros mood d others H.
  destruct (score_null_description (lower mood) d H) as (e & He & Hk).
  exists e. repeat split; try assumption.
  unfold choose_best_playlist. cbn [score_all]. now rewrite He.
Qed.

Lemma ranker_null_description_witness :
  exists e,
    score_playlist (lower "Happy") null_description = Raise e
    /\ choose_best_playlist [null_description; sad_songs] "Happy" = Raise e
    /\ exn_kind e = AttributeError.
Proof.
  apply (proj1 ranker_null_description "Happy"
           [("name", VStr "happy vibes"); ("description", VNone);
            ("followers", VDict [("total", VInt 2000)])] [sad_songs]).
  reflexivity.
Defined.

(** C3.  A list that holds a candidate whose description is null has no
    candidate returned, wherever that candidate stands and whatever the
    mood: the call raises.  With the candidate of greatest score second in
    the list, and with two candidates of equal score, the ranker raises
    AttributeError where the same lists without the null entry give the
    maximum and the first of the two. *)
Theorem ranker_returns_nothing :
  (forall (mood : string) (before after : list value) (d : list (string * value))
          (best : value),
      lookup "description" d = Some VNone ->
      choose_best_playlist (List.app before (VDict d :: after)) mood <> Ok best)
  /\ choose_best_playlist [sad_songs; happy_vibes] "happy" = Ok happy_vibes
  /\ choose_best_playlist [sad_songs; null_description] "happy"
     = Raise (Exn AttributeError "'NoneType' object has no attribute 'lower'")
  /\ choose_best_playlist [happy_vibes; happy_vibes] "happy" = Ok happy_vibes
  /\ choose_best_playlist [null_description; null_description] "happy"
     = Raise (Exn AttributeError "'NoneType' object has no attribute 'lower'").
Proof.
  split; [|repeat split; reflexivity].
  intros mood before after d best H.
  destruct (score_null_description (lower mood) d H) as (e & He & _).
  destruct (score_all_raises (lower mood) before after (VDict d) e He) as [e' He'].
  unfold choose_best_playlist.
  destruct (List.app before (VDict d :: after)) as [|p0 rest] eqn:El.
  - destruct before; discriminate.
  - rewrite He'. discriminate.
Qed.

Lemma ranker_returns_nothing_witness :
  choose_best_playlist [sad_songs; null_description] "happy" <> Ok null_description.
Proof.
  apply (proj1 ranker_returns_nothing "happy" [sad_songs] []
           [("name", VStr "happy vibes"); ("description", VNone);
            ("followers", VDict [("total", VInt 2000)])] null_description).
  reflexivity.
Defined.

(** ** The track collector *)

Lemma collect_tracks_firstn (items es acc : list value) (top_n : Z) :
  all_entries items = Ok es ->
  Z.of_nat (List.length acc) < top_n \/ acc = [] ->
  collect_tracks items acc top_n
  = Ok (List.app acc
          (firstn (Z.to_nat (Z.max 1 (top_n - Z.of_nat (List.length acc)))) es)).
Proof.
  revert es acc. induction items as [|it rest IH]; intros es acc Hes Hacc.
  - injection Hes as <-. cbn. now rewrite firstn_nil, app_nil_r.
  - cbn [all_entries collect_tracks] in *.
    destruct (py_get it "track" VNone) as [track|]; [|discriminate]. cbn [obind] in *.
    destruct (truthy track); cbn [negb] in *; [|now apply IH].
    destruct (track_entry track) as [entry|]; [|discriminate]. cbn [obind] in *.
    destruct (all_entries rest) as [others|]; [|discriminate]. cbn [obind] in Hes.
    injection Hes as <-. unfold append. rewrite length_app. cbn [List.length].
    destruct (Z.of_nat (List.length acc + 1) >=? top_n) eqn:E.
    + apply Z.geb_le in E.
      replace (Z.to_nat (Z.max 1 (top_n - Z.of_nat (List.length acc)))) with 1%nat.
      * reflexivity.
      * destruct Hacc as [Hacc| ->]; cbn [List.length] in *; lia.
    + rewrite Z.geb_leb in E. apply Z.leb_gt in E.
      rewrite (IH others (List.app acc [entry]) eq_refl).
      * rewrite length_app. cbn [List.length]. rewrite <- app_assoc. cbn [List.app].
        replace (Z.to_nat (Z.max 1 (top_n - Z.of_nat (List.length acc))))
          with (S (Z.to_nat (Z.max 1 (top_n - Z.of_nat (List.length acc + 1))))) by lia.
        reflexivity.
      * left. rewrite length_app. cbn [List.length]. exact E.
Qed.

(** From a limit of one upwards the collector returns the first [top_n]
    entries, in the order of the response. *)
Lemma collect_tracks_at_most (items es : list value) (top_n : Z) :
  all_entries items = Ok es -> 1 <= top_n ->
  collect_tracks items [] top_n = Ok (firstn (Z.to_nat top_n) es).
Proof.
  intros Hes Hn. rewrite (collect_tracks_firstn items es [] top_n Hes); [|now right].
  cbn [List.length List.app]. now replace (Z.max 1 (top_n - Z.of_nat 0)) with top_n by lia.
Qed.

(** With a limit of zero or less the first entry is returned all the
    same: the length is compared with the limit only after the append. *)
Lemma collect_tracks_below_one (items es : list value) (top_n : Z) :
  all_entries items = Ok es -> top_n <= 0 ->
  collect_tracks items [] top_n = Ok (firstn 1 es).
Proof.
  intros Hes Hn. rewrite (collect_tracks_firstn items es [] top_n Hes); [|now right].
  cbn [List.length List.app]. now replace (Z.to_nat (Z.max 1 (top_n - Z.of_nat 0))) with 1%nat by lia.
Qed.

(** Fifty tracks and a limit of five: the first five, in order. *)
Example fifty_tracks_top_five :
  exists es,
    all_entries (numbered_items 50) = Ok es
    /\ List.length es = 50%nat
    /\ collect_tracks (numbered_items 50) [] 5 = Ok (firstn 5 es).
Proof.
  destruct (all_entries (numbered_items 50)) as [es|] eqn:E; [|vm_compute in E; discriminate].
  exists es. split; [reflexivity|]. split.
  - vm_compute in E. injection E as <-. reflexivity.
  - apply (collect_tracks_at_most _ _ 5 E). lia.
Qed.

(** C4. Asked for zero tracks of a playlist that has some, the tool
    returns one: the track limit is not an upper bound on the result. *)
Theorem track_limit_zero_returns_one :
  fst (get_playlist_top_tracks demo_world (VStr "p1") 0 demo_machine)
  = Ok [VDict [("name", VStr "one"); ("artists", VStr "A, B");
               ("preview_url", VNone);
               ("track_url", VStr "https://open.spotify.com/track/one")]].
Proof. reflexivity. Qed.

(** ** The token operation, branch by branch *)

Ltac run_refresh :=
  unfold _refresh_access_token, bind, get_self, time_time, requests_post, send,
    r_json, lift, raise, ret, set_access_token, set_token_expires_at;
  cbn [tool reads sent].

Ltac step := cbn [negb tool reads sent Z.eqb Pos.eqb].

Ltac enter_exchange Hc Hv Hr :=
  run_refresh; unfold configured in Hc; unfold cached_valid in Hv;
  unfold token_reply, token_request in Hr;
  rewrite Hc; step; rewrite Hv; step; rewrite Hr; step.

Lemma refresh_unconfigured (world : env) (m : machine) :
  configured (tool m) = false ->
  _refresh_access_token world m
  = (Raise (Exn SpotifyAuthError
                "Spotify client ID / secret / refresh token not provided."), m).
Proof.
  intros H. run_refresh. unfold configured in H. now rewrite H.
Qed.

Lemma refresh_cached (world : env) (m : machine) :
  configured (tool m) = true ->
  cached_valid (tool m) (clock world (reads m)) = true ->
  _refresh_access_token world m = (Ok (_access_token (tool m)), ticked m).
Proof.
  intros Hc Hv. run_refresh. unfold configured in Hc. unfold cached_valid in Hv.
  rewrite Hc. step. rewrite Hv. reflexivity.
Qed.

Lemma refresh_no_reply (world : env) (m : machine) (msg : string) :
  configured (tool m) = true ->
  cached_valid (tool m) (clock world (reads m)) = false ->
  token_reply world m = Failed msg ->
  _refresh_access_token world m = (Raise (Exn RequestException msg), posted m).
Proof.
  intros Hc Hv Hr. enter_exchange Hc Hv Hr. reflexivity.
Qed.

Lemma refresh_bad_status (world : env) (m : machine) (r : response) :
  configured (tool m) = true ->
  cached_valid (tool m) (clock world (reads m)) = false ->
  token_reply world m = Answered r ->
  status_code r <> 200 ->
  _refresh_access_token world m
  = (Raise (Exn SpotifyAuthError
                ("Failed to refresh token: " ++ str_of_Z (status_code r)
                 ++ " " ++ text r)), posted m).
Proof.
  intros Hc Hv Hr Hs. enter_exchange Hc Hv Hr.
  apply Z.eqb_neq in Hs. rewrite Hs. reflexivity.
Qed.

Lemma refresh_not_json (world : env) (m : machine) (r : response) :
  configured (tool m) = true ->
  cached_valid (tool m) (clock world (reads m)) = false ->
  token_reply world m = Answered r ->
  status_code r = 200 ->
  json r = None ->
  _refresh_access_token world m
  = (Raise (Exn JSONDecodeError "Expecting value: line 1 column 1 (char 0)"),
     posted m).
Proof.
  intros Hc Hv Hr Hs Hj. enter_exchange Hc Hv Hr. rewrite Hs, Hj. reflexivity.
Qed.

Lemma refresh_not_dict (world : env) (m : machine) (r : response) (body : value) :
  configured (tool m) = true ->
  cached_valid (tool m) (clock world (reads m)) = false ->
  token_reply world m = Answered r ->
  status_code r = 200 ->
  json r = Some body ->
  (forall d, body <> VDict d) ->
  _refresh_access_token world m = (Raise (no_attribute body "get"), posted m).
Proof.
  intros Hc Hv Hr Hs Hj Hd. enter_exchange Hc Hv Hr. rewrite Hs, Hj. step.
  destruct body; try reflexivity. now elim (Hd d).
Qed.

Lemma refresh_no_token (world : env) (m : machine) (r : response)
  (d : list (string * value)) (tok : value) :
  configured (tool m) = true ->
  cached_valid (tool m) (clock world (reads m)) = false ->
  token_reply world m = Answered r ->
  status_code r = 200 ->
  json r = Some (VDict d) ->
  py_get (VDict d) "access_token" VNone = Ok tok ->
  truthy tok = false ->
  _refresh_access_token world m
  = (Raise (Exn SpotifyAuthError
                ("Refresh response missing access_token: " ++ py_str (VDict d))),
     posted m).
Proof.
  intros Hc Hv Hr Hs Hj Hg Ht. enter_exchange Hc Hv Hr. rewrite Hs, Hj. step.
  rewrite Hg. cbn [py_get]. rewrite Ht. reflexivity.
Qed.

Lemma refresh_bad_lifetime (world : env) (m : machine) (r : response)
  (d : list (string * value)) (tok life : value) :
  configured (tool m) = true ->
  cached_valid (tool m) (clock world (reads m)) = false ->
  token_reply world m = Answered r ->
  status_code r = 200 ->
  json r = Some (VDict d) ->
  py_get (VDict d) "access_token" VNone = Ok tok ->
  truthy tok = true ->
  py_get (VDict d) "expires_in" (VInt 3600) = Ok life ->
  as_int life = None ->
  _refresh_access_token world m
  = (Raise (Exn TypeError ("'<' not supported between instances of 'int' and '"
                             ++ type_name life ++ "'")),
     Machine (with_token (tool m) tok) (S (reads m))
             (List.app (sent m) [token_request (tool m)])).
Proof.
  intros Hc Hv Hr Hs Hj Hg Ht Hl Hi. enter_exchange Hc Hv Hr. rewrite Hs, Hj. step.
  rewrite Hg, Hl, Ht. step. unfold py_min. rewrite Hi. reflexivity.
Qed.

Lemma refresh_granted (world : env) (m : machine) (r : response)
  (d : list (string * value)) (tok life : value) (z : Z) :
  configured (tool m) = true ->
  cached_valid (tool m) (clock world (reads m)) = false ->
  token_reply world m = Answered r ->
  status_code r = 200 ->
  json r = Some (VDict d) ->
  py_get (VDict d) "access_token" VNone = Ok tok ->
  truthy tok = true ->
  py_get (VDict d) "expires_in" (VInt 3600) = Ok life ->
  as_int life = Some z ->
  _refresh_access_token world m
  = (Ok tok,
     Machine (with_cache (tool m) tok
                (clock world (reads m) + Z.min z (token_cache_seconds (tool m))))
             (S (reads m)) (List.app (sent m) [token_request (tool m)])).
Proof.
  intros Hc Hv Hr Hs Hj Hg Ht Hl Hi. enter_exchange Hc Hv Hr. rewrite Hs, Hj. step.
  rewrite Hg, Hl, Ht. step. unfold py_min. rewrite Hi. reflexivity.
Qed.

(** The seven ways the operation can end once it goes to the network. *)
Lemma refresh_exchange_cases (world : env) (m : machine) :
  configured (tool m) = true ->
  cached_valid (tool m) (clock world (reads m)) = false ->
  (exists msg,
      token_reply world m = Failed msg
      /\ _refresh_access_token world m = (Raise (Exn RequestException msg), posted m))
  \/ (exists r msg,
         token_reply world m = Answered r /\ status_code r <> 200
         /\ _refresh_access_token world m = (Raise (Exn SpotifyAuthError msg), posted m))
  \/ (exists r msg,
         token_reply world m = Answered r /\ status_code r = 200 /\ json r = None
         /\ _refresh_access_token world m = (Raise (Exn JSONDecodeError msg), posted m))
  \/ (exists r body msg,
         token_reply world m = Answered r /\ status_code r = 200
         /\ json r = Some body /\ (forall d, body <> VDict d)
         /\ _refresh_access_token world m = (Raise (Exn AttributeError msg), posted m))
  \/ (exists r d tok msg,
         token_reply world m = Answered r /\ status_code r = 200
         /\ json r = Some (VDict d)
         /\ py_get (VDict d) "access_token" VNone = Ok tok /\ truthy tok = false
         /\ _refresh_access_token world m = (Raise (Exn SpotifyAuthError msg), posted m))
  \/ (exists r d tok life msg,
         token_reply world m = Answered r /\ status_code r = 200
         /\ json r = Some (VDict d)
         /\ py_get (VDict d) "access_token" VNone = Ok tok /\ truthy tok = true
         /\ py_get (VDict d) "expires_in" (VInt 3600) = Ok life /\ as_int life = None
         /\ _refresh_access_token world m
            = (Raise (Exn TypeError msg),
               Machine (with_token (tool m) tok) (S (reads m))
                       (List.app (sent m) [token_request (tool m)])))
  \/ (exists r d tok life z,
         token_reply world m = Answered r /\ status_code r = 200
         /\ json r = Some (VDict d)
         /\ py_get (VDict d) "access_token" VNone = Ok tok /\ truthy tok = true
         /\ py_get (VDict d) "expires_in" (VInt 3600) = Ok life /\ as_int life = Some z
         /\ _refresh_access_token world m
            = (Ok tok,
               Machine (with_cache (tool m) tok
                          (clock world (reads m) + Z.min z (token_cache_seconds (tool m))))
                       (S (reads m)) (List.app (sent m) [token_request (tool m)]))).
Proof.
  intros Hc Hv. destruct (token_reply world m) as [r|msg] eqn:Hr.
  2:{ left. exists msg. split; [reflexivity|]. apply refresh_no_reply; assumption. }
  right. destruct (Z.eq_dec (status_code r) 200) as [Hs|Hs].
  2:{ left. eexists r, _. repeat split; [exact Hs|]. eapply refresh_bad_status; eassumption. }
  right. destruct (json r) as [body|] eqn:Hj.
  2:{ left. eexists r, _. repeat split; try assumption. eapply refresh_not_json; eassumption. }
  right. destruct body as [| | | | |d].
  1-5: left; eexists r, _, _; repeat split; try eassumption; try discriminate;
       unfold no_attribute; eapply refresh_not_dict; try eassumption; discriminate.
  right. destruct (py_get (VDict d) "access_token" VNone) as [tok|] eqn:Hg;
    [|discriminate].
  destruct (truthy tok) eqn:Ht.
  2:{ left. eexists r, d, tok, _. repeat split; try assumption.
      eapply refresh_no_token; eassumption. }
  right. destruct (py_get (VDict d) "expires_in" (VInt 3600)) as [life|] eqn:Hl;
    [|discriminate].
  destruct (as_int life) as [z|] eqn:Hi.
  - right. exists r, d, tok, life, z. repeat split; try assumption.
    eapply refresh_granted; eassumption.
  - left. eexists r, d, tok, life, _. repeat split; try assumption.
    eapply refresh_bad_lifetime; eassumption.
Qed.

(** ** The token cache *)

(** C1, as amended.  With the three credentials in place: while a token is
    cached and the clock reads less than its expiry, the operation returns
    that token and sends nothing; when the token is absent or has expired
    it sends exactly one request, the refresh, and if it returns a token
    the cache holds that token with expiry [now + min(lifetime, ceiling)],
    the lifetime being the one the response declares, 3600 by default. *)
Theorem token_reuse (world : env) (m : machine) :
  configured (tool m) = true ->
  (truthy (_access_token (tool m)) = true ->
   clock world (reads m) < _token_expires_at (tool m) ->
   _refresh_access_token world m = (Ok (_access_token (tool m)), ticked m)
   /\ sent (ticked m) = sent m)
  /\ (truthy (_access_token (tool m)) = false
      \/ _token_expires_at (tool m) <= clock world (reads m) ->
      exists o m',
        _refresh_access_token world m = (o, m')
        /\ sent m' = List.app (sent m) [token_request (tool m)]
        /\ meth (token_request (tool m)) = POST
        /\ url (token_request (tool m)) = SPOTIFY_TOKEN_URL
        /\ forall tok, o = Ok tok ->
             exists r d life z,
               token_reply world m = Answered r
               /\ json r = Some (VDict d)
               /\ py_get (VDict d) "expires_in" (VInt 3600) = Ok life
               /\ as_int life = Some z
               /\ _access_token (tool m') = tok
               /\ _token_expires_at (tool m')
                  = clock world (reads m) + Z.min z (token_cache_seconds (tool m))).
Proof.
  intros Hc. split.
  - intros Ht Hlt. split; [|reflexivity]. apply refresh_cached; [exact Hc|].
    unfold cached_valid. rewrite Ht. now apply Z.ltb_lt in Hlt as ->.
  - intros Hx. assert (cached_valid (tool m) (clock world (reads m)) = false) as Hv.
    { unfold cached_valid. destruct Hx as [-> | Hle]; [reflexivity|].
      apply Z.ltb_ge in Hle. rewrite Hle. apply andb_false_r. }
    destruct (refresh_exchange_cases world m Hc Hv)
      as [(msg & _ & E) | [(r & msg & _ & _ & E) | [(r & msg & _ & _ & _ & E)
         | [(r & body & msg & _ & _ & _ & _ & E) | [(r & d & tok & msg & _ & _ & _ & _ & _ & E)
         | [(r & d & tok & life & msg & _ & _ & _ & _ & _ & _ & _ & E)
         | (r & d & tok & life & z & Hr & _ & Hj & _ & _ & Hl & Hi & E)]]]]]];
      rewrite E; eexists _, _; (split; [reflexivity|]);
      (split; [reflexivity|]); (split; [reflexivity|]); (split; [reflexivity|]);
      intros tok' Hok; try discriminate.
    injection Hok as <-. exists r, d, life, z. repeat split; assumption.
Qed.

Lemma token_reuse_witness :
  exists o m',
    _refresh_access_token demo_world demo_machine = (o, m')
    /\ sent m' = [token_request demo_tool]
    /\ o = Ok (VStr "BQD")
    /\ _token_expires_at (tool m') = 1000 + Z.min 3600 300.
Proof.
  destruct (proj2 (token_reuse demo_world demo_machine eq_refl) (or_introl eq_refl))
    as (o & m' & E & Hs & _).
  exists o, m'. split; [exact E|]. split; [exact Hs|].
  vm_compute in E. injection E as <- <-. split; reflexivity.
Defined.

(** C1 as stated fails on a tool without credentials: no token is cached,
    and the call sends no refresh request at all. *)
Lemma token_reuse_counterexample :
  truthy (_access_token (tool bare_machine)) = false
  /\ fst (_refresh_access_token demo_world bare_machine)
     = Raise (Exn SpotifyAuthError
                  "Spotify client ID / secret / refresh token not provided.")
  /\ sent (snd (_refresh_access_token demo_world bare_machine)) = [].
Proof. repeat split. Qed.

(** The second call within the cached lifetime sends nothing; the call
    after the expiry refreshes again. *)
Example two_calls_one_refresh :
  let m1 := snd (_refresh_access_token demo_world demo_machine) in
  let m2 := snd (_refresh_access_token demo_world m1) in
  List.length (sent m1) = 1%nat /\ List.length (sent m2) = 1%nat
  /\ fst (_refresh_access_token demo_world m2) = Ok (VStr "BQD").
Proof. repeat split. Qed.

Example call_after_expiry_refreshes :
  let late := Env (fun n => 1000 + 400 * Z.of_nat n) demo_server in
  let m1 := snd (_refresh_access_token late demo_machine) in
  let m2 := snd (_refresh_access_token late m1) in
  _token_expires_at (tool m1) = 1300
  /\ List.length (sent m1) = 1%nat /\ List.length (sent m2) = 2%nat.
Proof. repeat split. Qed.

(** C7, as amended.  When no response to the refresh request arrives, the
    transport's exception propagates and the cache is as before.  When the
    exchange, if one is needed, gets a response whose body on status 200 is
    a JSON object that declares an integer lifetime or none, the operation
    raises SpotifyAuthError exactly when a credential is missing or empty,
    or the exchange is made and returns a status other than 200 or a body
    without a usable access token; in every other case it returns a
    token. *)
Theorem token_failure_conditions (world : env) (m : machine) :
  (forall msg,
      configured (tool m) = true ->
      cached_valid (tool m) (clock world (reads m)) = false ->
      token_reply world m = Failed msg ->
      _refresh_access_token world m = (Raise (Exn RequestException msg), posted m))
  /\ ((configured (tool m) = true ->
       cached_valid (tool m) (clock world (reads m)) = false ->
       answers_well world m) ->
      ((exists msg m',
           _refresh_access_token world m = (Raise (Exn SpotifyAuthError msg), m'))
       <-> (configured (tool m) = false
            \/ (cached_valid (tool m) (clock world (reads m)) = false
                /\ exists r,
                    token_reply world m = Answered r
                    /\ (status_code r <> 200
                        \/ exists d tok,
                            json r = Some (VDict d)
                            /\ py_get (VDict d) "access_token" VNone = Ok tok
                            /\ truthy tok = false))))
      /\ ((exists msg m',
              _refresh_access_token world m = (Raise (Exn SpotifyAuthError msg), m'))
          \/ (exists tok m',
                 _refresh_access_token world m = (Ok tok, m') /\ truthy tok = true))).
Proof.
  split; [intros msg; apply refresh_no_reply|].
  intros Hwell. destruct (configured (tool m)) eqn:Hc.
  2:{ rewrite (refresh_unconfigured world m Hc). split.
      - split; [now left|]. intros _. now eexists _, _.
      - left. now eexists _, _. }
  destruct (cached_valid (tool m) (clock world (reads m))) eqn:Hv.
  { rewrite (refresh_cached world m Hc Hv). split.
    - split.
      + intros (msg & m' & E). discriminate.
      + intros [H | [H _]]; discriminate.
    - right. eexists _, _. split; [reflexivity|].
      unfold cached_valid in Hv. now apply andb_prop in Hv. }
  destruct (Hwell eq_refl eq_refl) as (r & Hr & Hbody).
  destruct (Z.eq_dec (status_code r) 200) as [Hs|Hs].
  2:{ rewrite (refresh_bad_status world m r Hc Hv Hr Hs). split.
      - split; [|intros _; now eexists _, _].
        intros _. right. split; [reflexivity|]. exists r. split; [exact Hr|now left].
      - left. now eexists _, _. }
  destruct (Hbody Hs) as (d & tok & Hj & Hg & Hlife).
  destruct (truthy tok) eqn:Ht.
  - destruct (Hlife eq_refl) as (life & z & Hl & Hi).
    rewrite (refresh_granted world m r d tok life z Hc Hv Hr Hs Hj Hg Ht Hl Hi). split.
    + split.
      * intros (msg & m' & E). discriminate.
      * intros [H | [_ (r' & Hr' & [Hs' | (d' & tok' & Hj' & Hg' & Ht')])]].
        -- discriminate.
        -- rewrite Hr in Hr'. injection Hr' as <-. contradiction.
        -- rewrite Hr in Hr'. injection Hr' as <-. rewrite Hj in Hj'. injection Hj' as <-.
           rewrite Hg in Hg'. injection Hg' as <-. congruence.
    + right. eexists _, _. split; [reflexivity|exact Ht].
  - rewrite (refresh_no_token world m r d tok Hc Hv Hr Hs Hj Hg Ht). split.
    + split; [|intros _; now eexists _, _].
      intros _. right. split; [reflexivity|]. exists r. split; [exact Hr|].
      right. now exists d, tok.
    + left. now eexists _, _.
Qed.

Lemma token_failure_conditions_witness :
  (exists msg m',
      _refresh_access_token demo_world demo_machine
      = (Raise (Exn SpotifyAuthError msg), m'))
  \/ (exists tok m',
         _refresh_access_token demo_world demo_machine = (Ok tok, m')
         /\ truthy tok = true).
Proof.
  apply (proj2 (token_failure_conditions demo_world demo_machine)).
  intros _ _. exists demo_token. split; [reflexivity|]. intros _.
  exists [("access_token", VStr "BQD"); ("expires_in", VInt 3600)], (VStr "BQD").
  split; [reflexivity|]. split; [reflexivity|]. intros _.
  exists (VInt 3600), 3600. split; reflexivity.
Defined.

(** C7 as stated fails when no response arrives: the credentials are all
    there, no status and no body came back, and the call neither returns a
    token nor raises SpotifyAuthError. *)
Lemma token_failure_conditions_counterexample :
  configured (tool demo_machine) = true
  /\ fst (_refresh_access_token silent_world demo_machine)
     = Raise (Exn RequestException "Read timed out.").
Proof. split; reflexivity. Qed.

(** ** What touches the cache *)

(** A call that raises SpotifyAuthError leaves the tool as it was. *)
Lemma auth_error_keeps_cache (world : env) (m m' : machine) (msg : string) :
  _refresh_access_token world m = (Raise (Exn SpotifyAuthError msg), m') ->
  tool m' = tool m.
Proof.
  intros E. destruct (configured (tool m)) eqn:Hc.
  2:{ rewrite (refresh_unconfigured world m Hc) in E. now injection E as _ <-. }
  destruct (cached_valid (tool m) (clock world (reads m))) eqn:Hv.
  { rewrite (refresh_cached world m Hc Hv) in E. discriminate. }
  destruct (refresh_exchange_cases world m Hc Hv)
    as [(? & _ & E') | [(? & ? & _ & _ & E') | [(? & ? & _ & _ & _ & E')
       | [(? & ? & ? & _ & _ & _ & _ & E') | [(? & ? & ? & ? & _ & _ & _ & _ & _ & E')
       | [(? & ? & ? & ? & ? & _ & _ & _ & _ & _ & _ & _ & E')
       | (? & ? & ? & ? & ? & _ & _ & _ & _ & _ & _ & _ & E')]]]]]];
    rewrite E' in E; try discriminate; now injection E as _ <-.
Qed.

(** A call that returns leaves either the tool as it was (the cached token
    was returned) or the tool with the returned token and a new expiry. *)
Lemma success_replaces_both (world : env) (m m' : machine) (tok : value) :
  _refresh_access_token world m = (Ok tok, m') ->
  tool m' = tool m
  \/ exists z, tool m' = with_cache (tool m) tok z.
Proof.
  intros E. destruct (configured (tool m)) eqn:Hc.
  2:{ rewrite (refresh_unconfigured world m Hc) in E. discriminate. }
  destruct (cached_valid (tool m) (clock world (reads m))) eqn:Hv.
  { rewrite (refresh_cached world m Hc Hv) in E. left. now injection E as _ <-. }
  destruct (refresh_exchange_cases world m Hc Hv)
    as [(? & _ & E') | [(? & ? & _ & _ & E') | [(? & ? & _ & _ & _ & E')
       | [(? & ? & ? & _ & _ & _ & _ & E') | [(? & ? & ? & ? & _ & _ & _ & _ & _ & E')
       | [(? & ? & ? & ? & ? & _ & _ & _ & _ & _ & _ & _ & E')
       | (? & ? & ? & ? & ? & _ & _ & _ & _ & _ & _ & _ & E')]]]]]];
    rewrite E' in E; try discriminate.
  injection E as <- <-. right. now eexists.
Qed.

(** The other operations reach the tool only through the token operation:
    [_call_spotify] leaves the tool as its call of the token operation
    did. *)
Lemma call_spotify_tool (world : env) (u : string) (params : list (string * value))
  (m : machine) :
  tool (snd (_call_spotify world u params m))
  = tool (snd (_refresh_access_token world m)).
Proof.
  unfold _call_spotify, bind.
  destruct (_refresh_access_token world m) as [[token|e] m1]; [|reflexivity].
  unfold requests_get, send. cbn [snd].
  destruct (server world _ _) as [r|msg]; [|reflexivity].
  destruct (status_code r =? 429).
  - unfold lift, raise. destruct (py_int _); reflexivity.
  - destruct (400 <=? status_code r); [reflexivity|].
    unfold r_json. destruct (json r); reflexivity.
Qed.

(** C9.  A refresh that fails after the token field was read, because the
    declared lifetime is not a number, has already replaced the cached
    token; the expiry is still the old one.  The cache is therefore not
    replaced only by a successful refresh. *)
Theorem failed_refresh_replaces_token :
  _refresh_access_token text_lifetime_world stale_machine
  = (Raise (Exn TypeError "'<' not supported between instances of 'int' and 'str'"),
     Machine (Tool (Some "id") (Some "secret") (Some "rt") (VStr "NEW") 500 300)
             1 [token_request stale_tool]).
Proof. reflexivity. Qed.

(** ** Calls of the API *)

Lemma call_spotify_unauthorised (world : env) (u : string)
  (params : list (string * value)) (m m1 : machine) (e : exn) :
  _refresh_access_token world m = (Raise e, m1) ->
  _call_spotify world u params m = (Raise e, m1).
Proof.
  intros E. unfold _call_spotify, bind. now rewrite E.
Qed.

(** Once the token is there, exactly one request follows: the API request
    with the given URL and parameters. *)
Lemma call_spotify_sent (world : env) (u : string) (params : list (string * value))
  (m m1 : machine) (token : value) :
  _refresh_access_token world m = (Ok token, m1) ->
  snd (_call_spotify world u params m)
  = Machine (tool m1) (reads m1) (List.app (sent m1) [api_request u params token]).
Proof.
  intros E. unfold _call_spotify, bind. rewrite E.
  unfold requests_get, send, api_request.
  destruct (server world _ _) as [r|msg]; [|reflexivity].
  destruct (status_code r =? 429).
  - unfold lift, raise. destruct (py_int _); reflexivity.
  - destruct (400 <=? status_code r); [reflexivity|].
    unfold r_json. destruct (json r); reflexivity.
Qed.

(** The answer to status 429, by what the header [Retry-After] holds. *)
Lemma call_spotify_rate_limited (world : env) (u : string)
  (params : list (string * value)) (m m1 : machine) (token : value) (r : response) :
  _refresh_access_token world m = (Ok token, m1) ->
  server world (List.length (sent m1)) (api_request u params token) = Answered r ->
  status_code r = 429 ->
  fst (_call_spotify world u params m)
  = match py_int (header_get (headers r) "Retry-After" "1") with
    | Ok z => Raise (Exn SpotifySearchError
                         ("Rate limited by Spotify. Retry after " ++ str_of_Z z
                          ++ " seconds."))
    | Raise e => Raise e
    end.
Proof.
  intros E Hr Hs. unfold _call_spotify, bind. rewrite E.
  unfold requests_get, send. unfold api_request in Hr. rewrite Hr, Hs.
  cbn [Z.eqb Pos.eqb]. unfold lift, raise.
  destruct (py_int _); reflexivity.
Qed.

(** With the hint given in seconds the error is the search error and its
    message carries the number. *)
Example rate_limit_in_seconds :
  fst (search_playlists (limited_world "30") "happy" 10 demo_machine)
  = Raise (Exn SpotifySearchError "Rate limited by Spotify. Retry after 30 seconds.").
Proof. reflexivity. Qed.

(** C5.  A 429 response whose [Retry-After] header is an HTTP date, the
    other form the header may take, makes the search raise ValueError, not
    SpotifySearchError. *)
Theorem rate_limit_http_date :
  fst (search_playlists (limited_world "Wed, 21 Oct 2015 07:28:00 GMT") "happy" 10
         demo_machine)
  = Raise (Exn ValueError
               "invalid literal for int() with base 10: 'Wed, 21 Oct 2015 07:28:00 GMT'").
Proof. reflexivity. Qed.

(** ** Blank moods *)

(** The characters of a text, by the bytes it starts with. *)

Ltac decide_leb :=
  repeat match goal with
         | |- context [(?x <=? ?y)%N] =>
             first [ replace (x <=? y)%N with false by (symmetry; apply N.leb_gt; lia)
                   | replace (x <=? y)%N with true by (symmetry; apply N.leb_le; lia) ]
         end.

Lemma not_seq2 (a b : ascii) :
  (byte a < 194 \/ 223 < byte a)%N -> seq2 a b = false.
Proof.
  intros [H|H]; unfold seq2, byte_in; decide_leb; cbn;
    rewrite ?andb_false_r; reflexivity.
Qed.

Lemma not_seq3 (a b c : ascii) : (byte a < 224 \/ 239 < byte a)%N -> seq3 a b c = false.
Proof.
  intros [H|H]; unfold seq3, byte_in; decide_leb; cbn;
    rewrite ?andb_false_r; reflexivity.
Qed.

Lemma not_seq4 (a b c d : ascii) : (byte a < 240)%N -> seq4 a b c d = false.
Proof. intros H; unfold seq4, byte_in; decide_leb; reflexivity. Qed.

Lemma seq3_lead (a b c : ascii) : seq3 a b c = true -> (224 <= byte a)%N.
Proof.
  intros H. destruct (N.le_gt_cases 224 (byte a)) as [Hle|Hlt]; [exact Hle|].
  rewrite not_seq3 in H by (left; exact Hlt). discriminate.
Qed.

Lemma seq4_lead (a b c d : ascii) : seq4 a b c d = true -> (240 <= byte a)%N.
Proof.
  intros H. destruct (N.le_gt_cases 240 (byte a)) as [Hle|Hlt]; [exact Hle|].
  rewrite not_seq4 in H by exact Hlt. discriminate.
Qed.

Lemma characters_byte (a : ascii) (t : string) :
  (byte a < 194)%N -> characters (String a t) = String a "" :: characters t.
Proof.
  intros H. destruct t as [|b [|c [|d t]]]; cbn [characters];
    rewrite ?(not_seq2 a) by (left; exact H);
    rewrite ?(not_seq3 a) by (left; lia);
    rewrite ?(not_seq4 a) by lia; reflexivity.
Qed.

Lemma characters_seq2 (a b : ascii) (t : string) :
  seq2 a b = true ->
  characters (String a (String b t)) = String a (String b "") :: characters t.
Proof. intros H. cbn [characters]. now rewrite H. Qed.

Lemma characters_seq3 (a b c : ascii) (t : string) :
  seq3 a b c = true ->
  characters (String a (String b (String c t)))
  = String a (String b (String c "")) :: characters t.
Proof.
  intros H. pose proof (seq3_lead a b c H) as Hl. cbn [characters].
  rewrite (not_seq2 a b) by (right; lia). now rewrite H.
Qed.

Lemma characters_seq4 (a b c d : ascii) (t : string) :
  seq4 a b c d = true ->
  characters (String a (String b (String c (String d t))))
  = String a (String b (String c (String d ""))) :: characters t.
Proof.
  intros H. pose proof (seq4_lead a b c d H) as Hl. cbn [characters].
  rewrite (not_seq2 a b) by (right; lia).
  rewrite (not_seq3 a b c) by (right; lia). now rewrite H.
Qed.

(** A property holds of every text when it holds of the empty one and
    goes from a text to the same text after one more character: a single
    byte that is taken alone, or a well-formed sequence. *)
Lemma characters_induction (P : string -> Prop) :
  P "" ->
  (forall a r, characters (String a r) = String a "" :: characters r ->
               P r -> P (String a r)) ->
  (forall a b r, seq2 a b = true -> P r -> P (String a (String b r))) ->
  (forall a b c r, seq3 a b c = true -> P r -> P (String a (String b (String c r)))) ->
  (forall a b c d r, seq4 a b c d = true -> P r ->
                     P (String a (String b (String c (String d r))))) ->
  forall s, P s.
Proof.
  intros H0 H1 H2 H3 H4 s.
  assert (forall n s, (String.length s <= n)%nat -> P s) as Hn.
  { clear s. induction n as [|n IH]; intros s Hs.
    - destruct s; [exact H0|cbn in Hs; lia].
    - destruct s as [|a r]; [exact H0|]. cbn [String.length] in Hs.
      destruct r as [|b r2].
      { apply H1; [reflexivity|exact H0]. }
      destruct (seq2 a b) eqn:E2.
      { apply H2; [exact E2|]. apply IH. cbn [String.length] in Hs. lia. }
      destruct r2 as [|c r3].
      { apply H1; [cbn [characters]; now rewrite E2|]. apply IH. lia. }
      destruct (seq3 a b c) eqn:E3.
      { apply H3; [exact E3|]. apply IH. cbn [String.length] in Hs. lia. }
      destruct r3 as [|d r4].
      { apply H1; [cbn [characters]; now rewrite E2, E3|]. apply IH. lia. }
      destruct (seq4 a b c d) eqn:E4.
      { apply H4; [exact E4|]. apply IH. cbn [String.length] in Hs. lia. }
      apply H1; [cbn [characters]; now rewrite E2, E3, E4|]. apply IH. lia. }
  apply (Hn (String.length s)). lia.
Qed.

Lemma characters_nonempty (s : string) : Forall (fun ch => ch <> "") (characters s).
Proof.
  revert s. apply characters_induction.
  - constructor.
  - intros a r H IH. rewrite H. constructor; [discriminate|assumption].
  - intros a b r H IH. rewrite characters_seq2 by assumption.
    constructor; [discriminate|assumption].
  - intros a b c r H IH. rewrite characters_seq3 by assumption.
    constructor; [discriminate|assumption].
  - intros a b c d r H IH. rewrite characters_seq4 by assumption.
    constructor; [discriminate|assumption].
Qed.

(** A whitespace character of one byte is an ASCII one. *)
Lemma is_space_byte (a : ascii) : is_space (String a "") = true -> (byte a < 128)%N.
Proof.
  intros H. destruct (N.lt_ge_cases (byte a) 128) as [Hlt|Hge]; [exact Hlt|]. exfalso.
  revert H. unfold is_space, code_point.
  replace (byte a <? 128)%N with false by (symmetry; apply N.ltb_ge; exact Hge).
  unfold in_ranges, whitespace. cbn [existsb fst snd]. decide_leb. cbn. discriminate.
Qed.

(** After a text made of whitespace, the characters of what follows are
    cut as they are without it. *)
Lemma characters_after_space (a b : string) :
  forallb is_space (characters a) = true ->
  characters (a ++ b) = List.app (characters a) (characters b).
Proof.
  revert a.
  apply (characters_induction
           (fun a => forallb is_space (characters a) = true ->
                     characters (a ++ b) = List.app (characters a) (characters b))).
  - reflexivity.
  - intros a r H IH Hs. rewrite H in Hs |- *. cbn [forallb] in Hs.
    apply andb_prop in Hs as [Ha Hr]. apply is_space_byte in Ha.
    cbn [String.append]. rewrite characters_byte by lia.
    cbn [List.app]. now rewrite IH.
  - intros a c r H IH Hs. rewrite characters_seq2 in Hs |- * by assumption.
    cbn [forallb] in Hs. apply andb_prop in Hs as [_ Hr].
    cbn [String.append]. rewrite characters_seq2 by assumption.
    cbn [List.app]. now rewrite IH.
  - intros a c d r H IH Hs. rewrite characters_seq3 in Hs |- * by assumption.
    cbn [forallb] in Hs. apply andb_prop in Hs as [_ Hr].
    cbn [String.append]. rewrite characters_seq3 by assumption.
    cbn [List.app]. now rewrite IH.
  - intros a c d e r H IH Hs. rewrite characters_seq4 in Hs |- * by assumption.
    cbn [forallb] in Hs. apply andb_prop in Hs as [_ Hr].
    cbn [String.append]. rewrite characters_seq4 by assumption.
    cbn [List.app]. now rewrite IH.
Qed.

Lemma drop_space_nil (l : list string) :
  drop_space l = [] <-> forallb is_space l = true.
Proof.
  induction l as [|ch r IH]; cbn [drop_space forallb]; [tauto|].
  destruct (is_space ch); cbn [andb]; [exact IH|]. split; discriminate.
Qed.

Lemma drop_space_fixed (l : list string) :
  forallb is_space (drop_space l) = true -> drop_space l = [].
Proof.
  induction l as [|ch r IH]; cbn [drop_space]; [reflexivity|].
  destruct (is_space ch) eqn:E; [exact IH|]. cbn [forallb]. rewrite E. discriminate.
Qed.

Lemma drop_space_in (x : string) (l : list string) : In x (drop_space l) -> In x l.
Proof.
  induction l as [|ch r IH]; cbn [drop_space]; [tauto|].
  destruct (is_space ch); [intros H; right; now apply IH|exact (fun H => H)].
Qed.

Lemma forallb_rev_space (l : list string) :
  forallb is_space (rev l) = forallb is_space l.
Proof.
  induction l as [|ch r IH]; [reflexivity|]. cbn [rev forallb].
  rewrite forallb_app, IH. cbn [forallb]. rewrite andb_true_r. apply andb_comm.
Qed.

Lemma concat_empty (l : list string) :
  Forall (fun ch => ch <> "") l -> String.concat "" l = "" -> l = [].
Proof.
  intros Hl H. destruct l as [|x r]; [reflexivity|]. exfalso.
  apply Forall_inv in Hl. apply Hl.
  destruct r; cbn in H; [exact H|]. destruct x; [reflexivity|discriminate].
Qed.

Lemma strip_empty (s : string) : strip s = "" <-> all_space s = true.
Proof.
  unfold strip, all_space. split.
  - intros H. apply concat_empty in H.
    + apply (f_equal (@rev string)) in H. rewrite rev_involutive in H. cbn in H.
      apply drop_space_nil in H. rewrite forallb_rev_space in H.
      apply drop_space_fixed in H. now apply drop_space_nil.
    + apply Forall_forall. intros x Hx. apply in_rev, drop_space_in in Hx.
      apply in_rev, drop_space_in in Hx.
      pose proof (characters_nonempty s) as Hc. rewrite Forall_forall in Hc.
      now apply Hc.
  - intros H. apply drop_space_nil in H. now rewrite H.
Qed.

(** The test [not mood or not mood.strip()] holds of the texts made of
    whitespace alone, the empty one among them. *)
Lemma blank_all_space (mood : string) : blank mood = all_space mood.
Proof.
  unfold blank. destruct (all_space mood) eqn:E.
  - apply strip_empty in E. rewrite E. apply orb_true_r.
  - apply orb_false_iff. split.
    + apply String.eqb_neq. intros ->. discriminate.
    + apply String.eqb_neq. intros H. apply strip_empty in H. congruence.
Qed.

(** Blank by [str.isspace]: the ASCII blanks, the separators 0x1c-0x1f and
    the spaces outside ASCII; a zero-width space is not one, and a lone
    byte 0xA0 is no character at all. *)
Example blank_moods :
  blank "" = true
  /\ blank (String (ascii_of_nat 9) (String (ascii_of_nat 28) " ")) = true
  /\ blank nbsp = true
  /\ blank (nbsp ++ " " ++ ideographic_space) = true
  /\ blank (String (ascii_of_nat 226) (String (ascii_of_nat 128)
              (String (ascii_of_nat 139) ""))) = false
  /\ blank (String (ascii_of_nat 160) "") = false
  /\ strip (nbsp ++ "sad " ++ nbsp ++ " songs" ++ ideographic_space)
     = "sad " ++ nbsp ++ " songs".
Proof. repeat split; reflexivity. Qed.

(** After the API call the search only reads the answer. *)
Lemma search_playlists_machine (world : env) (mood : string) (limit : Z) (m : machine) :
  blank mood = false ->
  snd (search_playlists world mood limit m)
  = snd (_call_spotify world SPOTIFY_SEARCH_URL
           [("q", VStr (mood ++ " playlist")); ("type", VStr "playlist");
            ("limit", VInt limit)] m).
Proof.
  intros Hb. unfold search_playlists. rewrite Hb. unfold bind.
  destruct (_call_spotify world _ _ m) as [[resp|e] m1]; [|reflexivity].
  unfold lift, ret. destruct (py_get resp _ _) as [found|]; [|reflexivity].
  destruct (py_get found _ _) as [items|]; [|reflexivity].
  destruct (py_iter items); reflexivity.
Qed.

(** C6.  A mood that is empty or all whitespace, by [str.isspace] and so
    with the no-break and the other Unicode spaces, makes [search_playlists]
    raise ValueError with the machine untouched: no clock reading, no
    request, no change of the tool.  For a mood with a character that is
    not whitespace, the call sends, after the token operation has returned
    a token, exactly one request, the search whose query is the mood
    followed by [ playlist]; when the token operation raises, the search
    raises the same and sends nothing more. *)
Theorem mood_validation (world : env) (mood : string) (limit : Z) (m : machine) :
  (all_space mood = true ->
   search_playlists world mood limit m
   = (Raise (Exn ValueError "Invalid mood value (empty)."), m))
  /\ (all_space mood = false ->
      (forall token m1,
          _refresh_access_token world m = (Ok token, m1) ->
          sent (snd (search_playlists world mood limit m))
          = List.app (sent m1) [search_request mood limit token]
          /\ lookup "q" (payload (search_request mood limit token))
             = Some (VStr (mood ++ " playlist")))
      /\ (forall e m1,
             _refresh_access_token world m = (Raise e, m1) ->
             search_playlists world mood limit m = (Raise e, m1))).
Proof.
  split.
  - intros H. unfold search_playlists. rewrite blank_all_space, H. reflexivity.
  - intros H. rewrite <- blank_all_space in H. split.
    + intros token m1 E. split; [|reflexivity].
      rewrite (search_playlists_machine world mood limit m H).
      now rewrite (call_spotify_sent world _ _ m m1 token E).
    + intros e m1 E. unfold search_playlists. rewrite H. unfold bind.
      now rewrite (call_spotify_unauthorised world _ _ m m1 e E).
Qed.

Lemma mood_validation_witness :
  search_playlists demo_world (" " ++ nbsp ++ ideographic_space) 10 demo_machine
  = (Raise (Exn ValueError "Invalid mood value (empty)."), demo_machine)
  /\ sent (snd (search_playlists demo_world "happy" 10 demo_machine))
     = [token_request demo_tool; search_request "happy" 10 (VStr "BQD")].
Proof.
  split.
  - apply (proj1 (mood_validation demo_world (" " ++ nbsp ++ ideographic_space) 10
                    demo_machine)).
    reflexivity.
  - destruct (proj2 (mood_validation demo_world "happy" 10 demo_machine) eq_refl)
      as [Hsent _].
    destruct (Hsent (VStr "BQD")
                (Machine (with_cache demo_tool (VStr "BQD") 1300) 1
                         [token_request demo_tool]) eq_refl) as [Hs _].
    exact Hs.
Defined.

(** ** The formatter *)

Lemma format_track_line (i : Z) (t : list (string * value)) :
  format_track i (VDict t) = Ok (track_line i t).
Proof.
  unfold format_track, track_line, preview_or_link, py_or, field. cbn [py_get obind].
  destruct (lookup "preview_url" t) as [pv|]; destruct (lookup "track_url" t) as [tu|];
    repeat match goal with |- context [truthy ?v] => destruct (truthy v) eqn:? end;
    try reflexivity; cbn in *; congruence.
Qed.

Lemma format_tracks_lines (i : Z) (ts : list (list (string * value))) :
  format_tracks i (map VDict ts) = Ok (track_lines i ts).
Proof.
  revert i. induction ts as [|t rest IH]; intros i; cbn [map format_tracks track_lines].
  - reflexivity.
  - rewrite format_track_line. cbn [obind]. now rewrite IH.
Qed.

Lemma track_lines_length (i : Z) (ts : list (list (string * value))) :
  List.length (track_lines i ts) = List.length ts.
Proof.
  revert i. induction ts as [|t rest IH]; intros i; cbn; [reflexivity|now rewrite IH].
Qed.

Lemma format_result_renders (result : value) (p : list (string * value))
  (ts : list (list (string * value))) :
  py_get result "playlist" (VDict []) = Ok (VDict p) ->
  py_get result "tracks" (VList []) = Ok (VList (map VDict ts)) ->
  format_result result = Ok (rendering p ts).
Proof.
  intros Hp Ht.
  unfold format_result. rewrite Hp, Ht. cbn [obind py_get py_iter].
  rewrite format_tracks_lines. cbn [obind]. unfold rendering, header_lines, append, field.
  f_equal. f_equal.
  destruct ts; cbn [map truthy negb];
    destruct (truthy match lookup "external_url" p with Some x => x | None => VNone end),
      (truthy match lookup "description" p with Some x => x | None => VNone end);
    reflexivity.
Qed.

(** C8, as amended.  For a result whose playlist is a dict and whose
    tracks are dicts, the formatter returns the name and owner line, the
    link line only when there is a link, the description line only when
    there is a description, the heading, and then one numbered line per
    track of the result, however many there are, each with the preview
    link, else the track link, else the placeholder; when there are no
    tracks it prints the no-tracks line and no numbered line. *)
Theorem format_postcondition (result : value) (p : list (string * value))
  (ts : list (list (string * value))) :
  py_get result "playlist" (VDict []) = Ok (VDict p) ->
  py_get result "tracks" (VList []) = Ok (VList (map VDict ts)) ->
  format_result result = Ok (rendering p ts)
  /\ List.length (track_lines 1 ts) = List.length ts
  /\ (ts = [] ->
      rendering p ts
      = join nl (List.app (header_lines p)
                   [nl ++ "Top recommendations:"; "No tracks found in the playlist."])).
Proof.
  intros Hp Ht. split; [now apply format_result_renders|].
  split; [apply track_lines_length|now intros ->].
Qed.

Lemma format_postcondition_witness :
  format_result six_track_result
  = Ok (rendering [("id", VStr "p1"); ("name", VStr "Happy Vibes");
                   ("description", VNone); ("external_url", VNone);
                   ("owner", VStr "bob")] six_tracks).
Proof.
  apply (format_postcondition six_track_result); reflexivity.
Defined.

(** C8 as stated fails on a result with six tracks: all six are listed. *)
Lemma format_counterexample :
  format_result six_track_result
  = Ok (join nl
          ["Recommended playlist: Happy Vibes (by bob)";
           nl ++ "Top recommendations:";
           "1. one " ++ em_dash ++ " A, B  |  Preview/Link: No preview";
           "2. two " ++ em_dash ++ " A, B  |  Preview/Link: No preview";
           "3. three " ++ em_dash ++ " A, B  |  Preview/Link: No preview";
           "4. four " ++ em_dash ++ " A, B  |  Preview/Link: No preview";
           "5. five " ++ em_dash ++ " A, B  |  Preview/Link: No preview";
           "6. six " ++ em_dash ++ " A, B  |  Preview/Link: No preview"]).
Proof. reflexivity. Qed.

(** ** The helper of main.py *)

(** C10.  Whatever the agent, the network, the clock and the tool do,
    [handle_mood_with_agent] returns a string.  Without an agent, a
    SpotifySearchError of the tool becomes the message headed Spotify API
    error, and any other exception, SpotifyAuthError and ValueError among
    them, the message headed Unexpected error. *)
Theorem handle_mood_never_raises (world : env) (root_agent : option agent)
  (mood : string) (m : machine) :
  (exists s m', handle_mood_with_agent world root_agent mood m = (Ok s, m'))
  /\ (forall e m1,
         recommend world mood m = (Raise e, m1) ->
         handle_mood_with_agent world None mood m
         = (Ok ((if exn_class_eqb (exn_kind e) SpotifySearchError
                 then "Spotify API error: " else "Unexpected error: ")
                ++ exn_msg e), m1))
  /\ (forall s m1,
         recommend world mood m = (Ok s, m1) ->
         handle_mood_with_agent world None mood m = (Ok s, m1)).
Proof.
  split; [|split].
  - destruct root_agent as [a|]; unfold handle_mood_with_agent, try_except, bind, lift, raise, ret.
    + destruct (run a) as [f|].
      * destruct (f _ m) as [[s|e] m0]; [now eexists _, _|].
        destruct (search_by_mood world mood 10 5 m0) as [[r|e2] m1]; [|now eexists _, _].
        destruct (format_result r); now eexists _, _.
      * destruct (respond a) as [g|].
        -- destruct (g _ m) as [[s|e] m0]; [now eexists _, _|].
           destruct (search_by_mood world mood 10 5 m0) as [[r|e2] m1]; [|now eexists _, _].
           destruct (format_result r); now eexists _, _.
        -- destruct (search_by_mood world mood 10 5 m) as [[r|e2] m1]; [|now eexists _, _].
           destruct (format_result r); now eexists _, _.
    + destruct (search_by_mood world mood 10 5 m) as [[r|e] m1].
      * destruct (format_result r); [now eexists _, _|].
        destruct (exn_class_eqb _ _); now eexists _, _.
      * destruct (exn_class_eqb _ _); now eexists _, _.
  - intros e m1 E. unfold handle_mood_with_agent, try_except.
    fold (recommend world mood). rewrite E.
    unfold ret. destruct (exn_class_eqb _ _); reflexivity.
  - intros s m1 E. unfold handle_mood_with_agent, try_except.
    fold (recommend world mood). now rewrite E.
Qed.

Lemma handle_mood_never_raises_witness :
  handle_mood_with_agent demo_world None "  " demo_machine
  = (Ok "Unexpected error: Mood cannot be empty.", demo_machine).
Proof.
  apply (proj1 (proj2 (handle_mood_never_raises demo_world None "  " demo_machine))
           (Exn ValueError "Mood cannot be empty.")).
  reflexivity.
Defined.

(** ** The whole recommendation *)

Lemma collect_tracks_bound (items acc ts : list value) (top_n : Z) :
  Z.of_nat (List.length acc) < top_n \/ acc = [] ->
  collect_tracks items acc top_n = Ok ts ->
  Z.of_nat (List.length ts) <= Z.max 1 top_n.
Proof.
  revert acc. induction items as [|it rest IH]; intros acc Hacc H.
  - injection H as <-. destruct Hacc as [Hacc| ->]; cbn [List.length]; lia.
  - cbn [collect_tracks] in H.
    destruct (py_get it "track" VNone) as [track|]; [|discriminate]. cbn [obind] in H.
    destruct (truthy track); cbn [negb] in H; [|now apply (IH acc)].
    destruct (track_entry track) as [entry|]; [|discriminate]. cbn [obind] in H.
    unfold append in H.
    destruct (Z.of_nat (List.length (List.app acc [entry])) >=? top_n) eqn:E.
    + injection H as <-. rewrite length_app in *. cbn [List.length] in *.
      destruct Hacc as [Hacc| ->]; cbn [List.length] in *; lia.
    + rewrite Z.geb_leb in E. apply Z.leb_gt in E. apply (IH _ (or_introl E) H).
Qed.

Lemma track_entry_dict (track entry : value) :
  track_entry track = Ok entry -> exists d, entry = VDict d.
Proof.
  unfold track_entry. intros H.
  repeat match type of H with
         | obind ?c _ = _ => destruct c; [cbn [obind] in H|discriminate]
         end.
  injection H as <-. now eexists.
Qed.

Lemma collect_tracks_dicts (items acc ts : list value) (top_n : Z) :
  (exists ds, acc = map VDict ds) ->
  collect_tracks items acc top_n = Ok ts ->
  exists ds, ts = map VDict ds.
Proof.
  revert acc. induction items as [|it rest IH]; intros acc Hacc H.
  - now injection H as <-.
  - cbn [collect_tracks] in H.
    destruct (py_get it "track" VNone) as [track|]; [|discriminate]. cbn [obind] in H.
    destruct (truthy track); cbn [negb] in H; [|now apply (IH acc)].
    destruct (track_entry track) as [entry|] eqn:Ee; [|discriminate]. cbn [obind] in H.
    destruct (track_entry_dict _ _ Ee) as [d ->]. destruct Hacc as [ds ->].
    assert (exists ds', append (map VDict ds) (VDict d) = map VDict ds') as Hacc'.
    { exists (List.app ds [d]). unfold append. now rewrite map_app. }
    destruct (Z.of_nat _ >=? top_n); [now injection H as <-|now apply (IH _ Hacc')].
Qed.

(** What [search_by_mood] returns is a playlist dict with at most [top_n]
    track dicts, for a limit of one or more. *)
Lemma search_by_mood_result (world : env) (mood : string) (limit top_n : Z)
  (m m' : machine) (result : value) :
  search_by_mood world mood limit top_n m = (Ok result, m') ->
  exists p ds,
    result = VDict [("playlist", VDict p); ("tracks", VList (map VDict ds))]
    /\ Z.of_nat (List.length ds) <= Z.max 1 top_n.
Proof.
  unfold search_by_mood. destruct (blank mood); [discriminate|].
  unfold bind at 1. destruct (search_playlists world mood limit m) as [[pls|e] m1];
    [|discriminate].
  destruct pls as [|first others]; [discriminate|].
  unfold bind, lift.
  repeat match goal with
         | |- context [py_get ?v ?k ?d] => destruct (py_get v k d); [|discriminate]
         | |- context [choose_best_playlist ?l ?x] =>
             destruct (choose_best_playlist l x); [|discriminate]
         end.
  unfold get_playlist_top_tracks, bind, lift, ret.
  destruct (_call_spotify world _ _ m1) as [[resp|e] m2]; [|discriminate].
  destruct (py_get resp "items" (VList [])) as [items|]; [|discriminate].
  destruct (py_iter items) as [its|]; [|discriminate].
  destruct (collect_tracks its [] top_n) as [ts|] eqn:Ec; [|discriminate].
  intros H. injection H as <- <-.
  destruct (collect_tracks_dicts its [] ts top_n (ex_intro _ [] eq_refl) Ec) as [ds ->].
  eexists _, ds. split; [reflexivity|].
  rewrite <- (length_map VDict ds). apply (collect_tracks_bound its [] _ top_n); auto.
Qed.

(** The text shown for a mood lists at most five tracks: the bound is the
    default limit of the search, the formatter lists what it is given. *)
Lemma recommend_at_most_five (world : env) (mood : string) (m m' : machine) (s : string) :
  recommend world mood m = (Ok s, m') ->
  exists p ds, s = rendering p ds /\ (List.length ds <= 5)%nat.
Proof.
  unfold recommend, bind, lift.
  destruct (search_by_mood world mood 10 5 m) as [[result|e] m1] eqn:E; [|discriminate].
  destruct (search_by_mood_result _ _ _ _ _ _ _ E) as (p & ds & -> & Hlen).
  rewrite (format_result_renders
             (VDict [("playlist", VDict p); ("tracks", VList (map VDict ds))])
             p ds eq_refl eq_refl).
  intros H. injection H as <- <-. exists p, ds. split; [reflexivity|lia].
Qed.

(** ** The frame of the cache *)

Lemma token_steps_trans (world : env) (a b c : SpotifySearchTool) :
  token_steps world a b -> token_steps world b c -> token_steps world a c.
Proof.
  induction 1 as [|m t _ IH]; intros H; [exact H|].
  apply steps_more. now apply IH.
Qed.

Lemma call_spotify_steps (world : env) (u : string) (params : list (string * value))
  (m : machine) :
  token_steps world (tool m) (tool (snd (_call_spotify world u params m))).
Proof.
  rewrite call_spotify_tool. apply steps_more, steps_none.
Qed.

Lemma search_playlists_steps (world : env) (mood : string) (limit : Z) (m : machine) :
  token_steps world (tool m) (tool (snd (search_playlists world mood limit m))).
Proof.
  destruct (blank mood) eqn:Hb.
  - unfold search_playlists. rewrite Hb. apply steps_none.
  - rewrite (search_playlists_machine world mood limit m Hb). apply call_spotify_steps.
Qed.

Lemma get_playlist_top_tracks_steps (world : env) (playlist_id : value) (top_n : Z)
  (m : machine) :
  token_steps world (tool m)
    (tool (snd (get_playlist_top_tracks world playlist_id top_n m))).
Proof.
  assert (snd (get_playlist_top_tracks world playlist_id top_n m)
          = snd (_call_spotify world (SPOTIFY_PLAYLIST_TRACKS_URL playlist_id)
                   [("limit", VInt 50)] m)) as ->.
  { unfold get_playlist_top_tracks, bind, lift.
    destruct (_call_spotify world _ _ m) as [[resp|e] m1]; [|reflexivity].
    destruct (py_get resp _ _) as [items|]; [|reflexivity].
    destruct (py_iter items); reflexivity. }
  apply call_spotify_steps.
Qed.

(** No operation of the tool changes the object other than through calls
    of the token operation. *)
Lemma search_by_mood_steps (world : env) (mood : string) (limit top_n : Z) (m : machine) :
  token_steps world (tool m) (tool (snd (search_by_mood world mood limit top_n m))).
Proof.
  unfold search_by_mood. destruct (blank mood); [apply steps_none|].
  unfold bind at 1. pose proof (search_playlists_steps world mood limit m) as H1.
  destruct (search_playlists world mood limit m) as [[pls|e] m1]; cbn [snd] in *;
    [|exact H1].
  destruct pls as [|first others]; [exact H1|].
  unfold bind at 1, lift.
  destruct (choose_best_playlist _ _) as [chosen|]; [|exact H1].
  repeat (unfold bind at 1; match goal with
          | |- context [py_get ?v ?k ?d] => destruct (py_get v k d); [|exact H1]
          end).
  unfold bind, ret.
  match goal with
  | |- context [get_playlist_top_tracks world ?pid top_n m1] =>
      pose proof (get_playlist_top_tracks_steps world pid top_n m1) as H2;
      destruct (get_playlist_top_tracks world pid top_n m1) as [[ts|e] m2]
  end; cbn [snd] in *; exact (token_steps_trans _ _ _ _ H1 H2).
Qed.

(** * Further properties of the code *)

(** ** The token operation *)

(** The ways the token operation can end, for any tool. *)
Lemma refresh_cases (world : env) (m : machine) :
  (configured (tool m) = false
   /\ exists msg, _refresh_access_token world m = (Raise (Exn SpotifyAuthError msg), m))
  \/ (configured (tool m) = true
      /\ cached_valid (tool m) (clock world (reads m)) = true
      /\ _refresh_access_token world m = (Ok (_access_token (tool m)), ticked m))
  \/ (configured (tool m) = true
      /\ cached_valid (tool m) (clock world (reads m)) = false
      /\ exists e, _refresh_access_token world m = (Raise e, posted m))
  \/ (configured (tool m) = true
      /\ cached_valid (tool m) (clock world (reads m)) = false
      /\ exists e tok,
          truthy tok = true
          /\ _refresh_access_token world m
             = (Raise e, Machine (with_token (tool m) tok) (S (reads m))
                                 (List.app (sent m) [token_request (tool m)])))
  \/ (configured (tool m) = true
      /\ cached_valid (tool m) (clock world (reads m)) = false
      /\ exists tok z life,
          truthy tok = true
          /\ z = Z.min life (token_cache_seconds (tool m))
          /\ _refresh_access_token world m
             = (Ok tok, Machine (with_cache (tool m) tok (clock world (reads m) + z))
                                (S (reads m))
                                (List.app (sent m) [token_request (tool m)]))).
Proof.
  destruct (configured (tool m)) eqn:Hc.
  2:{ left. split; [reflexivity|]. eexists. now apply refresh_unconfigured. }
  right. destruct (cached_valid (tool m) (clock world (reads m))) eqn:Hv.
  { left. repeat split. now apply refresh_cached. }
  right. destruct (refresh_exchange_cases world m Hc Hv)
    as [(? & _ & E) | [(? & ? & _ & _ & E) | [(? & ? & _ & _ & _ & E)
       | [(? & ? & ? & _ & _ & _ & _ & E) | [(? & ? & ? & ? & _ & _ & _ & _ & _ & E)
       | [(? & ? & tok & ? & ? & _ & _ & _ & _ & Ht & _ & _ & E)
       | (? & ? & tok & ? & z & _ & _ & _ & _ & Ht & _ & _ & E)]]]]]].
  1-5: left; repeat split; eexists; exact E.
  - right. left. repeat split. eexists _, tok. split; [exact Ht|exact E].
  - right. right. repeat split. exists tok, (Z.min z (token_cache_seconds (tool m))), z.
    split; [exact Ht|]. split; [reflexivity|exact E].
Qed.

(** X1.  A token the operation returns is never None nor empty, whatever
    the tool holds and whatever the server answers. *)
Theorem returned_token_is_usable (world : env) (m m' : machine) (tok : value) :
  _refresh_access_token world m = (Ok tok, m') ->
  truthy tok = true /\ tok <> VNone /\ tok <> VStr "".
Proof.
  intros E. assert (truthy tok = true) as Ht.
  { destruct (refresh_cases world m)
      as [(_ & ? & E') | [(_ & Hv & E') | [(_ & _ & ? & E')
         | [(_ & _ & ? & ? & _ & E') | (_ & _ & ? & ? & ? & Ht & _ & E')]]]];
      rewrite E' in E; try discriminate.
    - injection E as <- _. unfold cached_valid in Hv. now apply andb_prop in Hv.
    - now injection E as <- _. }
  split; [exact Ht|]. split; intros ->; discriminate.
Qed.

Lemma returned_token_is_usable_witness :
  truthy (VStr "BQD") = true /\ VStr "BQD" <> VNone /\ VStr "BQD" <> VStr "".
Proof.
  apply (returned_token_is_usable demo_world demo_machine
           (Machine (with_cache demo_tool (VStr "BQD") 1300) 1 [token_request demo_tool])).
  reflexivity.
Defined.

(** X2.  A token fetched from the server is never served from the cache
    at or after the fetch time plus the ceiling [token_cache_seconds]; with
    a ceiling of zero or less it is never served from the cache at any
    reading from the fetch time on. *)
Theorem cache_ceiling (world : env) (m m' : machine) (tok : value) :
  _refresh_access_token world m = (Ok tok, m') ->
  sent m' <> sent m ->
  forall now',
    clock world (reads m) + token_cache_seconds (tool m) <= now' ->
    cached_valid (tool m') now' = false.
Proof.
  intros E Hsent now' Hnow.
  destruct (refresh_cases world m)
    as [(_ & ? & E') | [(_ & _ & E') | [(_ & _ & ? & E')
       | [(_ & _ & ? & ? & _ & E') | (_ & _ & ? & z & life & _ & Hz & E')]]]];
    rewrite E' in E; try discriminate.
  - injection E as _ <-. now elim Hsent.
  - injection E as _ <-. unfold cached_valid. cbn [tool with_cache _token_expires_at].
    replace (now' <? clock world (reads m) + z) with false; [apply andb_false_r|].
    symmetry. apply Z.ltb_ge. lia.
Qed.

Lemma cache_ceiling_witness :
  cached_valid (with_cache demo_tool (VStr "BQD") 1300) 1300 = false.
Proof.
  apply (cache_ceiling demo_world demo_machine
           (Machine (with_cache demo_tool (VStr "BQD") 1300) 1 [token_request demo_tool])
           (VStr "BQD")).
  - reflexivity.
  - discriminate.
  - cbn. lia.
Defined.

Lemma refresh_settings (world : env) (m : machine) :
  settings (tool (snd (_refresh_access_token world m))) = settings (tool m).
Proof.
  destruct (refresh_cases world m)
    as [(_ & ? & E) | [(_ & _ & E) | [(_ & _ & ? & E)
       | [(_ & _ & ? & ? & _ & E) | (_ & _ & ? & ? & ? & _ & _ & E)]]]];
    rewrite E; reflexivity.
Qed.

Lemma token_steps_settings (world : env) (t t' : SpotifySearchTool) :
  token_steps world t t' -> settings t' = settings t.
Proof.
  induction 1 as [|m t _ IH]; [reflexivity|]. now rewrite IH, refresh_settings.
Qed.

(** X3.  Whatever a recommendation run does and however it ends, the
    credentials and the cache ceiling of the tool are afterwards what they
    were. *)
Theorem search_keeps_settings (world : env) (mood : string) (limit top_n : Z)
  (m : machine) :
  settings (tool (snd (search_by_mood world mood limit top_n m))) = settings (tool m).
Proof.
  apply (token_steps_settings world). apply search_by_mood_steps.
Qed.

(** X4.  The first token call on a newly constructed tool never finds a
    cached token: it raises SpotifyAuthError without sending anything when
    one of the three credentials is neither a non-empty argument nor a
    non-empty environment variable, and otherwise sends the refresh
    request, whatever the clock reads. *)
Theorem first_call_of_new_tool (world : env) (getenv : string -> option string)
  (cid csecret rtoken : option string) (cache_seconds : Z) (n : nat)
  (log : list request) :
  let t := init getenv cid csecret rtoken cache_seconds in
  let m := Machine t n log in
  (available cid getenv "SPOTIFY_CLIENT_ID"
   && available csecret getenv "SPOTIFY_CLIENT_SECRET"
   && available rtoken getenv "SPOTIFY_REFRESH_TOKEN" = false ->
   _refresh_access_token world m
   = (Raise (Exn SpotifyAuthError
                 "Spotify client ID / secret / refresh token not provided."), m))
  /\ (available cid getenv "SPOTIFY_CLIENT_ID"
      && available csecret getenv "SPOTIFY_CLIENT_SECRET"
      && available rtoken getenv "SPOTIFY_REFRESH_TOKEN" = true ->
      sent (snd (_refresh_access_token world m)) = List.app log [token_request t]).
Proof.
  intros t m.
  assert (forall a name, provided (opt_or a (getenv name)) = available a getenv name) as Hp.
  { intros a name. unfold opt_or, available. destruct (provided a) eqn:E; [|reflexivity].
    now rewrite E. }
  assert (configured t
          = available cid getenv "SPOTIFY_CLIENT_ID"
            && available csecret getenv "SPOTIFY_CLIENT_SECRET"
            && available rtoken getenv "SPOTIFY_REFRESH_TOKEN") as Hc.
  { unfold configured, t, init. cbn [client_id client_secret refresh_token].
    now rewrite !Hp. }
  split; intros H; rewrite <- Hc in H.
  - now apply refresh_unconfigured.
  - assert (cached_valid (tool m) (clock world (reads m)) = false) as Hv by reflexivity.
    destruct (refresh_cases world m)
      as [(Hc' & _) | [(_ & Hv' & _) | [(_ & _ & ? & E)
         | [(_ & _ & ? & ? & _ & E) | (_ & _ & ? & ? & ? & _ & _ & E)]]]];
      try (rewrite E; reflexivity).
    + cbn [tool m] in Hc'. congruence.
    + congruence.
Qed.

Lemma first_call_of_new_tool_witness :
  sent (snd (_refresh_access_token demo_world
               (Machine (init (fun _ => Some "from-env") (Some "id") None (Some "") 300)
                        0 [])))
  = [token_request (init (fun _ => Some "from-env") (Some "id") None (Some "") 300)].
Proof.
  apply (proj2 (first_call_of_new_tool demo_world (fun _ => Some "from-env")
                  (Some "id") None (Some "") 300 0 [])).
  reflexivity.
Defined.

(** ** Calls of the API, by status *)

Lemma call_spotify_answered (world : env) (u : string) (params : list (string * value))
  (m m1 : machine) (token : value) (r : response) :
  _refresh_access_token world m = (Ok token, m1) ->
  server world (List.length (sent m1)) (api_request u params token) = Answered r ->
  _call_spotify world u params m
  = (if status_code r =? 429
     then match py_int (header_get (headers r) "Retry-After" "1") with
          | Ok z => Raise (Exn SpotifySearchError
                               ("Rate limited by Spotify. Retry after "
                                ++ str_of_Z z ++ " seconds."))
          | Raise e => Raise e
          end
     else if 400 <=? status_code r
          then Raise (Exn SpotifySearchError
                          ("Spotify API error: " ++ str_of_Z (status_code r)
                           ++ " - " ++ text r))
          else match json r with
               | Some v => Ok v
               | None => Raise (Exn JSONDecodeError
                                    "Expecting value: line 1 column 1 (char 0)")
               end,
     asked m1 (api_request u params token)).
Proof.
  intros E Hr. unfold _call_spotify, bind. rewrite E.
  unfold requests_get, send. unfold api_request in Hr. rewrite Hr.
  unfold asked, api_request. destruct (status_code r =? 429).
  - unfold lift, raise. destruct (py_int _); reflexivity.
  - destruct (400 <=? status_code r); [reflexivity|].
    unfold r_json. destruct (json r); reflexivity.
Qed.

(** X5.  With the token in hand and a response other than 429:
    [_call_spotify] raises SpotifySearchError, naming the status and the
    body text, exactly for a status of 400 or more; for any lower status,
    redirects included, it returns the decoded body, or raises the
    decoder's error when the body is not JSON. *)
Theorem api_status_mapping (world : env) (u : string) (params : list (string * value))
  (m m1 : machine) (token : value) (r : response) :
  _refresh_access_token world m = (Ok token, m1) ->
  server world (List.length (sent m1)) (api_request u params token) = Answered r ->
  status_code r <> 429 ->
  (400 <= status_code r ->
   _call_spotify world u params m
   = (Raise (Exn SpotifySearchError
                 ("Spotify API error: " ++ str_of_Z (status_code r) ++ " - " ++ text r)),
      asked m1 (api_request u params token)))
  /\ (status_code r < 400 ->
      forall body, json r = Some body ->
      _call_spotify world u params m = (Ok body, asked m1 (api_request u params token)))
  /\ (status_code r < 400 ->
      json r = None ->
      exists msg,
        _call_spotify world u params m
        = (Raise (Exn JSONDecodeError msg), asked m1 (api_request u params token))).
Proof.
  intros E Hr Hs. rewrite (call_spotify_answered world u params m m1 token r E Hr).
  apply Z.eqb_neq in Hs. rewrite Hs. repeat split.
  - intros H. apply Z.leb_le in H. now rewrite H.
  - intros H body Hj. apply Z.leb_gt in H. now rewrite H, Hj.
  - intros H Hj. apply Z.leb_gt in H. rewrite H, Hj. now eexists.
Qed.

Lemma api_status_mapping_witness :
  _call_spotify demo_world (SPOTIFY_PLAYLIST_TRACKS_URL (VStr "p1")) [] demo_machine
  = (Ok (VDict [("items", VList [track_item "one"; VDict [("track", VNone)];
                                 track_item "two"; track_item "three"])]),
     asked demo_granted (api_request (SPOTIFY_PLAYLIST_TRACKS_URL (VStr "p1")) [] (VStr "BQD"))).
Proof.
  refine (proj1 (proj2 (api_status_mapping demo_world (SPOTIFY_PLAYLIST_TRACKS_URL (VStr "p1")) []
                          demo_machine demo_granted (VStr "BQD") demo_tracks
                          eq_refl eq_refl _)) _ _ eq_refl).
  - discriminate.
  - reflexivity.
Defined.

Lemma py_int_raises (s : string) (e : exn) :
  py_int s = Raise e -> exn_kind e = ValueError.
Proof.
  unfold py_int. destruct (read_int s); [discriminate| |]; now intros [= <-].
Qed.

(** What [int] makes of some header values: blanks around the digits are
    dropped, the separators 0x1c-0x1f are not, digits of other scripts
    count, and a literal of more than 4300 digits is refused. *)
Example int_literals :
  py_int " 30 " = Ok 30
  /\ py_int "-1_000" = Ok (-1000)
  /\ py_int (String (ascii_of_nat 194) (String (ascii_of_nat 160) "7")) = Ok 7
  /\ py_int (String (ascii_of_nat 217) (String (ascii_of_nat 163) "0")) = Ok 30
  /\ py_int (String (ascii_of_nat 28) "7")
     = Raise (Exn ValueError "invalid literal for int() with base 10: '\x1c7'")
  /\ py_int "1__0" = Raise (Exn ValueError "invalid literal for int() with base 10: '1__0'")
  /\ py_int (String.concat "" (repeat "0" 4301))
     = Raise (Exn ValueError
                ("Exceeds the limit (4300 digits) for integer string conversion: "
                 ++ "value has 4301 digits; "
                 ++ "use sys.set_int_max_str_digits() to increase the limit")).
Proof. repeat split; vm_compute; reflexivity. Qed.

(** X6.  On a 429 response [_call_spotify] raises SpotifySearchError when
    [int] reads the [Retry-After] header as a number, and the message then
    carries that number of seconds; when [int] refuses the header, its
    ValueError is what the call raises; without the header the message says
    1 second.  In each case the API request is the last thing sent. *)
Theorem rate_limit_hint (world : env) (u : string) (params : list (string * value))
  (m m1 : machine) (token : value) (r : response) :
  _refresh_access_token world m = (Ok token, m1) ->
  server world (List.length (sent m1)) (api_request u params token) = Answered r ->
  status_code r = 429 ->
  (forall z,
      py_int (header_get (headers r) "Retry-After" "1") = Ok z ->
      _call_spotify world u params m
      = (Raise (Exn SpotifySearchError
                    ("Rate limited by Spotify. Retry after " ++ str_of_Z z
                     ++ " seconds.")),
         asked m1 (api_request u params token)))
  /\ (forall e,
         py_int (header_get (headers r) "Retry-After" "1") = Raise e ->
         exn_kind e = ValueError
         /\ _call_spotify world u params m
            = (Raise e, asked m1 (api_request u params token)))
  /\ (headers r = [] ->
      _call_spotify world u params m
      = (Raise (Exn SpotifySearchError "Rate limited by Spotify. Retry after 1 seconds."),
         asked m1 (api_request u params token))).
Proof.
  intros E Hr Hs. rewrite (call_spotify_answered world u params m m1 token r E Hr).
  rewrite Hs. cbn [Z.eqb Pos.eqb]. split; [|split].
  - intros z Hz. now rewrite Hz.
  - intros e He. split; [exact (py_int_raises _ _ He)|]. now rewrite He.
  - intros ->. reflexivity.
Qed.

Lemma rate_limit_hint_witness :
  _call_spotify (limited_world " 30 ") SPOTIFY_SEARCH_URL [] demo_machine
  = (Raise (Exn SpotifySearchError "Rate limited by Spotify. Retry after 30 seconds."),
     asked demo_granted (api_request SPOTIFY_SEARCH_URL [] (VStr "BQD"))).
Proof.
  refine (proj1 (rate_limit_hint (limited_world " 30 ") SPOTIFY_SEARCH_URL []
                   demo_machine demo_granted (VStr "BQD")
                   (Response 429 "" None [("Retry-After", " 30 ")])
                   eq_refl eq_refl eq_refl) 30 eq_refl).
Defined.

(** ** The search, its result and its requests *)

(** X7.  The list [search_playlists] returns holds no None, whatever the
    server sent. *)
Theorem search_playlists_no_nulls (world : env) (mood : string) (limit : Z)
  (m m' : machine) (playlists : list value) :
  search_playlists world mood limit m = (Ok playlists, m') ->
  Forall (fun p => p <> VNone) playlists.
Proof.
  unfold search_playlists. destruct (blank mood); [discriminate|].
  unfold bind, lift, ret.
  destruct (_call_spotify world _ _ m) as [[resp|e] m1]; [|discriminate].
  destruct (py_get resp _ _) as [found|]; [|discriminate].
  destruct (py_get found _ _) as [items|]; [|discriminate].
  destruct (py_iter items) as [its|]; [|discriminate].
  intros H. injection H as <- _. apply Forall_forall. intros p Hp.
  apply filter_In in Hp as [_ Hp]. intros ->. discriminate.
Qed.

Lemma search_playlists_no_nulls_witness :
  Forall (fun p => p <> VNone)
         (filter (fun p => negb (is_none p))
                 [VNone;
                  VDict [("id", VStr "p1"); ("name", VStr "Happy Vibes");
                         ("description", VStr "feel good");
                         ("followers", VDict [("total", VInt 2000)]);
                         ("owner", VDict [("display_name", VStr "bob")])];
                  VDict [("id", VStr "p2"); ("name", VStr "sad songs");
                         ("followers", VDict [("total", VInt 50000)])]]).
Proof.
  apply (search_playlists_no_nulls demo_world "happy" 10 demo_machine
           (asked demo_granted (search_request "happy" 10 (VStr "BQD")))).
  reflexivity.
Defined.

(** X8.  [search_by_mood] checks the mood before anything else: a mood
    that is empty or all whitespace raises ValueError with its own message
    and leaves the machine untouched, so nothing is read or sent. *)
Theorem search_by_mood_blank (world : env) (mood : string) (limit top_n : Z)
  (m : machine) :
  all_space mood = true ->
  search_by_mood world mood limit top_n m
  = (Raise (Exn ValueError "Mood cannot be empty."), m).
Proof.
  intros H. unfold search_by_mood. now rewrite blank_all_space, H.
Qed.

Lemma search_by_mood_blank_witness :
  search_by_mood silent_world (String (ascii_of_nat 9) " ") 10 5 demo_machine
  = (Raise (Exn ValueError "Mood cannot be empty."), demo_machine).
Proof.
  apply search_by_mood_blank. reflexivity.
Defined.

Lemma filter_all_none (its : list value) :
  forallb is_none its = true -> filter (fun p => negb (is_none p)) its = [].
Proof.
  induction its as [|x r IH]; cbn; [reflexivity|].
  intros H. apply andb_prop in H as [Hx Hr]. rewrite Hx. cbn. now apply IH.
Qed.

(** X9.  When the search answer holds no playlist, because the key
    [playlists] or [items] is missing, the list is empty or every item is
    null, [search_by_mood] raises SpotifySearchError naming the mood, and
    the search request is the last one sent: no tracks are asked for. *)
Theorem search_by_mood_no_playlists (world : env) (mood : string) (limit top_n : Z)
  (m m1 : machine) (token body found : value) (r : response) (its : list value) :
  all_space mood = false ->
  _refresh_access_token world m = (Ok token, m1) ->
  server world (List.length (sent m1)) (search_request mood limit token) = Answered r ->
  status_code r < 400 ->
  json r = Some body ->
  py_get body "playlists" (VDict []) = Ok found ->
  py_get found "items" (VList []) = Ok (VList its) ->
  forallb is_none its = true ->
  search_by_mood world mood limit top_n m
  = (Raise (Exn SpotifySearchError ("No playlists found for mood '" ++ mood ++ "'.")),
     asked m1 (search_request mood limit token)).
Proof.
  intros Hb E Hr Hs Hj Hf Hi Hn. unfold search_by_mood, search_playlists.
  rewrite blank_all_space, Hb. unfold bind at 1 2.
  rewrite (call_spotify_answered world _ _ m m1 token r E Hr).
  replace (status_code r =? 429) with false by (symmetry; apply Z.eqb_neq; lia).
  replace (400 <=? status_code r) with false by (symmetry; apply Z.leb_gt; lia).
  rewrite Hj. unfold bind, lift, ret. rewrite Hf, Hi. cbn [py_iter].
  now rewrite (filter_all_none its Hn).
Qed.

Lemma search_by_mood_no_playlists_witness :
  search_by_mood nulls_world "happy" 10 5 demo_machine
  = (Raise (Exn SpotifySearchError "No playlists found for mood 'happy'."),
     asked demo_granted (search_request "happy" 10 (VStr "BQD"))).
Proof.
  apply (search_by_mood_no_playlists nulls_world "happy" 10 5 demo_machine demo_granted
           (VStr "BQD")
           (VDict [("playlists", VDict [("items", VList [VNone; VNone])])])
           (VDict [("items", VList [VNone; VNone])])
           demo_nulls [VNone; VNone]);
    try reflexivity.
Defined.

Lemma score_all_snd (ml : string) (playlists : list value) (scored : list (Z * value)) :
  score_all ml playlists = Ok scored -> map snd scored = playlists.
Proof.
  revert scored. induction playlists as [|p r IH]; intros scored H.
  - now injection H as <-.
  - cbn [score_all] in H. destruct (score_playlist ml p); [|discriminate].
    cbn [obind] in H. destruct (score_all ml r) as [others|]; [|discriminate].
    cbn [obind] in H. injection H as <-. cbn. now rewrite (IH others).
Qed.

(** What the ranker returns for a list that is not empty is an element of
    the list. *)
Lemma choose_best_in (playlists : list value) (mood : string) (v : value) :
  playlists <> [] ->
  choose_best_playlist playlists mood = Ok v ->
  In v playlists.
Proof.
  intros Hne H. unfold choose_best_playlist in H.
  destruct playlists as [|p0 rest]; [congruence|].
  destruct (score_all (lower mood) (p0 :: rest)) as [scored|] eqn:Es; [|discriminate].
  cbn [obind] in H. destruct (sort_desc scored) as [|[s best] t] eqn:Esort; [discriminate|].
  injection H as <-. rewrite <- (score_all_snd _ _ _ Es).
  apply (in_map snd scored (s, best)).
  apply (Permutation_in _ (Permutation_sym (sort_desc_perm scored))).
  rewrite Esort. now left.
Qed.

(** A call of the API that returns has sent the API request last, after
    at most one refresh request. *)
Lemma call_spotify_ok_sent (world : env) (u : string) (params : list (string * value))
  (m m' : machine) (v : value) :
  _call_spotify world u params m = (Ok v, m') ->
  exists token refreshes,
    (refreshes = [] \/ refreshes = [token_request (tool m)])
    /\ sent m' = List.app (sent m) (List.app refreshes [api_request u params token]).
Proof.
  intros E. destruct (_refresh_access_token world m) as [[token|e] m1] eqn:Er.
  2:{ rewrite (call_spotify_unauthorised world u params m m1 e Er) in E. discriminate. }
  pose proof (call_spotify_sent world u params m m1 token Er) as Hs.
  rewrite E in Hs. cbn [snd] in Hs. subst m'. cbn [sent].
  exists token.
  destruct (refresh_cases world m)
    as [(_ & ? & E') | [(_ & _ & E') | [(_ & _ & ? & E')
       | [(_ & _ & ? & ? & _ & E') | (_ & _ & ? & ? & ? & _ & _ & E')]]]];
    rewrite E' in Er; try discriminate; injection Er as _ <-.
  - exists []. split; [now left|reflexivity].
  - exists [token_request (tool m)]. split; [now right|].
    cbn [sent]. now rewrite <- app_assoc.
Qed.

(** How a recommendation run that returns is made up. *)
Lemma search_by_mood_parts (world : env) (mood : string) (limit top_n : Z)
  (m m' : machine) (result : value) :
  search_by_mood world mood limit top_n m = (Ok result, m') ->
  exists playlists m1 d external_url owner tracks,
    search_playlists world mood limit m = (Ok playlists, m1)
    /\ In (VDict d) playlists
    /\ get_playlist_top_tracks world (field d "id") top_n m1 = (Ok tracks, m')
    /\ result = VDict [("playlist", playlist_info d external_url owner);
                       ("tracks", VList tracks)].
Proof.
  unfold search_by_mood. destruct (blank mood); [discriminate|].
  unfold bind at 1.
  destruct (search_playlists world mood limit m) as [[pls|e] m1]; [|discriminate].
  destruct pls as [|first others] eqn:Epls; [discriminate|]. rewrite <- Epls.
  unfold bind at 1, lift.
  destruct (choose_best_playlist pls mood) as [chosen|] eqn:Ec; [|discriminate].
  assert (In (if truthy chosen then chosen else first) pls) as Hin.
  { destruct (truthy chosen).
    - apply (choose_best_in pls mood chosen); [subst pls; discriminate|exact Ec].
    - subst pls. now left. }
  destruct (if truthy chosen then chosen else first) as [| | | | |d] eqn:Eb;
    try discriminate.
  unfold bind, lift, ret. cbn [py_get].
  destruct (py_get _ "spotify" VNone) as [external_url|]; [|discriminate].
  destruct (py_get _ "display_name" VNone) as [owner|]; [|discriminate].
  fold (field d "id").
  destruct (get_playlist_top_tracks world (field d "id") top_n m1) as [[tracks|e] m2]
    eqn:Et; [|discriminate].
  intros H. injection H as <- <-.
  exists pls, m1, d, external_url, owner, tracks. repeat split; assumption.
Qed.

Lemma search_playlists_ok_sent (world : env) (mood : string) (limit : Z)
  (m m' : machine) (playlists : list value) :
  search_playlists world mood limit m = (Ok playlists, m') ->
  tool m' = tool (snd (_refresh_access_token world m))
  /\ exists token refreshes,
      (refreshes = [] \/ refreshes = [token_request (tool m)])
      /\ sent m'
         = List.app (sent m) (List.app refreshes [search_request mood limit token]).
Proof.
  intros E. destruct (blank mood) eqn:Hb.
  { unfold search_playlists in E. rewrite Hb in E. discriminate. }
  pose proof (search_playlists_machine world mood limit m Hb) as Hm.
  rewrite E in Hm. cbn [snd] in Hm.
  unfold search_playlists in E. rewrite Hb in E. unfold bind at 1 in E.
  destruct (_call_spotify world SPOTIFY_SEARCH_URL _ m) as [[resp|e] m1] eqn:Ec;
    [|discriminate].
  cbn [snd] in Hm. subst m1. split.
  - rewrite <- (call_spotify_tool world SPOTIFY_SEARCH_URL
                  [("q", VStr (mood ++ " playlist")); ("type", VStr "playlist");
                   ("limit", VInt limit)] m).
    now rewrite Ec.
  - exact (call_spotify_ok_sent world _ _ m m' resp Ec).
Qed.

Lemma get_playlist_top_tracks_ok_sent (world : env) (playlist_id : value) (top_n : Z)
  (m m' : machine) (tracks : list value) :
  get_playlist_top_tracks world playlist_id top_n m = (Ok tracks, m') ->
  exists token refreshes,
    (refreshes = [] \/ refreshes = [token_request (tool m)])
    /\ sent m' = List.app (sent m) (List.app refreshes [tracks_request playlist_id token]).
Proof.
  unfold get_playlist_top_tracks. unfold bind at 1.
  destruct (_call_spotify world _ _ m) as [[resp|e] m1] eqn:Ec; [|discriminate].
  unfold bind, lift.
  destruct (py_get resp _ _) as [items|]; [|discriminate].
  destruct (py_iter items) as [its|]; [|discriminate].
  destruct (collect_tracks its [] top_n); [|discriminate].
  intros H. injection H as _ <-.
  exact (call_spotify_ok_sent world _ _ m m1 resp Ec).
Qed.

(** X10.  A recommendation run that returns has sent, in this order, at
    most one refresh request, the search for the mood, at most one more
    refresh request, and the request for up to 50 tracks of the playlist
    whose id it reports; nothing else. *)
Theorem search_by_mood_requests (world : env) (mood : string) (limit top_n : Z)
  (m m' : machine) (result : value) :
  search_by_mood world mood limit top_n m = (Ok result, m') ->
  exists d external_url owner tracks token1 token2 first second,
    result = VDict [("playlist", playlist_info d external_url owner);
                    ("tracks", VList tracks)]
    /\ (first = [] \/ first = [token_request (tool m)])
    /\ (second = []
        \/ second = [token_request (tool (snd (_refresh_access_token world m)))])
    /\ sent m'
       = List.app (sent m)
           (List.app first
              (List.app [search_request mood limit token1]
                 (List.app second [tracks_request (field d "id") token2]))).
Proof.
  intros E.
  destruct (search_by_mood_parts _ _ _ _ _ _ _ E)
    as (pls & m1 & d & external_url & owner & tracks & Es & _ & Et & ->).
  destruct (search_playlists_ok_sent _ _ _ _ _ _ Es) as (Htool & token1 & first & Hf & Hs1).
  destruct (get_playlist_top_tracks_ok_sent _ _ _ _ _ _ Et) as (token2 & second & Hg & Hs2).
  exists d, external_url, owner, tracks, token1, token2, first, second.
  split; [reflexivity|]. split; [exact Hf|]. split; [now rewrite <- Htool|].
  rewrite Hs2, Hs1. now rewrite <- !app_assoc.
Qed.

Lemma search_by_mood_requests_witness :
  exists d external_url owner tracks token1 token2 first second,
    fst (search_by_mood demo_world "happy" 10 5 demo_machine)
    = Ok (VDict [("playlist", playlist_info d external_url owner);
                 ("tracks", VList tracks)])
    /\ (first = [] \/ first = [token_request demo_tool])
    /\ (second = []
        \/ second
           = [token_request (tool (snd (_refresh_access_token demo_world demo_machine)))])
    /\ sent (snd (search_by_mood demo_world "happy" 10 5 demo_machine))
       = List.app []
           (List.app first
              (List.app [search_request "happy" 10 token1]
                 (List.app second [tracks_request (field d "id") token2]))).
Proof.
  destruct (search_by_mood demo_world "happy" 10 5 demo_machine) as [o m'] eqn:E.
  assert (exists result, o = Ok result) as [result ->]
      by (vm_compute in E; injection E as <- _; now eexists).
  destruct (search_by_mood_requests demo_world "happy" 10 5 demo_machine m' result E)
    as (d & eu & ow & ts & t1 & t2 & f & s & -> & Hf & Hs & Hsent).
  exists d, eu, ow, ts, t1, t2, f, s. repeat split; assumption.
Defined.

(** X11.  The playlist a recommendation reports is one of the playlists
    the search returned, with its own id, name and description; it is
    never one the search did not return. *)
Theorem reported_playlist_was_found (world : env) (mood : string) (limit top_n : Z)
  (m m' : machine) (result : value) :
  search_by_mood world mood limit top_n m = (Ok result, m') ->
  exists playlists m1 d external_url owner tracks,
    search_playlists world mood limit m = (Ok playlists, m1)
    /\ In (VDict d) playlists
    /\ py_get result "playlist" VNone = Ok (playlist_info d external_url owner)
    /\ py_get (playlist_info d external_url owner) "id" VNone = Ok (field d "id")
    /\ py_get (playlist_info d external_url owner) "name" VNone = Ok (field d "name")
    /\ py_get (playlist_info d external_url owner) "description" VNone
       = Ok (field d "description")
    /\ py_get result "tracks" VNone = Ok (VList tracks).
Proof.
  intros E.
  destruct (search_by_mood_parts _ _ _ _ _ _ _ E)
    as (pls & m1 & d & external_url & owner & tracks & Es & Hin & _ & ->).
  exists pls, m1, d, external_url, owner, tracks. repeat split; assumption.
Qed.

Lemma reported_playlist_was_found_witness :
  exists playlists m1 d external_url owner tracks,
    search_playlists demo_world "happy" 10 demo_machine = (Ok playlists, m1)
    /\ In (VDict d) playlists
    /\ py_get (VDict [("playlist", playlist_info d external_url owner);
                      ("tracks", VList tracks)]) "playlist" VNone
       = Ok (playlist_info d external_url owner).
Proof.
  destruct (search_by_mood demo_world "happy" 10 5 demo_machine) as [o m'] eqn:E.
  assert (exists result, o = Ok result) as [result ->]
      by (vm_compute in E; injection E as <- _; now eexists).
  destruct (reported_playlist_was_found demo_world "happy" 10 5 demo_machine m' result E)
    as (pls & m1 & d & eu & ow & ts & Hs & Hin & _).
  exists pls, m1, d, eu, ow, ts. repeat split; assumption.
Defined.

(** ** Scores *)

(** What a score is made of, read back from a scoring that succeeded. *)
Lemma score_playlist_inv (ml : string) (p : value) (s : Z) :
  score_playlist ml p = Ok s ->
  exists name_v desc_v name desc followers total,
    py_get p "name" (VStr "") = Ok name_v /\ py_lower name_v = Ok name
    /\ py_get p "description" (VStr "") = Ok desc_v /\ py_lower desc_v = Ok desc
    /\ follower_total p = Ok followers /\ as_int followers = Some total
    /\ s = (if contains ml name then 50 else 0) + (if contains ml desc then 30 else 0)
           + Z.min (total / 1000) 20.
Proof.
  unfold score_playlist, follower_total. intros H.
  destruct (py_get p "name" (VStr "")) as [name_v|] eqn:E1; [|discriminate].
  cbn [obind] in H.
  destruct (py_lower name_v) as [name|] eqn:E2; [|discriminate]. cbn [obind] in H.
  destruct (py_get p "description" (VStr "")) as [desc_v|] eqn:E3; [|discriminate].
  cbn [obind] in H.
  destruct (py_lower desc_v) as [desc|] eqn:E4; [|discriminate]. cbn [obind] in H.
  destruct (py_get p "followers" (VDict [])) as [counts|] eqn:E5; [|discriminate].
  cbn [obind] in H |- *.
  destruct (py_get counts "total" (VInt 0)) as [followers|] eqn:E6; [|discriminate].
  cbn [obind] in H. unfold py_floordiv in H.
  destruct (as_int followers) as [total|] eqn:E7; [|discriminate]. cbn [obind] in H.
  injection H as <-. exists name_v, desc_v, name, desc, followers, total.
  repeat (split; [reflexivity || assumption|]).
  destruct (contains ml name), (contains ml desc); reflexivity.
Qed.

(** X12.  No candidate scores more than 100, and one whose follower count
    is not negative scores at least 0. *)
Theorem score_bounds (ml : string) (p : value) (s : Z) :
  score_playlist ml p = Ok s ->
  s <= 100
  /\ (forall followers total,
         follower_total p = Ok followers -> as_int followers = Some total ->
         0 <= total -> 0 <= s).
Proof.
  intros H.
  destruct (score_playlist_inv ml p s H)
    as (nv & dv & name & desc & fo & total & _ & _ & _ & _ & Hf & Hi & ->).
  split.
  - destruct (contains ml name), (contains ml desc); lia.
  - intros fo' total' Hf' Hi' Hpos. rewrite Hf in Hf'. injection Hf' as <-.
    rewrite Hi in Hi'. injection Hi' as <-.
    assert (0 <= total / 1000) by (apply Z.div_pos; lia).
    destruct (contains ml name), (contains ml desc); lia.
Qed.

Lemma score_bounds_witness :
  52 <= 100
  /\ (forall followers total,
         follower_total happy_vibes = Ok followers -> as_int followers = Some total ->
         0 <= total -> 0 <= 52).
Proof.
  apply (score_bounds (lower "happy") happy_vibes 52). reflexivity.
Defined.

(** X13.  A candidate whose name contains the mood, with a follower count
    that is not negative, never scores less than a candidate whose name
    does not contain it, whatever the descriptions and follower counts. *)
Theorem name_match_dominates (ml : string) (a b : value) (sa sb : Z)
  (name_a name_b : string) (followers total : value) (n : Z) :
  score_playlist ml a = Ok sa ->
  score_playlist ml b = Ok sb ->
  py_get a "name" (VStr "") = Ok (VStr name_a) ->
  contains ml (lower name_a) = true ->
  follower_total a = Ok total -> as_int total = Some n -> 0 <= n ->
  py_get b "name" (VStr "") = Ok (VStr name_b) ->
  contains ml (lower name_b) = false ->
  sb <= sa.
Proof.
  intros Ha Hb Hna Hca Hfa Hia Hpos Hnb Hcb.
  destruct (score_playlist_inv ml a sa Ha)
    as (nva & dva & na & da & foa & ta & Hna' & Hla & _ & _ & Hfa' & Hia' & ->).
  destruct (score_playlist_inv ml b sb Hb)
    as (nvb & dvb & nb & db & fob & tb & Hnb' & Hlb & _ & _ & _ & _ & ->).
  rewrite Hna in Hna'. injection Hna' as <-. cbn in Hla. injection Hla as <-.
  rewrite Hnb in Hnb'. injection Hnb' as <-. cbn in Hlb. injection Hlb as <-.
  rewrite Hfa in Hfa'. injection Hfa' as <-. rewrite Hia in Hia'. injection Hia' as <-.
  rewrite Hca, Hcb.
  assert (0 <= n / 1000) by (apply Z.div_pos; lia).
  destruct (contains ml da), (contains ml db); lia.
Qed.

Lemma name_match_dominates_witness : 20 <= 52.
Proof.
  apply (name_match_dominates (lower "happy") happy_vibes sad_songs 52 20
           "happy vibes" "sad songs" (VInt 0) (VInt 2000) 2000); try reflexivity.
  lia.
Defined.

(** ** Tracks *)

Lemma all_entries_length (items es : list value) :
  all_entries items = Ok es -> (List.length es <= List.length items)%nat.
Proof.
  revert es. induction items as [|it rest IH]; intros es H.
  - injection H as <-. constructor.
  - cbn [all_entries] in H.
    destruct (py_get it "track" VNone) as [track|]; [|discriminate]. cbn [obind] in H.
    destruct (truthy track); cbn [negb] in H.
    + destruct (track_entry track); [|discriminate]. cbn [obind] in H.
      destruct (all_entries rest) as [others|]; [|discriminate]. cbn [obind] in H.
      injection H as <-. cbn. apply le_n_S. now apply IH.
    + cbn. apply Nat.le_le_succ_r. now apply IH.
Qed.

(** X14.  For a limit of one or more and a response whose items can all
    be read, [get_playlist_top_tracks] returns the first [top_n] of the
    entries with a track payload, in the order of the response: never more
    than [top_n], never more than the response has items. *)
Theorem top_tracks_prefix (world : env) (playlist_id resp : value) (top_n : Z)
  (m m1 : machine) (its es : list value) :
  _call_spotify world (SPOTIFY_PLAYLIST_TRACKS_URL playlist_id) [("limit", VInt 50)] m
  = (Ok resp, m1) ->
  py_get resp "items" (VList []) = Ok (VList its) ->
  all_entries its = Ok es ->
  1 <= top_n ->
  get_playlist_top_tracks world playlist_id top_n m
  = (Ok (firstn (Z.to_nat top_n) es), m1)
  /\ Z.of_nat (List.length (firstn (Z.to_nat top_n) es)) <= top_n
  /\ (List.length (firstn (Z.to_nat top_n) es) <= List.length its)%nat.
Proof.
  intros Ec Hi He Hn. split; [|split].
  - unfold get_playlist_top_tracks, bind, lift. rewrite Ec, Hi. cbn [py_iter].
    now rewrite (collect_tracks_at_most its es top_n He Hn).
  - rewrite length_firstn. lia.
  - rewrite length_firstn. pose proof (all_entries_length its es He). lia.
Qed.

Lemma top_tracks_prefix_witness :
  get_playlist_top_tracks demo_world (VStr "p1") 2 demo_machine
  = (Ok (firstn (Z.to_nat 2)
           [VDict [("name", VStr "one"); ("artists", VStr "A, B");
                   ("preview_url", VNone);
                   ("track_url", VStr "https://open.spotify.com/track/one")];
            VDict [("name", VStr "two"); ("artists", VStr "A, B");
                   ("preview_url", VNone);
                   ("track_url", VStr "https://open.spotify.com/track/two")];
            VDict [("name", VStr "three"); ("artists", VStr "A, B");
                   ("preview_url", VNone);
                   ("track_url", VStr "https://open.spotify.com/track/three")]]),
     asked demo_granted (tracks_request (VStr "p1") (VStr "BQD"))).
Proof.
  refine (proj1 (top_tracks_prefix demo_world (VStr "p1") _ 2 demo_machine _
                   [track_item "one"; VDict [("track", VNone)];
                    track_item "two"; track_item "three"] _
                   eq_refl eq_refl eq_refl _)).
  lia.
Defined.

(** X15.  The formatter never raises on what [search_by_mood] returns:
    every recommendation that is found can be shown. *)
Theorem found_result_can_be_shown (world : env) (mood : string) (limit top_n : Z)
  (m m' : machine) (result : value) :
  search_by_mood world mood limit top_n m = (Ok result, m') ->
  exists shown, format_result result = Ok shown.
Proof.
  intros E. destruct (search_by_mood_result _ _ _ _ _ _ _ E) as (p & ds & -> & _).
  exists (rendering p ds). now apply format_result_renders.
Qed.

Lemma found_result_can_be_shown_witness :
  exists shown,
    format_result
      (match fst (search_by_mood demo_world "happy" 10 5 demo_machine) with
       | Ok result => result
       | Raise _ => VNone
       end)
    = Ok shown.
Proof.
  destruct (search_by_mood demo_world "happy" 10 5 demo_machine) as [o m'] eqn:E.
  assert (exists result, o = Ok result) as [result ->]
      by (vm_compute in E; injection E as <- _; now eexists).
  cbn [fst].
  exact (found_result_can_be_shown demo_world "happy" 10 5 demo_machine m' result E).
Defined.

(** ** The agent path of the helper *)

(** What the helper does once the agent has failed with [e], leaving the
    machine [m0]: the search by the tool from there, under the notice. *)
Lemma fallback_after (world : env) (a : agent) (mood : string) (e : exn)
  (m m0 : machine) :
  agent_attempt a mood m = (Raise e, m0) ->
  handle_mood_with_agent world (Some a) mood m
  = match recommend world mood m0 with
    | (Ok shown, m1) => (Ok (fallback_reason e ++ shown), m1)
    | (Raise e2, m1) =>
        (Ok (fallback_reason e ++ "Also failed to get data from Spotify: "
             ++ exn_msg e2), m1)
    end.
Proof.
  intros H. unfold handle_mood_with_agent. fold (user_prompt mood).
  fold (agent_attempt a mood). unfold try_except at 1. rewrite H.
  unfold try_except, recommend, bind, lift, ret, fallback_reason.
  destruct (search_by_mood world mood 10 5 m0) as [[r|e2] m1]; [|reflexivity].
  destruct (format_result r); reflexivity.
Qed.

(** X16.  When the agent answers, the helper returns that answer and does
    nothing more: the machine is left as the call of the agent left it,
    with whatever the agent had the tool do, and the helper itself neither
    calls the tool nor sends anything.  The method [run] is used when the
    agent has it, [respond] only when it has no [run]. *)
Theorem agent_answer_is_returned (world : env) (a : agent) (mood answer : string)
  (m m1 : machine) :
  agent_attempt a mood m = (Ok answer, m1) ->
  handle_mood_with_agent world (Some a) mood m = (Ok answer, m1)
  /\ (forall f, run a = Some f -> f (user_prompt mood) m = (Ok answer, m1))
  /\ (run a = None ->
      forall g, respond a = Some g -> g (user_prompt mood) m = (Ok answer, m1)).
Proof.
  intros H. split; [|split].
  - unfold handle_mood_with_agent. fold (user_prompt mood).
    fold (agent_attempt a mood). unfold try_except. now rewrite H.
  - intros f Hf. unfold agent_attempt in H. now rewrite Hf in H.
  - intros Hr g Hg. unfold agent_attempt in H. now rewrite Hr, Hg in H.
Qed.

Lemma agent_answer_is_returned_witness :
  exists answer m1,
    handle_mood_with_agent demo_world (Some (calling_agent demo_world "happy")) "happy"
      demo_machine
    = (Ok answer, m1)
    /\ List.length (sent m1) = 3%nat
    /\ _access_token (tool m1) = VStr "BQD".
Proof.
  destruct (agent_attempt (calling_agent demo_world "happy") "happy" demo_machine)
    as [o m1] eqn:E.
  assert (exists answer, o = Ok answer) as [answer ->]
      by (vm_compute in E; injection E as <- _; now eexists).
  exists answer, m1. split.
  - exact (proj1 (agent_answer_is_returned demo_world (calling_agent demo_world "happy")
                    "happy" answer demo_machine m1 E)).
  - vm_compute in E. injection E as _ <-. split; reflexivity.
Defined.

(** X17.  When the agent fails, because [run] or [respond] raises or the
    agent has neither, the helper falls back to the tool, from the machine
    as the agent left it: the text starts with the agent's error and the
    fallback notice and goes on with the formatted recommendation, or,
    when the tool fails as well, with one and the same notice for every
    kind of exception. *)
Theorem agent_failure_falls_back (world : env) (a : agent) (mood : string)
  (e : exn) (m m0 : machine) :
  agent_attempt a mood m = (Raise e, m0) ->
  (forall shown m1,
      recommend world mood m0 = (Ok shown, m1) ->
      handle_mood_with_agent world (Some a) mood m
      = (Ok (fallback_reason e ++ shown), m1))
  /\ (forall e2 m1,
         recommend world mood m0 = (Raise e2, m1) ->
         handle_mood_with_agent world (Some a) mood m
         = (Ok (fallback_reason e ++ "Also failed to get data from Spotify: "
                ++ exn_msg e2), m1)).
Proof.
  intros H. pose proof (fallback_after world a mood e m m0 H) as Hh. split.
  - intros shown m1 E. now rewrite Hh, E.
  - intros e2 m1 E. now rewrite Hh, E.
Qed.

Lemma agent_failure_falls_back_witness :
  handle_mood_with_agent silent_world (Some failing_agent) "happy" demo_machine
  = (Ok (fallback_reason (Exn RuntimeError "model unavailable")
         ++ "Also failed to get data from Spotify: " ++ "Read timed out."),
     posted demo_machine).
Proof.
  apply (proj2 (agent_failure_falls_back silent_world failing_agent "happy"
                  (Exn RuntimeError "model unavailable") demo_machine demo_machine
                  eq_refl)
           (Exn RequestException "Read timed out.")).
  reflexivity.
Defined.

(** ** The script *)




Lemma all_space_append (a b : string) :
  all_space a = true -> all_space (a ++ b) = all_space b.
Proof.
  intros H. unfold all_space in *.
  now rewrite (characters_after_space a b H), forallb_app, H.
Qed.

Lemma all_space_join (args : list string) :
  forallb all_space args = true -> all_space (join " " args) = true.
Proof.
  unfold join. induction args as [|x r IH]; [reflexivity|].
  cbn [forallb]. intros H. apply andb_prop in H as [Hx Hr].
  destruct r as [|y r']; [exact Hx|].
  change (String.concat " " (x :: y :: r'))
    with (x ++ " " ++ String.concat " " (y :: r')).
  rewrite (all_space_append x _ Hx).
  rewrite (all_space_append " " _ eq_refl). exact (IH Hr).
Qed.

(** X19.  Run without an agent on arguments that are all whitespace, the
    script prints the banner for the empty mood and then the message for
    the empty mood, and contacts neither the token endpoint nor the API. *)
Theorem main_blank_arguments (world : env) (prog : string) (args : list string)
  (m : machine) :
  args <> [] ->
  forallb all_space args = true ->
  main world None (prog :: args) m
  = (Transcript ["Getting recommendations for mood: ''" ++ nl;
                 "Unexpected error: Mood cannot be empty."] Returned, m).
Proof.
  intros Hne Hall. unfold main.
  replace (List.length (prog :: args) <? 2)%nat with false
    by (destruct args; [congruence|reflexivity]).
  cbn [tl]. pose proof (all_space_join args Hall) as Hj.
  apply strip_empty in Hj. rewrite Hj. reflexivity.
Qed.

Lemma main_blank_arguments_witness :
  main silent_world None ["main.py"; " "; ""] demo_machine
  = (Transcript ["Getting recommendations for mood: ''" ++ nl;
                 "Unexpected error: Mood cannot be empty."] Returned, demo_machine).
Proof.
  apply (main_blank_arguments silent_world "main.py" [" "; ""] demo_machine).
  - discriminate.
  - reflexivity.
Defined.

(** ** The callback of the authorization script *)

Lemma append_empty_r (s : string) : s ++ "" = s.
Proof. induction s as [|c r IH]; cbn; [reflexivity|now rewrite IH]. Qed.

Lemma append_assoc3 (a b c : string) : (a ++ b) ++ c = a ++ b ++ c.
Proof. induction a as [|x r IH]; cbn; [reflexivity|now rewrite IH]. Qed.

Lemma prefix_append (sep rest : string) : String.prefix sep (sep ++ rest) = true.
Proof.
  induction sep as [|c r IH]; cbn; [now destruct rest|].
  destruct (ascii_dec c c); [exact IH|congruence].
Qed.

Lemma contains_prefix (sep s : string) :
  String.prefix sep s = true -> contains sep s = true.
Proof. intros H. destruct s; cbn [contains]; now rewrite H. Qed.

Lemma contains_cons (sep : string) (c : ascii) (s : string) :
  contains sep (String c s)
  = if String.prefix sep (String c s) then true else contains sep s.
Proof. reflexivity. Qed.

Lemma contains_append (sep pre rest : string) :
  contains sep (pre ++ sep ++ rest) = true.
Proof.
  induction pre as [|c r IH].
  - change ("" ++ sep ++ rest) with (sep ++ rest).
    apply contains_prefix. apply prefix_append.
  - change (String c r ++ sep ++ rest) with (String c (r ++ sep ++ rest)).
    rewrite contains_cons, IH. now destruct (String.prefix _ _).
Qed.

Lemma split_from_nonempty (sep s cur : string) (k : nat) : split_from sep s cur k <> [].
Proof.
  revert cur k. induction s as [|c r IH]; intros cur k; cbn [split_from]; [discriminate|].
  destruct k; [|apply IH]. destruct (String.prefix sep (String c r)); [discriminate|apply IH].
Qed.

Lemma last_cons_nonempty (x : string) (l : list string) :
  l <> [] -> last (x :: l) "" = last l "".
Proof. destruct l; [congruence|reflexivity]. Qed.

(** A text without the separator is one piece. *)
Lemma split_without_separator (sep s cur : string) :
  contains sep s = false -> split_from sep s cur 0 = [cur ++ s].
Proof.
  revert cur. induction s as [|c r IH]; intros cur H.
  - cbn. now rewrite append_empty_r.
  - cbn [contains] in H. cbn [split_from].
    destruct (String.prefix sep (String c r)); [discriminate|].
    rewrite (IH _ H). now rewrite append_assoc3.
Qed.

Lemma split_at_code (rest cur : string) :
  split_from "code=" ("code=" ++ rest) cur 0 = cur :: split_from "code=" rest "" 0.
Proof. destruct rest; reflexivity. Qed.

Lemma split_from_cons (sep : string) (c : ascii) (r cur : string) :
  split_from sep (String c r) cur 0
  = if String.prefix sep (String c r)
    then cur :: split_from sep r "" (String.length sep - 1)
    else split_from sep r (cur ++ String c "") 0.
Proof. reflexivity. Qed.

(** The separator [code=] does not overlap itself, so the last piece is
    what follows its last occurrence. *)
Lemma last_piece_after_code (n : nat) :
  forall pre rest cur,
    (String.length pre <= n)%nat ->
    contains "code=" rest = false ->
    last (split_from "code=" (pre ++ "code=" ++ rest) cur 0) "" = rest.
Proof.
  assert (forall rest cur, contains "code=" rest = false ->
            last (split_from "code=" ("code=" ++ rest) cur 0) "" = rest) as Hbase.
  { intros rest cur Hrest. rewrite split_at_code.
    rewrite last_cons_nonempty by apply split_from_nonempty.
    now rewrite (split_without_separator "code=" rest "" Hrest). }
  induction n as [|n IH]; intros pre rest cur Hlen Hrest.
  - destruct pre; [|cbn in Hlen; lia]. now apply Hbase.
  - destruct pre as [|a pre]; [now apply Hbase|].
    change (String a pre ++ "code=" ++ rest) with (String a (pre ++ "code=" ++ rest)).
    rewrite split_from_cons. cbn [String.length] in Hlen.
    destruct (String.prefix "code=" (String a (pre ++ "code=" ++ rest))) eqn:Hp.
    + cbn [String.prefix] in Hp. destruct (ascii_dec "c" a) as [<-|]; [|discriminate].
      destruct pre as [|b pre]; cbn [String.prefix String.append] in Hp;
        [destruct (ascii_dec _ _); discriminate|].
      destruct (ascii_dec "o" b) as [<-|]; [|discriminate].
      destruct pre as [|b pre]; cbn [String.prefix String.append] in Hp;
        [destruct (ascii_dec _ _); discriminate|].
      destruct (ascii_dec "d" b) as [<-|]; [|discriminate].
      destruct pre as [|b pre]; cbn [String.prefix String.append] in Hp;
        [destruct (ascii_dec _ _); discriminate|].
      destruct (ascii_dec "e" b) as [<-|]; [|discriminate].
      destruct pre as [|b pre]; cbn [String.prefix String.append] in Hp;
        [destruct (ascii_dec _ _); discriminate|].
      destruct (ascii_dec "=" b) as [<-|]; [|discriminate].
      rewrite last_cons_nonempty by apply split_from_nonempty.
      change (split_from "code=" ("ode=" ++ pre ++ "code=" ++ rest) ""
                (String.length "code=" - 1))
        with (split_from "code=" (pre ++ "code=" ++ rest) "" 0).
      apply IH; [cbn [String.length] in Hlen; lia|exact Hrest].
    + apply IH; [lia|exact Hrest].
Qed.

(** X20.  The code the script sends to the token endpoint is everything
    that follows the last [code=] of the request path, later query
    parameters included. *)
Theorem callback_code_is_suffix (CLIENT_ID CLIENT_SECRET pre rest : string)
  (answer : request -> reply) :
  contains "code=" rest = false ->
  exchanged (do_GET CLIENT_ID CLIENT_SECRET answer (pre ++ "code=" ++ rest))
  = [code_request CLIENT_ID CLIENT_SECRET rest]
  /\ lookup "code" (payload (code_request CLIENT_ID CLIENT_SECRET rest))
     = Some (VStr rest).
Proof.
  intros H. split; [|reflexivity]. unfold do_GET. rewrite contains_append. cbn [negb].
  unfold py_split. rewrite (last_piece_after_code (String.length pre) pre rest "" (le_n _) H).
  destruct (answer _) as [r|msg]; [|reflexivity].
  destruct (json r) as [decoded|]; [|reflexivity].
  destruct (py_get decoded "refresh_token" VNone) as [tok|]; [|reflexivity].
  destruct (truthy tok); reflexivity.
Qed.

Lemma callback_code_is_suffix_witness :
  exchanged (do_GET "id" "secret" (fun _ => Failed "unreachable")
               ("/callback?" ++ "code=" ++ "abc&state=xyz"))
  = [code_request "id" "secret" "abc&state=xyz"].
Proof.
  apply (proj1 (callback_code_is_suffix "id" "secret" "/callback?" "abc&state=xyz"
                  (fun _ => Failed "unreachable") eq_refl)).
Defined.

(** X21.  A callback sends a request exactly when its path holds
    [code=], and then one request only, the exchange of a code, whatever
    the token endpoint answers.  A path without [code=] is the one case in
    which the browser gets status 400 and the text about the missing code,
    nothing is printed and the handler returns, so that the server goes on
    waiting; with [code=] the status is 200 and the handler ends the
    process or fails.  Either way [send_response] leaves one line, with
    that status, in the access log on standard error. *)
Theorem callback_exchanges_once (CLIENT_ID CLIENT_SECRET path : string)
  (answer : request -> reply) :
  (exchanged (do_GET CLIENT_ID CLIENT_SECRET answer path) = []
   <-> contains "code=" path = false)
  /\ (finished (do_GET CLIENT_ID CLIENT_SECRET answer path) = KeepServing
      <-> contains "code=" path = false)
  /\ (console (do_GET CLIENT_ID CLIENT_SECRET answer path) = []
      <-> contains "code=" path = false)
  /\ (contains "code=" path = false ->
      http_status (do_GET CLIENT_ID CLIENT_SECRET answer path) = 400
      /\ body_written (do_GET CLIENT_ID CLIENT_SECRET answer path)
         = "Missing code in callback.")
  /\ (contains "code=" path = true ->
      http_status (do_GET CLIENT_ID CLIENT_SECRET answer path) = 200
      /\ exists code,
          exchanged (do_GET CLIENT_ID CLIENT_SECRET answer path)
          = [code_request CLIENT_ID CLIENT_SECRET code])
  /\ access_log (do_GET CLIENT_ID CLIENT_SECRET answer path)
     = [http_status (do_GET CLIENT_ID CLIENT_SECRET answer path)].
Proof.
  unfold do_GET. destruct (contains "code=" path); cbn [negb].
  - destruct (answer _) as [r|msg].
    2:{ repeat split; try discriminate; try reflexivity. now eexists. }
    destruct (json r) as [decoded|].
    2:{ repeat split; try discriminate; try reflexivity. now eexists. }
    destruct (py_get decoded "refresh_token" VNone) as [tok|].
    2:{ repeat split; try discriminate; try reflexivity. now eexists. }
    destruct (truthy tok); repeat split; try discriminate; try reflexivity;
      now eexists.
  - repeat split; try discriminate; reflexivity.
Qed.

Lemma callback_exchanges_once_witness :
  http_status (do_GET "id" "secret" (fun _ => Failed "unreachable")
                 "/callback?error=access_denied") = 400
  /\ body_written (do_GET "id" "secret" (fun _ => Failed "unreachable")
                     "/callback?error=access_denied")
     = "Missing code in callback.".
Proof.
  apply (proj1 (proj2 (proj2 (proj2
           (callback_exchanges_once "id" "secret" "/callback?error=access_denied"
              (fun _ => Failed "unreachable")))))).
  reflexivity.
Defined.



(** ** The authorization URL *)

Lemma occurs_append (x : ascii) (a b : string) :
  occurs x (a ++ b) = occurs x a || occurs x b.
Proof.
  induction a as [|c r IH]; cbn; [reflexivity|]. rewrite IH. apply orb_assoc.
Qed.

Lemma quote_char_plain (c : ascii) :
  occurs "&" (quote_char c) = false /\ occurs "=" (quote_char c) = false
  /\ occurs "?" (quote_char c) = false /\ occurs "#" (quote_char c) = false
  /\ occurs " " (quote_char c) = false.
Proof.
  destruct c as [[] [] [] [] [] [] [] []]; repeat split; reflexivity.
Qed.

Lemma quote_plus_plain (s : string) :
  occurs "&" (quote_plus s) = false /\ occurs "=" (quote_plus s) = false
  /\ occurs "?" (quote_plus s) = false /\ occurs "#" (quote_plus s) = false
  /\ occurs " " (quote_plus s) = false.
Proof.
  induction s as [|c r (H1 & H2 & H3 & H4 & H5)]; [repeat split|].
  destruct (quote_char_plain c) as (C1 & C2 & C3 & C4 & C5).
  cbn [quote_plus]. rewrite !occurs_append, H1, H2, H3, H4, H5, C1, C2, C3, C4, C5.
  repeat split.
Qed.

(** X23.  Whatever client id is typed in, the authorization URL has the
    same four parameters in the same order, and the encoded id holds no
    ampersand, equals sign, question mark, hash or space: the id cannot
    add or change a parameter. *)
Theorem auth_url_parameters (CLIENT_ID : string) :
  auth_url CLIENT_ID
  = "https://accounts.spotify.com/authorize?client_id=" ++ quote_plus CLIENT_ID
    ++ "&response_type=code"
    ++ "&redirect_uri=http%3A%2F%2F127.0.0.1%3A8888%2Fcallback"
    ++ "&scope=playlist-read-private+playlist-read-collaborative"
  /\ occurs "&" (quote_plus CLIENT_ID) = false
  /\ occurs "=" (quote_plus CLIENT_ID) = false
  /\ occurs "?" (quote_plus CLIENT_ID) = false
  /\ occurs "#" (quote_plus CLIENT_ID) = false
  /\ occurs " " (quote_plus CLIENT_ID) = false.
Proof.
  split; [|apply quote_plus_plain].
  unfold auth_url, urlencode, join. cbn [map fst snd String.concat].
  change (quote_plus "client_id") with "client_id".
  change (quote_plus "response_type") with "response_type".
  change (quote_plus "code") with "code".
  change (quote_plus "redirect_uri") with "redirect_uri".
  change (quote_plus "scope") with "scope".
  change (quote_plus REDIRECT_URI) with "http%3A%2F%2F127.0.0.1%3A8888%2Fcallback".
  change (quote_plus SCOPES) with "playlist-read-private+playlist-read-collaborative".
  cbn [append]. rewrite !append_assoc3. reflexivity.
Qed.

(** ** More on what the search and the tracks listing return *)

(** X24.  With the token in hand and an answer of status below 400 whose
    body is read as a playlist page, [search_playlists] returns the items
    of the page that are not null, in their order, and nothing else. *)
Theorem search_playlists_returns_items (world : env) (mood : string) (limit : Z)
  (m m1 : machine) (token body found : value) (r : response) (its : list value) :
  all_space mood = false ->
  _refresh_access_token world m = (Ok token, m1) ->
  server world (List.length (sent m1)) (search_request mood limit token) = Answered r ->
  status_code r < 400 ->
  json r = Some body ->
  py_get body "playlists" (VDict []) = Ok found ->
  py_get found "items" (VList []) = Ok (VList its) ->
  search_playlists world mood limit m
  = (Ok (filter (fun p => negb (is_none p)) its),
     asked m1 (search_request mood limit token)).
Proof.
  intros Hb E Hr Hs Hj Hf Hi. unfold search_playlists.
  rewrite blank_all_space, Hb. unfold bind at 1.
  rewrite (call_spotify_answered world _ _ m m1 token r E Hr).
  replace (status_code r =? 429) with false by (symmetry; apply Z.eqb_neq; lia).
  replace (400 <=? status_code r) with false by (symmetry; apply Z.leb_gt; lia).
  rewrite Hj. unfold bind, lift, ret. now rewrite Hf, Hi.
Qed.

Lemma search_playlists_returns_items_witness :
  search_playlists nulls_world "happy" 10 demo_machine
  = (Ok (filter (fun p => negb (is_none p)) [VNone; VNone]),
     asked demo_granted (search_request "happy" 10 (VStr "BQD"))).
Proof.
  apply (search_playlists_returns_items nulls_world "happy" 10 demo_machine demo_granted
           (VStr "BQD")
           (VDict [("playlists", VDict [("items", VList [VNone; VNone])])])
           (VDict [("items", VList [VNone; VNone])])
           demo_nulls [VNone; VNone]);
    reflexivity.
Defined.

(** X25.  A track payload that names no artists and carries no links is
    still listed: its entry has the empty text for the artists and None
    for both links, and the formatter shows it with the placeholder. *)
Theorem bare_track_is_listed (d : list (string * value)) (rank : Z) :
  lookup "artists" d = None ->
  lookup "external_urls" d = None ->
  lookup "preview_url" d = None ->
  track_entry (VDict d)
  = Ok (VDict [("name", field d "name"); ("artists", VStr "");
               ("preview_url", VNone); ("track_url", VNone)])
  /\ format_track rank (VDict [("name", field d "name"); ("artists", VStr "");
                               ("preview_url", VNone); ("track_url", VNone)])
     = Ok (str_of_Z rank ++ ". " ++ py_str (field d "name") ++ " " ++ em_dash ++ " "
           ++ "" ++ "  |  Preview/Link: " ++ "No preview").
Proof.
  intros Ha He Hp. split; [|reflexivity].
  unfold track_entry, field. cbn [py_get obind]. rewrite Ha, He, Hp. reflexivity.
Qed.

Lemma bare_track_is_listed_witness :
  track_entry (VDict [("name", VStr "Intro")])
  = Ok (VDict [("name", field [("name", VStr "Intro")] "name"); ("artists", VStr "");
               ("preview_url", VNone); ("track_url", VNone)]).
Proof.
  apply (proj1 (bare_track_is_listed [("name", VStr "Intro")] 1 eq_refl eq_refl eq_refl)).
Defined.

(** X26.  When the playlist chosen has no id, the tracks are asked of the
    playlist called None: the last request of the run goes to the URL with
    the text None in the place of the id. *)
Theorem missing_id_asks_for_none (world : env) (mood : string) (limit top_n : Z)
  (m m' : machine) (result : value) (d : list (string * value))
  (external_url owner : value) (tracks : list value) :
  search_by_mood world mood limit top_n m = (Ok result, m') ->
  result = VDict [("playlist", playlist_info d external_url owner);
                  ("tracks", VList tracks)] ->
  field d "id" = VNone ->
  exists token,
    last (sent m') (token_request (tool m))
    = api_request "https://api.spotify.com/v1/playlists/None/tracks"
        [("limit", VInt 50)] token.
Proof.
  intros E Hres Hid.
  destruct (search_by_mood_parts _ _ _ _ _ _ _ E)
    as (pls & m1 & d' & eu & ow & ts & _ & _ & Et & Hres').
  rewrite Hres in Hres'. injection Hres' as Hid' _ _ _ _ _.
  rewrite <- Hid', Hid in Et.
  destruct (get_playlist_top_tracks_ok_sent _ _ _ _ _ _ Et) as (token & refreshes & _ & Hs).
  exists token. rewrite Hs, !app_assoc. apply last_last.
Qed.

Lemma missing_id_asks_for_none_witness :
  exists token,
    last (sent (snd (search_by_mood
                       (Env (fun n => 1000 + Z.of_nat n)
                            (fun _ r =>
                               match meth r with
                               | POST => Answered demo_token
                               | GET =>
                                   if String.eqb (url r) SPOTIFY_SEARCH_URL
                                   then Answered
                                          (Response 200 ""
                                             (Some (VDict [("playlists",
                                                            VDict [("items",
                                                                    VList [VDict [("name", VStr "x")]])])]))
                                             [])
                                   else Answered demo_tracks
                               end))
                       "happy" 10 5 demo_machine)))
         (token_request (tool demo_machine))
    = api_request "https://api.spotify.com/v1/playlists/None/tracks"
        [("limit", VInt 50)] token.
Proof.
  match goal with
  | |- context [search_by_mood ?w "happy" 10 5 demo_machine] =>
      destruct (search_by_mood w "happy" 10 5 demo_machine) as [o m'] eqn:E
  end.
  assert (exists ts, o = Ok (VDict [("playlist", playlist_info [("name", VStr "x")] VNone VNone);
                                    ("tracks", VList ts)])) as [ts ->]
      by (vm_compute in E; injection E as <- _; now eexists).
  cbn [snd].
  exact (missing_id_asks_for_none _ "happy" 10 5 demo_machine m' _
           [("name", VStr "x")] VNone VNone ts E eq_refl eq_refl).
Defined.

(** X27.  Without an agent, the text the helper returns for a mood is an
    error message or the rendering of a playlist with at most five tracks:
    the helper always searches with the default limits. *)
Theorem shown_text_lists_at_most_five (world : env) (mood text : string)
  (m m' : machine) :
  handle_mood_with_agent world None mood m = (Ok text, m') ->
  (exists e, text = "Spotify API error: " ++ exn_msg e
             /\ exn_kind e = SpotifySearchError)
  \/ (exists e, text = "Unexpected error: " ++ exn_msg e
                /\ exn_kind e <> SpotifySearchError)
  \/ (exists p ds, text = rendering p ds /\ (List.length ds <= 5)%nat).
Proof.
  unfold handle_mood_with_agent, try_except. fold (recommend world mood).
  destruct (recommend world mood m) as [[s|e] m1] eqn:E.
  - intros H. injection H as <- _. right. right.
    exact (recommend_at_most_five world mood m m1 s E).
  - unfold ret. destruct (exn_class_eqb (exn_kind e) SpotifySearchError) eqn:Hk;
      intros H; injection H as <- _.
    + left. exists e. split; [reflexivity|]. destruct (exn_kind e); try discriminate.
      reflexivity.
    + right. left. exists e. split; [reflexivity|]. intros Hs. rewrite Hs in Hk.
      discriminate.
Qed.

Lemma shown_text_lists_at_most_five_witness :
  (exists e, "Unexpected error: Mood cannot be empty." = "Spotify API error: " ++ exn_msg e
             /\ exn_kind e = SpotifySearchError)
  \/ (exists e, "Unexpected error: Mood cannot be empty." = "Unexpected error: " ++ exn_msg e
                /\ exn_kind e <> SpotifySearchError)
  \/ (exists p ds, "Unexpected error: Mood cannot be empty." = rendering p ds
                   /\ (List.length ds <= 5)%nat).
Proof.
  apply (shown_text_lists_at_most_five silent_world " " _ demo_machine demo_machine).
  reflexivity.
Defined.
